(** * Vessel / oil-spill correlation (app.py): model and verified properties

    The analysis script joins AIS position fixes against oil-spill polygons
    ([find_candidates]) and derives rankings from the joined table.  The
    tables of the script are pandas / geopandas frames; they are modelled as
    a list of column labels together with a list of typed rows.

    Idealisations, stated once:
    - timestamps ([datetime64[ns]]) and time deltas are integers counting
      nanoseconds, taken in [Z] (no out-of-bounds timestamps);
    - coordinates and areas ([float64]) are rationals;
    - [spill_id] and [area_sq_km] cells are not null, and the column [mmsi]
      of the CSV file is numeric: a cell is a number or missing. *)

From Stdlib Require Import ZArith QArith Qminmax List String Bool Lia Lqa.
From Stdlib Require Import Permutation Sorted.
Import ListNotations.

Set Implicit Arguments.

(** ** Point location, as done by the geometry engine behind [sjoin]

    [gpd.sjoin(..., predicate='within')] queries the spatial index with the
    spill geometries and the predicate [contains], which GEOS evaluates on
    the prepared spill geometry: the point is located by the geometry's
    indexed point-in-area locator, and it is [within] the area exactly
    when that location is the interior.  The locator feeds the segments of
    all the rings of the geometry (every shell and every hole of every
    part) to one ray-crossing counter. *)
Module Geom.

Definition Coordinate : Type := (Q * Q)%type.
Definition cx (p : Coordinate) : Q := fst p.
Definition cy (p : Coordinate) : Q := snd p.

Inductive Location : Type := INTERIOR | BOUNDARY | EXTERIOR.

Definition Location_eqb (a b : Location) : bool :=
  match a, b with
  | INTERIOR, INTERIOR | BOUNDARY, BOUNDARY | EXTERIOR, EXTERIOR => true
  | _, _ => false
  end.

Definition Qlt_bool (x y : Q) : bool :=
  match Qcompare x y with Lt => true | _ => false end.

(** Sign of the cross product (p2 - p1) x (q - p1): [Gt] when [q] is to the
    left of the directed segment, [Lt] to the right, [Eq] when collinear. *)
Definition orientationIndex (p1 p2 q : Coordinate) : comparison :=
  Qcompare ((cx p2 - cx p1) * (cy q - cy p1) - (cy p2 - cy p1) * (cx q - cx p1)) 0.

Record RayCrossingCounter : Type := mkRCC {
  crossingCount : nat;
  isPointOnSegment : bool
}.

Definition rcc_init : RayCrossingCounter := mkRCC 0 false.
Definition rcc_on (rc : RayCrossingCounter) : RayCrossingCounter :=
  mkRCC (crossingCount rc) true.
Definition rcc_cross (rc : RayCrossingCounter) : RayCrossingCounter :=
  mkRCC (S (crossingCount rc)) (isPointOnSegment rc).

Definition countSegment (pt p1 p2 : Coordinate) (rc : RayCrossingCounter)
  : RayCrossingCounter :=
  if Qlt_bool (cx p1) (cx pt) && Qlt_bool (cx p2) (cx pt) then rc
  else if Qeq_bool (cx pt) (cx p2) && Qeq_bool (cy pt) (cy p2) then rcc_on rc
  else if Qeq_bool (cy p1) (cy pt) && Qeq_bool (cy p2) (cy pt) then
    if Qle_bool (Qmin (cx p1) (cx p2)) (cx pt)
       && Qle_bool (cx pt) (Qmax (cx p1) (cx p2))
    then rcc_on rc else rc
  else if (Qlt_bool (cy pt) (cy p1) && Qle_bool (cy p2) (cy pt))
          || (Qlt_bool (cy pt) (cy p2) && Qle_bool (cy p1) (cy pt)) then
    match orientationIndex p1 p2 pt with
    | Eq => rcc_on rc
    | sign =>
        let sign' := if Qlt_bool (cy p2) (cy p1) then CompOpp sign else sign in
        match sign' with Gt => rcc_cross rc | _ => rc end
    end
  else rc.

Definition getLocation (rc : RayCrossingCounter) : Location :=
  if isPointOnSegment rc then BOUNDARY
  else if Nat.odd (crossingCount rc) then INTERIOR else EXTERIOR.

(** A ring is the closed vertex sequence of GeoJSON (first = last). *)
Definition Ring : Type := list Coordinate.

(** The segments of a ring, from [prev] on, counted one after the other. *)
Fixpoint countRing (pt : Coordinate) (prev : Coordinate) (rest : Ring)
  (rc : RayCrossingCounter) : RayCrossingCounter :=
  match rest with
  | [] => rc
  | p :: rest' => countRing pt p rest' (countSegment pt prev p rc)
  end.

Definition countSegments (pt : Coordinate) (rc : RayCrossingCounter) (ring : Ring)
  : RayCrossingCounter :=
  match ring with
  | [] => rc
  | p0 :: rest => countRing pt p0 rest rc
  end.

Record Polygon : Type := mkPolygon {
  shell : Ring;
  holes : list Ring
}.

(** The geometry of a spill feature: a polygon or a multi-polygon. *)
Inductive Geometry : Type :=
| GPolygon (p : Polygon)
| GMultiPolygon (ps : list Polygon).

(** The linear components of an areal geometry: the shell and the holes of
    every part. *)
Definition polygon_rings (p : Polygon) : list Ring := shell p :: holes p.

Definition getLines (g : Geometry) : list Ring :=
  match g with
  | GPolygon p => polygon_rings p
  | GMultiPolygon ps => flat_map polygon_rings ps
  end.

(** The indexed locator: one counter over the segments of all the rings.
    The parts and the holes are not told apart; on a geometry whose rings
    cross or overlap the outcome is the parity of all the crossings. *)
Definition locate (pt : Coordinate) (g : Geometry) : Location :=
  getLocation (fold_left (countSegments pt) (getLines g) rcc_init).

(** [Point.within(area)]: the point lies in the interior of the area. *)
Definition within (pt : Coordinate) (g : Geometry) : bool :=
  Location_eqb (locate pt g) INTERIOR.

(** Containment in the closed area (boundary points count), the relation
    GEOS calls [coveredBy]; the script does not use it. *)
Definition covered_by (pt : Coordinate) (g : Geometry) : bool :=
  negb (Location_eqb (locate pt g) EXTERIOR).

(** The rectangle with the corners (x0, y0) and (x1, y1), its ring running
    counter-clockwise from the lower left corner. *)
Definition rectangle (x0 y0 x1 y1 : Q) : Geometry :=
  GPolygon (mkPolygon [(x0, y0); (x1, y0); (x1, y1); (x0, y1); (x0, y0)] []).

End Geom.

(** ** Frames *)

Record DataFrame (R : Type) : Type := mkDataFrame {
  columns : list string;
  rows : list R
}.
Arguments mkDataFrame {R} _ _.

(** [gpd.GeoDataFrame()]: no columns, no rows. *)
Definition GeoDataFrame_new {R : Type} : DataFrame R := mkDataFrame [] [].

(** [df.empty]: some axis has length zero. *)
Definition empty {R : Type} (df : DataFrame R) : bool :=
  match rows df, columns df with
  | [], _ => true
  | _, [] => true
  | _, _ => false
  end.

Definition has_column {R : Type} (c : string) (df : DataFrame R) : bool :=
  existsb (String.eqb c) (columns df).

(** Boolean-mask selection [df[mask]]: same columns, the selected rows in
    their order, each with its index label. *)
Definition select {R : Type} (mask : R -> bool) (df : DataFrame R) : DataFrame R :=
  mkDataFrame (columns df) (filter mask (rows df)).

(** ** Rows *)

Definition Timestamp : Type := Z.
Definition Timedelta : Type := Z.

(** [timedelta(hours=h)] in nanoseconds. *)
Definition timedelta_hours (h : Z) : Timedelta := (h * 3600000000000)%Z.

(** A row of [vessels_gdf].  [v_index] is the index label (the line of the
    CSV file); [mmsi] is [None] for a missing cell (the loader does not
    drop such lines); [vessel_name] and [VesselType] are [None] for a null
    cell or when the column does not exist. *)
Record VesselRow : Type := mkVessel {
  v_index : Z;
  mmsi : option Z;
  latitude : Q;
  longitude : Q;
  timestamp : Timestamp;
  vessel_name : option string;
  VesselType : option string
}.

(** [points_from_xy(df.longitude, df.latitude)] *)
Definition v_geometry (v : VesselRow) : Geom.Coordinate := (longitude v, latitude v).

(** A row of [spills_gdf]. *)
Record SpillRow : Type := mkSpill {
  s_index : Z;
  spill_id : string;
  area_sq_km : Q;
  detection_date : Timestamp;
  geometry : Geom.Geometry
}.

(** A row of the joined frame: the fix, the spill it fell in, and the
    [time_to_detection] cell once that column has been assigned.  The row
    keeps the index label of the fix. *)
Record Candidate : Type := mkCandidate {
  vessel : VesselRow;
  spill : SpillRow;
  time_to_detection : option Timedelta
}.

Definition c_index (c : Candidate) : Z := v_index (vessel c).

(** ** The matcher *)

(** [gpd.sjoin(left, right, predicate='within')], inner join: one row per
    pair (left row, right row) with the left geometry within the right
    one, ordered by left position, then right position.  The result keeps
    the left index; the right index becomes the column [index_right]; the
    right geometry column is not carried over. *)
Definition sjoin_within (left : DataFrame VesselRow) (right : DataFrame SpillRow)
  : DataFrame Candidate :=
  mkDataFrame
    (columns left ++ ["index_right"%string]
       ++ filter (fun c => negb (String.eqb c "geometry")) (columns right))
    (flat_map
       (fun v =>
          map (fun s => mkCandidate v s None)
              (filter (fun s => Geom.within (v_geometry v) (geometry s)) (rows right)))
       (rows left)).

Definition in_window (time_delta : Timedelta) (c : Candidate) : bool :=
  (timestamp (vessel c) <=? detection_date (spill c))%Z
  && (timestamp (vessel c) >=? detection_date (spill c) - time_delta)%Z.

Definition find_candidates
  (spills_gdf : option (DataFrame SpillRow))
  (vessels_gdf : option (DataFrame VesselRow))
  (time_window_hours : Z) : DataFrame Candidate :=
  match spills_gdf, vessels_gdf with
  | Some spills, Some vessels =>
      let candidates := sjoin_within vessels spills in
      if empty candidates then GeoDataFrame_new
      else
        let time_delta := timedelta_hours time_window_hours in
        select (in_window time_delta) candidates
  | _, _ => GeoDataFrame_new
  end.

(** ** Exceptions and column access *)

Inductive Except (A : Type) : Type :=
| Ok (a : A)
| KeyError (key : string).
Arguments Ok {A} _.
Arguments KeyError {A} _.

Definition except_bind {A B : Type} (m : Except A) (f : A -> Except B) : Except B :=
  match m with
  | Ok a => f a
  | KeyError k => KeyError k
  end.

(** Values usable as grouping / duplicate keys.  [key_isna] marks the null
    value: [drop_duplicates] treats nulls as equal to each other, [groupby]
    leaves rows with a null key out. *)
Class Key (K : Type) : Type := {
  key_eqb : K -> K -> bool;
  key_leb : K -> K -> bool;
  key_isna : K -> bool
}.

(** [key_eqb] decides equality of keys. *)
Class KeyLaws (K : Type) `{Key K} : Prop := {
  key_eqb_eq : forall x y : K, key_eqb x y = true <-> x = y
}.
Arguments KeyLaws K {_}.

Definition option_eqb {A : Type} (eqb : A -> A -> bool) (x y : option A) : bool :=
  match x, y with
  | Some a, Some b => eqb a b
  | None, None => true
  | _, _ => false
  end.

Definition option_leb {A : Type} (leb : A -> A -> bool) (x y : option A) : bool :=
  match x, y with
  | Some a, Some b => leb a b
  | Some _, None => true
  | None, Some _ => false
  | None, None => true
  end.

(** [mmsi] cells: numbers, with [None] for the missing value. *)
#[export] Instance Key_option_Z : Key (option Z) :=
  {| key_eqb := option_eqb Z.eqb;
     key_leb := option_leb Z.leb;
     key_isna := fun o => match o with None => true | Some _ => false end |}.

#[export] Instance Key_string : Key string :=
  {| key_eqb := String.eqb; key_leb := String.leb; key_isna := fun _ => false |}.

#[export] Instance Key_option_string : Key (option string) :=
  {| key_eqb := option_eqb String.eqb;
     key_leb := option_leb String.leb;
     key_isna := fun o => match o with None => true | Some _ => false end |}.

#[export] Instance Key_pair {A B : Type} `{Key A} `{Key B} : Key (A * B) :=
  {| key_eqb := fun p q => key_eqb (fst p) (fst q) && key_eqb (snd p) (snd q);
     key_leb := fun p q =>
       if key_eqb (fst p) (fst q) then key_leb (snd p) (snd q)
       else key_leb (fst p) (fst q);
     key_isna := fun p => key_isna (fst p) || key_isna (snd p) |}.

(** One or several columns of a frame: their labels and the typed cells
    they hold in a row. *)
Record Columns (R K : Type) : Type := mkColumns {
  labels : list string;
  cells : R -> K
}.
Arguments mkColumns {R K} _ _.

Definition col_pair {R K1 K2 : Type} (c1 : Columns R K1) (c2 : Columns R K2)
  : Columns R (K1 * K2) :=
  mkColumns (labels c1 ++ labels c2) (fun r => (cells c1 r, cells c2 r)).

(** The first of [ls] that is not a column of [df]. *)
Definition missing_label {R : Type} (ls : list string) (df : DataFrame R) : option string :=
  find (fun l => negb (has_column l df)) ls.

Definition col_mmsi : Columns Candidate (option Z) :=
  mkColumns ["mmsi"%string] (fun c => mmsi (vessel c)).
Definition col_spill_id : Columns Candidate string :=
  mkColumns ["spill_id"%string] (fun c => spill_id (spill c)).
Definition col_vessel_name : Columns Candidate (option string) :=
  mkColumns ["vessel_name"%string] (fun c => vessel_name (vessel c)).
Definition col_VesselType : Columns Candidate (option string) :=
  mkColumns ["VesselType"%string] (fun c => VesselType (vessel c)).
Definition col_area_sq_km : Columns Candidate Q :=
  mkColumns ["area_sq_km"%string] (fun c => area_sq_km (spill c)).
Definition col_timestamp : Columns Candidate Timestamp :=
  mkColumns ["timestamp"%string] (fun c => timestamp (vessel c)).
Definition col_detection_date : Columns Candidate Timestamp :=
  mkColumns ["detection_date"%string] (fun c => detection_date (spill c)).
Definition col_time_to_detection : Columns Candidate (option Timedelta) :=
  mkColumns ["time_to_detection"%string] time_to_detection.

(** ** [drop_duplicates] *)

Section DropDuplicates.
Context {R K : Type} `{Key K}.
Variable key : R -> K.

(** [keep='first']: a row is kept unless an earlier row had its key. *)
Fixpoint drop_duplicates_rows (seen : list K) (l : list R) : list R :=
  match l with
  | [] => []
  | r :: l' =>
      if existsb (key_eqb (key r)) seen then drop_duplicates_rows seen l'
      else r :: drop_duplicates_rows (key r :: seen) l'
  end.
End DropDuplicates.

(** [df.drop_duplicates(subset=...)]: an empty frame is returned as it is;
    otherwise the subset labels must be columns. *)
Definition drop_duplicates {R K : Type} `{Key K} (subset : Columns R K)
  (df : DataFrame R) : Except (DataFrame R) :=
  if empty df then Ok df
  else
    match missing_label (labels subset) df with
    | Some l => KeyError l
    | None => Ok (mkDataFrame (columns df) (drop_duplicates_rows (cells subset) [] (rows df)))
    end.

(** [df[[...]]]: the frame restricted to the given columns. *)
Definition project {R K : Type} (cs : Columns R K) (df : DataFrame R)
  : Except (DataFrame K) :=
  match missing_label (labels cs) df with
  | Some l => KeyError l
  | None => Ok (mkDataFrame (labels cs) (map (cells cs) (rows df)))
  end.

Definition col_all {K : Type} (df : DataFrame K) : Columns K K :=
  mkColumns (columns df) (fun r => r).

(** ** Insertion sort *)

Section Sorting.
Context {A : Type}.
Variable leb : A -> A -> bool.

Fixpoint insert_sorted (x : A) (l : list A) : list A :=
  match l with
  | [] => [x]
  | y :: l' => if leb x y then x :: l else y :: insert_sorted x l'
  end.

(** Insertion sort; equal elements keep their order. *)
Definition insertion_sort (l : list A) : list A :=
  fold_right insert_sorted [] l.

End Sorting.

(** ** [groupby] *)

Section GroupBy.
Context {R K : Type} `{Key K}.
Variable by_ : Columns R K.

(** The group keys: the distinct non-null keys, in ascending order
    ([sort=True], [dropna=True]). *)
Definition group_keys (l : list R) : list K :=
  insertion_sort key_leb
    (drop_duplicates_rows (fun k => k) []
       (filter (fun k => negb (key_isna k)) (map (cells by_) l))).

Definition group (k : K) (l : list R) : list R :=
  filter (fun r => key_eqb (cells by_ r) k) l.

(** [df.groupby(by)[value].agg(f).reset_index(name=...)], and
    [df.groupby(by).size()] when [value] has no label. *)
Definition groupby_agg {V W : Type} (value : Columns R V) (agg : list R -> W)
  (name : string) (df : DataFrame R) : Except (DataFrame (K * W)) :=
  match missing_label (labels by_ ++ labels value) df with
  | Some l => KeyError l
  | None =>
      Ok (mkDataFrame (labels by_ ++ [name])
            (map (fun k => (k, agg (group k (rows df)))) (group_keys (rows df))))
  end.
End GroupBy.

Definition no_value {R : Type} : Columns R unit := mkColumns [] (fun _ => tt).

Definition Qsum (l : list Q) : Q := fold_left Qplus l 0%Q.

(** [nunique]: number of distinct non-null values. *)
Definition nunique {R K : Type} `{Key K} (c : Columns R K) (l : list R) : nat :=
  List.length (drop_duplicates_rows (fun k => k) []
            (filter (fun k => negb (key_isna k)) (map (cells c) l))).

(** [count]: number of non-null cells. *)
Definition count {R K : Type} `{Key K} (c : Columns R K) (l : list R) : nat :=
  List.length (filter (fun r => negb (key_isna (cells c r))) l).

(** [idxmin]: the index label of the first row holding the smallest
    non-null value; nothing when every value is null. *)
Fixpoint idxmin_from (best : Z * Timedelta) (l : list Candidate) : Z :=
  match l with
  | [] => fst best
  | c :: l' =>
      match time_to_detection c with
      | Some t => if (t <? snd best)%Z then idxmin_from (c_index c, t) l'
                  else idxmin_from best l'
      | None => idxmin_from best l'
      end
  end.

Fixpoint idxmin (l : list Candidate) : option Z :=
  match l with
  | [] => None
  | c :: l' =>
      match time_to_detection c with
      | Some t => Some (idxmin_from (c_index c, t) l')
      | None => idxmin l'
      end
  end.

(** ** [sort_values] and [merge] *)

(** The order a comparison function decides. *)
Definition leb_rel {A : Type} (leb : A -> A -> bool) (x y : A) : Prop :=
  leb x y = true.

(** A sorting routine: given the order, the rows in sorted order. *)
Definition Sorter : Type := forall A : Type, (A -> A -> bool) -> list A -> list A.

Definition sorter_permutes (sort : Sorter) : Prop :=
  forall (A : Type) (leb : A -> A -> bool) (l : list A), Permutation (sort A leb l) l.

Definition total_preorder {A : Type} (leb : A -> A -> bool) : Prop :=
  (forall x y, leb x y = true \/ leb y x = true)
  /\ (forall x y z, leb x y = true -> leb y z = true -> leb x z = true).

Definition sorter_sorts (sort : Sorter) : Prop :=
  forall (A : Type) (leb : A -> A -> bool) (l : list A),
    total_preorder leb ->
    StronglySorted (fun x y => leb x y = true) (sort A leb l).

(** *** [argsort(kind='quicksort')]

    [sort_values] is called without [kind=], so the rows are ordered by
    [ndarray.argsort(kind='quicksort')]: numpy's [aquicksort], an
    introsort over the array of row positions.  A range of more than 17
    rows is partitioned around the median of its first, middle and last
    row; a range of at most 17 rows is sorted by insertion; a range whose
    depth limit is used up is sorted by [aheapsort].  The array is a list
    here, the pointers [pl], [pr], [pi], [pj] are positions in it, and
    every loop runs on fuel that the length of the array covers. *)

Section Quicksort.
Local Open Scope nat_scope.
Context {A : Type}.
Variable less : A -> A -> bool.
(** The row read at a position outside the array; no such read occurs. *)
Variable d : A.

Definition aget (a : list A) (i : nat) : A := nth i a d.

Fixpoint aset (a : list A) (i : nat) (x : A) {struct a} : list A :=
  match a with
  | [] => []
  | y :: a' => match i with O => x :: a' | S i' => y :: aset a' i' x end
  end.

(** [INTP_SWAP]: the rows at two positions change places. *)
Definition swap (a : list A) (i j : nat) : list A :=
  aset (aset a i (aget a j)) j (aget a i).

Definition SMALL_QUICKSORT : nat := 16.

(** [do { ++pi; } while (less(v[*pi], vp));] *)
Fixpoint scan_up (fuel : nat) (a : list A) (vp : A) (pi : nat) : nat :=
  match fuel with
  | O => pi
  | S fuel' =>
      if less (aget a (S pi)) vp then scan_up fuel' a vp (S pi) else S pi
  end.

(** [do { --pj; } while (less(vp, v[*pj]));] *)
Fixpoint scan_down (fuel : nat) (a : list A) (vp : A) (pj : nat) : nat :=
  match fuel with
  | O => pj
  | S fuel' =>
      if less vp (aget a (pred pj)) then scan_down fuel' a vp (pred pj) else pred pj
  end.

(** [for (;;) { ...; if (pi >= pj) break; INTP_SWAP; }] *)
Fixpoint partition (fuel : nat) (a : list A) (vp : A) (pi pj : nat) : list A * nat :=
  match fuel with
  | O => (a, pi)
  | S fuel' =>
      let pi' := scan_up (List.length a) a vp pi in
      let pj' := scan_down (List.length a) a vp pj in
      if pj' <=? pi' then (a, pi')
      else partition fuel' (swap a pi' pj') vp pi' pj'
  end.

(** [while (pj > pl && less(vp, v[*pk])) { *pj-- = *pk--; }] *)
Fixpoint shift (fuel : nat) (a : list A) (vp : A) (pl pj : nat) : list A * nat :=
  match fuel with
  | O => (a, pj)
  | S fuel' =>
      if (pl <? pj) && less vp (aget a (pred pj))
      then shift fuel' (aset a pj (aget a (pred pj))) vp pl (pred pj)
      else (a, pj)
  end.

(** [for (pi = pl + 1; pi <= pr; ++pi) { vi = *pi; ...; *pj = vi; }] *)
Fixpoint insertion (todo : nat) (a : list A) (pl pi : nat) : list A :=
  match todo with
  | O => a
  | S todo' =>
      let vi := aget a pi in
      let '(a', pj) := shift (List.length a) a vi pl pi in
      insertion todo' (aset a' pj vi) pl (S pi)
  end.

(** [aheapsort] of the [n] rows from [pl] on; the heap is indexed from 1,
    so that heap position [i] is array position [pl + i - 1]. *)
Fixpoint sift (fuel : nat) (a : list A) (pl : nat) (tmp : A) (i j n : nat) : list A :=
  match fuel with
  | O => aset a (pl + i - 1) tmp
  | S fuel' =>
      if j <=? n then
        let j' := if (j <? n) && less (aget a (pl + j - 1)) (aget a (pl + j))
                  then S j else j in
        if less tmp (aget a (pl + j' - 1))
        then sift fuel' (aset a (pl + i - 1) (aget a (pl + j' - 1))) pl tmp j' (j' + j') n
        else aset a (pl + i - 1) tmp
      else aset a (pl + i - 1) tmp
  end.

(** [for (l = n >> 1; l > 0; --l) { tmp = a[l]; ... }] *)
Fixpoint heapify (l : nat) (a : list A) (pl n : nat) : list A :=
  match l with
  | O => a
  | S l' => heapify l' (sift n a pl (aget a (pl + l - 1)) l (l + l) n) pl n
  end.

(** [for (; n > 1;) { tmp = a[n]; a[n] = a[1]; n -= 1; ... }] *)
Fixpoint extract (n : nat) (a : list A) (pl : nat) : list A :=
  match n with
  | O | 1 => a
  | S n' =>
      let tmp := aget a (pl + n - 1) in
      extract n' (sift n (aset a (pl + n - 1) (aget a pl)) pl tmp 1 2 n') pl
  end.

Definition aheapsort (a : list A) (pl n : nat) : list A :=
  extract n (heapify (n / 2) a pl n) pl.

(** The ranges still to be sorted, each with its depth limit. *)
Definition Stack : Type := list (nat * nat * Z).

(** [while ((pr - pl) > SMALL_QUICKSORT) { ... }]: the larger part is
    pushed, the smaller one is partitioned further. *)
Fixpoint partitions (fuel : nat) (a : list A) (pl pr : nat) (cdepth : Z) (stack : Stack)
  : list A * (nat * nat) * Stack :=
  match fuel with
  | O => (a, (pl, pr), stack)
  | S fuel' =>
      if SMALL_QUICKSORT <? pr - pl then
        let pm := pl + (pr - pl) / 2 in
        let a := if less (aget a pm) (aget a pl) then swap a pm pl else a in
        let a := if less (aget a pr) (aget a pm) then swap a pr pm else a in
        let a := if less (aget a pm) (aget a pl) then swap a pm pl else a in
        let vp := aget a pm in
        let a := swap a pm (pr - 1) in
        let '(a, pi) := partition (List.length a) a vp pl (pr - 1) in
        let a := swap a pi (pr - 1) in
        let cdepth := (cdepth - 1)%Z in
        if pi - pl <? pr - pi
        then partitions fuel' a pl (pi - 1) cdepth ((S pi, pr, cdepth) :: stack)
        else partitions fuel' a (S pi) pr cdepth ((pl, pi - 1, cdepth) :: stack)
      else (a, (pl, pr), stack)
  end.

(** [while (1) { ...; stack_pop: if (sptr == stack) break; ... }] *)
Fixpoint aquicksort (fuel : nat) (a : list A) (pl pr : nat) (cdepth : Z) (stack : Stack)
  : list A :=
  match fuel with
  | O => a
  | S fuel' =>
      let '(a, stack) :=
        if (cdepth <? 0)%Z then (aheapsort a pl (pr - pl + 1), stack)
        else
          let '(a, (pl, pr), stack) := partitions (List.length a) a pl pr cdepth stack in
          (insertion (pr - pl) a pl (S pl), stack) in
      match stack with
      | [] => a
      | (pl, pr, cdepth) :: stack => aquicksort fuel' a pl pr cdepth stack
      end
  end.
End Quicksort.

(** The rows in the order of [argsort(kind='quicksort')]: a row is less
    than another when the other is not at most it, and the depth limit is
    twice the position of the highest bit of the length. *)
Definition quicksort : Sorter := fun A leb l =>
  match l with
  | [] => []
  | d :: _ =>
      aquicksort (fun x y => negb (leb y x)) d (S (List.length l)) l 0%nat
        (List.length l - 1)%nat (2 * Z.of_nat (Nat.log2 (List.length l)))%Z []
  end.

(** [sort_values(col, ascending=False)].  For a descending sort pandas
    reverses the rows, sorts ascending, and reverses the outcome.  The
    routine is a parameter [sort]: [quicksort] is the one the program runs,
    and what depends only on the rows being permuted and ordered
    ([sorter_permutes], [sorter_sorts]) is stated for every routine. *)
Definition sort_values_desc {R V : Type} (sort : Sorter) (leb : V -> V -> bool)
  (value : R -> V) (df : DataFrame R) : DataFrame R :=
  mkDataFrame (columns df)
    (rev (sort R (fun a b => leb (value a) (value b)) (rev (rows df)))).

(** A row of a ranking table: the group key, the aggregate, and the
    [vessel_name] cell when that column has been merged in. *)
Record RankRow (K V : Type) : Type := mkRank {
  r_key : K;
  r_value : V;
  r_vessel_name : option string
}.
Arguments mkRank {K V} _ _ _.

Definition rank_rows {K V : Type} (df : DataFrame (K * V)) : DataFrame (RankRow K V) :=
  mkDataFrame (columns df) (map (fun kv => mkRank (fst kv) (snd kv) None) (rows df)).

(** [pd.merge(left, ship_names, on='mmsi', how='left')]: every left row, in
    order, once per matching right row; a left row without match is kept
    with a null name. *)
Definition merge_left {V : Type} (left : DataFrame (RankRow (option Z) V))
  (right : DataFrame (option Z * option string)) : DataFrame (RankRow (option Z) V) :=
  mkDataFrame (columns left ++ ["vessel_name"%string])
    (flat_map
       (fun l =>
          match filter (fun r => key_eqb (fst r) (r_key l)) (rows right) with
          | [] => [mkRank (r_key l) (r_value l) None]
          | ms => map (fun r => mkRank (r_key l) (r_value l) (snd r)) ms
          end)
       (rows left)).

(** ** The report table and the analytics of the script *)

(** [report_df = candidates_df.drop_duplicates(subset=['spill_id', 'mmsi'])] *)
Definition report_df (candidates_df : DataFrame Candidate) : Except (DataFrame Candidate) :=
  drop_duplicates (col_pair col_spill_id col_mmsi) candidates_df.

(** [unique_incidents = candidates_df.drop_duplicates(subset=['mmsi', 'spill_id'])] *)
Definition unique_incidents (candidates_df : DataFrame Candidate)
  : Except (DataFrame Candidate) :=
  drop_duplicates (col_pair col_mmsi col_spill_id) candidates_df.

(** [ship_names = unique_incidents[['mmsi', 'vessel_name']].drop_duplicates()] *)
Definition ship_names (unique_incidents : DataFrame Candidate)
  : Except (DataFrame (option Z * option string)) :=
  except_bind (project (col_pair col_mmsi col_vessel_name) unique_incidents)
    (fun names => drop_duplicates (col_all names) names).

(** The name merge, done only [if 'vessel_name' in unique_incidents.columns]. *)
Definition with_names {V : Type} (unique_incidents : DataFrame Candidate)
  (table : DataFrame (RankRow (option Z) V)) : Except (DataFrame (RankRow (option Z) V)) :=
  if has_column "vessel_name" unique_incidents then
    except_bind (ship_names unique_incidents)
      (fun names => Ok (merge_left table names))
  else Ok table.

(** [groupby('mmsi').size().reset_index(name='incident_count')
      .sort_values('incident_count', ascending=False).reset_index(drop=True)] *)
Definition incident_counts (unique_incidents : DataFrame Candidate)
  : Except (DataFrame (option Z * nat)) :=
  groupby_agg col_mmsi no_value (@List.length Candidate) "incident_count" unique_incidents.

Definition incident_counts_sorted (sort : Sorter) (unique_incidents : DataFrame Candidate)
  : Except (DataFrame (RankRow (option Z) nat)) :=
  except_bind (incident_counts unique_incidents)
    (fun sizes => Ok (sort_values_desc sort Nat.leb (@r_value (option Z) nat) (rank_rows sizes))).

Definition ship_incident_counts (sort : Sorter) (unique_incidents : DataFrame Candidate)
  : Except (DataFrame (RankRow (option Z) nat)) :=
  except_bind (incident_counts_sorted sort unique_incidents) (with_names unique_incidents).

(** [groupby('mmsi')['area_sq_km'].sum().reset_index(name='total_area_sq_km')
      .sort_values('total_area_sq_km', ascending=False).reset_index(drop=True)] *)
Definition area_sums (unique_incidents : DataFrame Candidate)
  : Except (DataFrame (option Z * Q)) :=
  groupby_agg col_mmsi col_area_sq_km
    (fun g => Qsum (map (cells col_area_sq_km) g)) "total_area_sq_km" unique_incidents.

Definition area_sum_sorted (sort : Sorter) (unique_incidents : DataFrame Candidate)
  : Except (DataFrame (RankRow (option Z) Q)) :=
  except_bind (area_sums unique_incidents)
    (fun sums => Ok (sort_values_desc sort Qle_bool (@r_value (option Z) Q) (rank_rows sums))).

Definition ship_area_sum (sort : Sorter) (unique_incidents : DataFrame Candidate)
  : Except (DataFrame (RankRow (option Z) Q)) :=
  except_bind (area_sum_sorted sort unique_incidents) (with_names unique_incidents).

(** [candidates_df.groupby('spill_id')['mmsi'].nunique()
      .reset_index(name='candidate_count')
      .sort_values('candidate_count', ascending=False).reset_index(drop=True)] *)
Definition distinct_vessel_counts (candidates_df : DataFrame Candidate)
  : Except (DataFrame (string * nat)) :=
  groupby_agg col_spill_id col_mmsi (nunique col_mmsi) "candidate_count" candidates_df.

Definition spill_candidate_counts (sort : Sorter) (candidates_df : DataFrame Candidate)
  : Except (DataFrame (RankRow string nat)) :=
  except_bind (distinct_vessel_counts candidates_df)
    (fun counts => Ok (sort_values_desc sort Nat.leb (@r_value string nat) (rank_rows counts))).

(** [candidates_df['time_to_detection'] =
      candidates_df['detection_date'] - candidates_df['timestamp']]:
    the frame with the column assigned. *)
Definition set_time_to_detection (c : Candidate) : Candidate :=
  mkCandidate (vessel c) (spill c)
    (Some (detection_date (spill c) - timestamp (vessel c))%Z).

Definition assign_time_to_detection (candidates_df : DataFrame Candidate)
  : Except (DataFrame Candidate) :=
  match missing_label ["detection_date"%string; "timestamp"%string] candidates_df with
  | Some l => KeyError l
  | None =>
      Ok (mkDataFrame
            (if has_column "time_to_detection" candidates_df then columns candidates_df
             else columns candidates_df ++ ["time_to_detection"%string])
            (map set_time_to_detection (rows candidates_df)))
  end.

(** [candidates_df.groupby('spill_id')['time_to_detection'].idxmin()] *)
Definition prime_suspects_idx (candidates_df : DataFrame Candidate)
  : Except (DataFrame (string * option Z)) :=
  groupby_agg col_spill_id col_time_to_detection idxmin "time_to_detection" candidates_df.

(** [df.loc[labels]]: for every label in turn, all the rows carrying that
    index label; a label carried by no row is a [KeyError]. *)
Fixpoint loc_rows (lbls : list (option Z)) (l : list Candidate) : Except (list Candidate) :=
  match lbls with
  | [] => Ok []
  | None :: _ => KeyError "nan"
  | Some i :: lbls' =>
      match filter (fun c => Z.eqb (c_index c) i) l with
      | [] => KeyError "index"
      | found => except_bind (loc_rows lbls' l) (fun more => Ok (found ++ more))
      end
  end.

Definition loc (lbls : list (option Z)) (df : DataFrame Candidate)
  : Except (DataFrame Candidate) :=
  except_bind (loc_rows lbls (rows df)) (fun l => Ok (mkDataFrame (columns df) l)).

(** [prime_suspects_df = candidates_df.loc[prime_suspects_idx]] *)
Definition prime_suspects_df (candidates_df : DataFrame Candidate)
  : Except (DataFrame Candidate) :=
  except_bind (prime_suspects_idx candidates_df)
    (fun idx => loc (map snd (rows idx)) candidates_df).

(** [unique_incidents.groupby('VesselType').agg(incident_count=('spill_id', 'count'),
      total_area_sq_km=('area_sq_km', 'sum'))
      .sort_values('incident_count', ascending=False).reset_index()],
    computed only [if 'VesselType' in unique_incidents.columns]. *)
Definition vessel_type_analysis (sort : Sorter) (unique_incidents : DataFrame Candidate)
  : Except (option (DataFrame (RankRow (option string) (nat * Q)))) :=
  if has_column "VesselType" unique_incidents then
    except_bind
      (groupby_agg col_VesselType (col_pair col_spill_id col_area_sq_km)
         (fun g => (List.length g, Qsum (map (cells col_area_sq_km) g)))
         "incident_count" unique_incidents)
      (fun t =>
         Ok (Some (sort_values_desc sort Nat.leb
                     (fun r : RankRow (option string) (nat * Q) => fst (r_value r))
                     (rank_rows t))))
  else Ok None.

(** The distinct (mmsi, vessel_name) pairs of a frame, in order of first
    occurrence. *)
Definition name_pairs (ui : DataFrame Candidate) : list (option Z * option string) :=
  drop_duplicates_rows (fun p => p) []
    (map (fun c => (mmsi (vessel c), vessel_name (vessel c))) (rows ui)).

(** The distinct [vessel_name] cells (the null cell counts as one) among
    the rows of vessel [m]. *)
Definition distinct_names (m : option Z) (ui : DataFrame Candidate)
  : list (option string) :=
  drop_duplicates_rows (fun n => n) []
    (map (cells col_vessel_name) (group col_mmsi m (rows ui))).

(** The rows of a ranking table that belong to vessel [m]. *)
Definition rows_of_vessel {V : Type} (m : option Z) (t : DataFrame (RankRow (option Z) V))
  : list (RankRow (option Z) V) :=
  filter (fun r => key_eqb (r_key r) m) (rows t).

(** A table is in descending order of its aggregate. *)
Definition descending {R V : Type} (leb : V -> V -> bool) (value : R -> V) (l : list R)
  : Prop :=
  StronglySorted (fun x y => leb (value y) (value x) = true) l.


(** Row [r] is a nearest candidate of spill [k] in [l]: it belongs to the
    spill and no candidate of the spill has a smaller [time_to_detection]. *)
Definition nearest_of_spill (l : list Candidate) (r : Candidate) (k : string) : Prop :=
  In r l /\ spill_id (spill r) = k
  /\ exists tr, time_to_detection r = Some tr
       /\ forall c tc, In c l -> spill_id (spill c) = k ->
            time_to_detection c = Some tc -> (tr <= tc)%Z.

(** The key pair (spill_id, mmsi) of a row. *)
Definition incident_key (c : Candidate) : string * option Z :=
  (spill_id (spill c), mmsi (vessel c)).

Definition same_incident (c r : Candidate) : bool :=
  key_eqb (incident_key r) (incident_key c).

(** ** The script over its frames

    A Python name is bound to an object.  An operation done in place
    changes the object, whatever name it is reached by; an operation that
    returns a new frame leaves its operand as it was.  The store holds the
    candidate frames of the analytics block, each under the address it got
    when it was created, and the blocks are programs over the store.  An
    exception stops the program and leaves the store as it was at that
    moment. *)
Definition Ref : Type := nat.
Definition Store : Type := list (DataFrame Candidate).

Definition Script (A : Type) : Type := Store -> Except A * Store.

Definition ret {A : Type} (a : A) : Script A := fun st => (Ok a, st).

Definition bind {A B : Type} (m : Script A) (f : A -> Script B) : Script B :=
  fun st =>
    match m st with
    | (Ok a, st') => f a st'
    | (KeyError k, st') => (KeyError k, st')
    end.

Definition lift {A : Type} (e : Except A) : Script A := fun st => (e, st).

Notation "x <- c1 ;; c2" := (bind c1 (fun x => c2))
  (at level 61, c1 at next level, right associativity).

(** The frame under an address. *)
Definition deref (st : Store) (r : Ref) : DataFrame Candidate :=
  nth r st GeoDataFrame_new.

Fixpoint update (r : Ref) (df : DataFrame Candidate) (st : Store) {struct st} : Store :=
  match st with
  | [] => []
  | x :: st' =>
      match r with
      | O => df :: st'
      | S r' => x :: update r' df st'
      end
  end.

(** Reading a name. *)
Definition get (r : Ref) : Script (DataFrame Candidate) :=
  fun st => (Ok (deref st r), st).

(** A frame returned by an operation is a new object. *)
Definition new (df : DataFrame Candidate) : Script Ref :=
  fun st => (Ok (List.length st), st ++ [df]).

(** An operation in place puts its outcome under the address of its
    operand. *)
Definition put (r : Ref) (df : DataFrame Candidate) : Script unit :=
  fun st => (Ok tt, update r df st).

(** The objects of [st] are in [st'] as they were; [st'] may hold new
    ones. *)
Definition extends (st st' : Store) : Prop := exists fresh, st' = st ++ fresh.

(** The tables of the first tab and of the whole block; [F] is what stands
    for a candidate frame, its address or the frame itself. *)
Record Tab1 (F : Type) : Type := mkTab1 {
  t1_unique_incidents : F;
  t1_ship_incident_counts : DataFrame (RankRow (option Z) nat);
  t1_ship_area_sum : DataFrame (RankRow (option Z) Q)
}.

Record Analytics (F : Type) : Type := mkAnalytics {
  a_tab1 : Tab1 F;
  a_spill_candidate_counts : DataFrame (RankRow string nat);
  a_prime_suspects_df : F;
  a_vessel_type_analysis : option (DataFrame (RankRow (option string) (nat * Q)))
}.

Module Block.

(** Lines 209-222.  [drop_duplicates] is called without [inplace]: the
    de-duplicated incidents are a new frame. *)
Definition tab1 (sort : Sorter) (candidates_df : Ref) : Script (Tab1 Ref) :=
  df <- get candidates_df ;;
  deduplicated <- lift (unique_incidents df) ;;
  unique_incidents <- new deduplicated ;;
  ui <- get unique_incidents ;;
  counts <- lift (ship_incident_counts sort ui) ;;
  areas <- lift (ship_area_sum sort ui) ;;
  ret (mkTab1 unique_incidents counts areas).

(** Lines 233-235. *)
Definition tab3_spill_candidate_counts (sort : Sorter) (candidates_df : Ref)
  : Script (DataFrame (RankRow string nat)) :=
  df <- get candidates_df ;;
  lift (spill_candidate_counts sort df).

(** Lines 238-240.  [candidates_df['time_to_detection'] = ...] sets the
    column on the object [candidates_df] is bound to; [idxmin] and [loc]
    then read that object, and [loc] returns a new frame. *)
Definition tab3_prime_suspects (candidates_df : Ref) : Script Ref :=
  df <- get candidates_df ;;
  assigned <- lift (assign_time_to_detection df) ;;
  _ <- put candidates_df assigned ;;
  df' <- get candidates_df ;;
  suspects <- lift (prime_suspects_df df') ;;
  new suspects.

(** Lines 246-252, on the frame bound to [unique_incidents] in the first
    tab. *)
Definition tab3_vessel_type_analysis (sort : Sorter) (unique_incidents : Ref)
  : Script (option (DataFrame (RankRow (option string) (nat * Q)))) :=
  ui <- get unique_incidents ;;
  lift (vessel_type_analysis sort ui).

Definition analytics (sort : Sorter) (candidates_df : Ref) : Script (Analytics Ref) :=
  t1 <- tab1 sort candidates_df ;;
  counts <- tab3_spill_candidate_counts sort candidates_df ;;
  suspects <- tab3_prime_suspects candidates_df ;;
  types <- tab3_vessel_type_analysis sort (t1_unique_incidents t1) ;;
  ret (mkAnalytics t1 counts suspects types).

End Block.

(** A block run on the store that holds the candidate frame alone: what
    the block returned, its frames read from the store it left, together
    with the candidate frame as the block left it. *)
Definition run {A B : Type} (read : Store -> A -> B) (block : Ref -> Script A)
  (candidates_df : DataFrame Candidate) : Except B * DataFrame Candidate :=
  let out := block 0%nat [candidates_df] in
  (match fst out with
   | Ok a => Ok (read (snd out) a)
   | KeyError k => KeyError k
   end,
   deref (snd out) 0%nat).

Definition tab1_frames (st : Store) (t : Tab1 Ref) : Tab1 (DataFrame Candidate) :=
  mkTab1 (deref st (t1_unique_incidents t)) (t1_ship_incident_counts t)
    (t1_ship_area_sum t).

Definition analytics_frames (st : Store) (a : Analytics Ref)
  : Analytics (DataFrame Candidate) :=
  mkAnalytics (tab1_frames st (a_tab1 a)) (a_spill_candidate_counts a)
    (deref st (a_prime_suspects_df a)) (a_vessel_type_analysis a).

Definition tab1 (sort : Sorter) (candidates_df : DataFrame Candidate)
  : Except (Tab1 (DataFrame Candidate)) * DataFrame Candidate :=
  run tab1_frames (Block.tab1 sort) candidates_df.

Definition tab3_spill_candidate_counts (sort : Sorter)
  (candidates_df : DataFrame Candidate)
  : Except (DataFrame (RankRow string nat)) * DataFrame Candidate :=
  run (fun _ t => t) (Block.tab3_spill_candidate_counts sort) candidates_df.

Definition tab3_prime_suspects (candidates_df : DataFrame Candidate)
  : Except (DataFrame Candidate) * DataFrame Candidate :=
  run deref Block.tab3_prime_suspects candidates_df.

Definition analytics (sort : Sorter) (candidates_df : DataFrame Candidate)
  : Except (Analytics (DataFrame Candidate)) * DataFrame Candidate :=
  run analytics_frames (Block.analytics sort) candidates_df.

(** ** The loaders

    What the loaders tell the user ([st.info], [st.success], [st.warning],
    [st.error]); the warning carries the number it prints. *)
Inductive Message : Type :=
| Info_loading
| Error_unreadable
| Error_missing_columns (missing : list string)
| Success_date_time_columns
| Success_date_in_spill_id
| Warning_unparsed (failed_count : nat)
| Error_no_valid_rows
| Success_loaded.

(** Only the reading of the file is guarded by [try]; an exception raised
    by a later line leaves the loader and ends the script. *)
Inductive Exception : Type := TypeError | ValueError.

Inductive Result (A : Type) : Type :=
| Returns (a : A)
| Raises (e : Exception).
Arguments Returns {A} _.
Arguments Raises {A} _.

(** The dtype [gpd.read_file] gives a column: [object] for text (the cells
    are [str] or null), [datetime64] for a field whose values the reader
    recognises as dates. *)
Inductive Dtype : Type := dtype_object | dtype_datetime64.

(** A feature of the GeoJSON file as [gpd.read_file] returns it.  [date]
    and [time] are read only when both columns exist, and their cells hold
    text only in a column of dtype [object]; [None] is the null cell. *)
Record SpillFeature : Type := mkFeature {
  f_index : Z;
  slick_name : string;
  area_sys : Q;
  date : option string;
  time : option string;
  f_geometry : Geom.Geometry
}.

Record SpillFile : Type := mkSpillFile {
  crs : option string;
  date_dtype : Dtype;
  time_dtype : Dtype;
  features : DataFrame SpillFeature
}.

(** A cell of a coordinate column as [pd.read_csv] returns it: a number, a
    missing value, or, in a column that does not hold numbers only, text
    that is no number. *)
Inductive Cell : Type :=
| Number (q : Q)
| NaN
| Text (s : string).

(** A line of the CSV file as [pd.read_csv] returns it; [None] is the
    missing cell. *)
Record AisRecord : Type := mkAis {
  a_index : Z;
  a_mmsi : option Z;
  a_latitude : Cell;
  a_longitude : Cell;
  BaseDateTime : option string;
  a_vessel_name : option string;
  a_VesselType : option string
}.

Definition rename_label (old new l : string) : string :=
  if String.eqb l old then new else l.

Definition missing_of {R : Type} (required_cols : list string) (df : DataFrame R)
  : list string :=
  filter (fun col => negb (has_column col df)) required_cols.

Definition is_null {A : Type} (o : option A) : bool :=
  match o with None => true | Some _ => false end.

Fixpoint dropna {A B : Type} (f : A -> option B) (l : list A) : list B :=
  match l with
  | [] => []
  | a :: l' => match f a with Some b => b :: dropna f l' | None => dropna f l' end
  end.

(** Adding text cells: a null cell gives a null. *)
Definition str_add (a b : option string) : option string :=
  match a, b with
  | Some x, Some y => Some (x ++ y)%string
  | _, _ => None
  end.

(** [gdf['date'] + ' ' + gdf['time']] raises [TypeError] unless both
    columns hold text. *)
Definition text_columns (file : SpillFile) : bool :=
  match date_dtype file, time_dtype file with
  | dtype_object, dtype_object => true
  | _, _ => false
  end.

Definition is_nan (c : Cell) : bool :=
  match c with NaN => true | _ => false end.

Definition is_text (c : Cell) : bool :=
  match c with Text _ => true | _ => false end.

(** [np.asarray(column, dtype='float64')] at one cell. *)
Definition as_float (c : Cell) : option Q :=
  match c with Number q => Some q | _ => None end.

Section Loaders.
(** [pd.to_datetime(column, errors='coerce')] and its [format=] variant:
    the value parsed from a text cell of the given column, [None] for
    [NaT].  [to_crs] re-projects a geometry from the given reference system
    to EPSG:4326. *)
Variable to_datetime : list (option string) -> string -> option Timestamp.
Variable to_datetime_format : list (option string) -> string -> option Timestamp.
Variable to_crs : string -> Geom.Geometry -> Geom.Geometry.

(** A null cell is parsed to [NaT]. *)
Definition parse (parser : list (option string) -> string -> option Timestamp)
  (column : list (option string)) (cell : option string) : option Timestamp :=
  match cell with
  | None => None
  | Some s => parser column s
  end.

(** The cell a feature's detection date is parsed from:
    [gdf['date'] + ' ' + gdf['time']], or [gdf['spill_id']]. *)
Definition date_string (has_date_time : bool) (f : SpillFeature) : option string :=
  if has_date_time then str_add (str_add (date f) (Some " "%string)) (time f)
  else Some (slick_name f).

Definition date_strings (has_date_time : bool) (fs : list SpillFeature)
  : list (option string) :=
  map (date_string has_date_time) fs.

Definition detection_date_of (has_date_time : bool) (fs : list SpillFeature)
  (f : SpillFeature) : option Timestamp :=
  parse (if has_date_time then to_datetime else to_datetime_format)
    (date_strings has_date_time fs) (date_string has_date_time f).

(** The [detection_date] column of the features. *)
Definition detection_dates (has_date_time : bool) (fs : list SpillFeature)
  : list (option Timestamp) :=
  map (detection_date_of has_date_time fs) fs.

Definition spill_row (src : option string) (ft : SpillFeature * option Timestamp)
  : option SpillRow :=
  match snd ft with
  | None => None
  | Some d =>
      let f := fst ft in
      Some (mkSpill (f_index f) (slick_name f) (area_sys f) d
              (match src with
               | None => f_geometry f
               | Some c => to_crs c (f_geometry f)
               end))
  end.

(** [load_spills_data]; the argument is what [gpd.read_file] gave, [None]
    when it raised. *)
Definition load_spills_data (read_file : option SpillFile)
  : Result (option (DataFrame SpillRow)) * list Message :=
  match read_file with
  | None => (Returns None, [Info_loading; Error_unreadable])
  | Some file =>
      let gdf := features file in
      let required_cols := ["slick_name"; "area_sys"]%string in
      if negb (forallb (fun col => has_column col gdf) required_cols) then
        (Returns None,
         [Info_loading; Error_missing_columns (missing_of required_cols gdf)])
      else
        let cols :=
          map (fun l => rename_label "area_sys" "area_sq_km"
                          (rename_label "slick_name" "spill_id" l)) (columns gdf) in
        let has_date_time := has_column "date" gdf && has_column "time" gdf in
        let format_msg :=
          if has_date_time then Success_date_time_columns else Success_date_in_spill_id in
        if has_date_time && negb (text_columns file) then
          (Raises TypeError, [Info_loading; format_msg])
        else
          let dates := detection_dates has_date_time (rows gdf) in
          let cols' :=
            if existsb (String.eqb "detection_date") cols then cols
            else cols ++ ["detection_date"%string] in
          let failed_count := List.length (filter is_null dates) in
          let warn :=
            if existsb is_null dates then [Warning_unparsed failed_count] else [] in
          let kept := dropna (spill_row (crs file)) (combine (rows gdf) dates) in
          match kept, cols' with
          | [], _ | _, [] =>
              (Returns None, [Info_loading; format_msg] ++ warn ++ [Error_no_valid_rows])
          | _, _ =>
              (Returns (Some (mkDataFrame cols' kept)),
               [Info_loading; format_msg] ++ warn ++ [Success_loaded])
          end
  end.

(** [pd.to_datetime(df['BaseDateTime'], errors='coerce')] at one line. *)
Definition timestamp_of (rs : list AisRecord) (r : AisRecord) : option Timestamp :=
  parse to_datetime (map BaseDateTime rs) (BaseDateTime r).

(** The lines [dropna(subset=['timestamp', 'latitude', 'longitude'])]
    keeps: a text cell is not a missing value. *)
Definition complete (rs : list AisRecord) (r : AisRecord) : bool :=
  negb (is_null (timestamp_of rs r))
  && negb (is_nan (a_latitude r)) && negb (is_nan (a_longitude r)).

(** [points_from_xy(df.longitude, df.latitude)] converts both columns to
    [float64] and raises [ValueError] on text that is no number. *)
Definition text_coordinate (r : AisRecord) : bool :=
  is_text (a_longitude r) || is_text (a_latitude r).

Definition vessel_row (rs : list AisRecord) (r : AisRecord) : option VesselRow :=
  match timestamp_of rs r, as_float (a_latitude r), as_float (a_longitude r) with
  | Some t, Some lat, Some lon =>
      Some (mkVessel (a_index r) (a_mmsi r) lat lon t (a_vessel_name r) (a_VesselType r))
  | _, _, _ => None
  end.

(** [load_ais_data]; the argument is what [pd.read_csv] gave, [None] when
    it raised. *)
Definition load_ais_data (read_csv : option (DataFrame AisRecord))
  : Result (option (DataFrame VesselRow)) * list Message :=
  match read_csv with
  | None => (Returns None, [Info_loading; Error_unreadable])
  | Some df =>
      let required_cols := ["mmsi"; "latitude"; "longitude"; "BaseDateTime"]%string in
      if negb (forallb (fun col => has_column col df) required_cols) then
        (Returns None,
         [Info_loading; Error_missing_columns (missing_of required_cols df)])
      else
        let kept := filter (complete (rows df)) (rows df) in
        let cols :=
          if has_column "timestamp" df then columns df
          else columns df ++ ["timestamp"%string] in
        if existsb text_coordinate kept then (Raises ValueError, [Info_loading])
        else
          let cols' :=
            if existsb (String.eqb "geometry") cols then cols
            else cols ++ ["geometry"%string] in
          (Returns (Some (mkDataFrame cols' (dropna (vessel_row (rows df)) kept))),
           [Info_loading; Success_loaded])
  end.
End Loaders.

(** What a kept spill row holds of the feature it comes from. *)
Definition spill_of_feature (to_crs : string -> Geom.Geometry -> Geom.Geometry)
  (src : option string) (parsed : SpillFeature -> option Timestamp)
  (s : SpillRow) (f : SpillFeature) : Prop :=
  s_index s = f_index f /\ spill_id s = slick_name f /\ area_sq_km s = area_sys f
  /\ parsed f = Some (detection_date s)
  /\ geometry s = match src with
                  | None => f_geometry f
                  | Some c => to_crs c (f_geometry f)
                  end.

(** What a kept fix holds of the line it comes from. *)
Definition vessel_of_record (stamp : AisRecord -> option Timestamp)
  (v : VesselRow) (r : AisRecord) : Prop :=
  v_index v = a_index r /\ mmsi v = a_mmsi r
  /\ stamp r = Some (timestamp v)
  /\ a_latitude r = Number (latitude v) /\ a_longitude r = Number (longitude v)
  /\ vessel_name v = a_vessel_name r /\ VesselType v = a_VesselType r.

(** The guard before the analysis: both frames loaded and neither empty;
    otherwise the script stops. *)
Definition loaded_inputs (spills_gdf : option (DataFrame SpillRow))
  (vessels_gdf : option (DataFrame VesselRow)) : bool :=
  match spills_gdf, vessels_gdf with
  | Some s, Some v => negb (empty s) && negb (empty v)
  | _, _ => false
  end.

(** The start of the script: [load_spills_data], then [load_ais_data], then
    the guard.  An exception of a loader ends the script there. *)
Definition startup (spills : Result (option (DataFrame SpillRow)))
  (vessels : Result (option (DataFrame VesselRow))) : Result bool :=
  match spills with
  | Raises e => Raises e
  | Returns spills_gdf =>
      match vessels with
      | Raises e => Raises e
      | Returns vessels_gdf => Returns (loaded_inputs spills_gdf vessels_gdf)
      end
  end.

(** ** The tables shown to the user *)

Definition desired_cols : list string :=
  ["spill_id"; "mmsi"; "vessel_name"; "timestamp"; "detection_date"; "area_sq_km"]%string.

Definition display_cols : list string :=
  ["spill_id"; "mmsi"; "vessel_name"; "time_to_detection"; "area_sq_km"]%string.

(** [[col for col in wanted if col in df.columns]] *)
Definition existing_cols {R : Type} (wanted : list string) (df : DataFrame R)
  : list string :=
  filter (fun col => has_column col df) wanted.

Definition rename_dict : list (string * string) :=
  [("spill_id", "ID Пятна");
   ("mmsi", "MMSI Судна");
   ("vessel_name", "Название судна");
   ("timestamp", "Время прохода судна");
   ("detection_date", "Время обнаружения пятна");
   ("area_sq_km", "Площадь пятна, км²")]%string.

(** [rename(columns=d)] on one label: labels that are no key of [d] stay. *)
Fixpoint renamed (d : list (string * string)) (l : string) : string :=
  match d with
  | [] => l
  | (old, new) :: d' => if String.eqb l old then new else renamed d' l
  end.

(** [display_df = report_df[existing_cols].copy()] followed by
    [display_df.rename(columns=rename_dict, inplace=True)]: the rows of the
    report, of which the listed columns are shown under their new labels. *)
Definition display_df (report : DataFrame Candidate) : DataFrame Candidate :=
  mkDataFrame (map (renamed rename_dict) (existing_cols desired_cols report))
    (rows report).

(** [df.sort_values(by=label, ascending=False)]: the label must be a column. *)
Definition sort_values_by {R V : Type} (sort : Sorter) (label : string)
  (leb : V -> V -> bool) (value : R -> V) (df : DataFrame R) : Except (DataFrame R) :=
  if has_column label df then Ok (sort_values_desc sort leb value df)
  else KeyError label.

(** The table under the map: nothing (an [st.info] note) when
    [candidates_df.empty], otherwise the report sorted by detection time,
    latest first. *)
Definition candidates_table (sort : Sorter) (candidates_df : DataFrame Candidate)
  : Except (option (DataFrame Candidate)) :=
  if empty candidates_df then Ok None
  else
    except_bind (report_df candidates_df)
      (fun report =>
         except_bind
           (sort_values_by sort "Время обнаружения пятна" Z.leb
              (fun c => detection_date (spill c)) (display_df report))
           (fun shown => Ok (Some shown))).

(** [prime_suspects_df[existing_display_cols].sort_values('area_sq_km',
    ascending=False)] *)
Definition prime_suspects_table (sort : Sorter) (suspects : DataFrame Candidate)
  : Except (DataFrame Candidate) :=
  sort_values_by sort "area_sq_km" Qle_bool (fun c => area_sq_km (spill c))
    (mkDataFrame (existing_cols display_cols suspects) (rows suspects)).

(** A fix lies within at most one of the spills. *)
Definition in_one_spill_at_most (spills : list SpillRow) (v : VesselRow) : bool :=
  Nat.leb
    (List.length (filter (fun s => Geom.within (v_geometry v) (geometry s)) spills)) 1.

(** The messages printed with [st.error]. *)
Definition is_error (m : Message) : bool :=
  match m with
  | Error_unreadable | Error_missing_columns _ | Error_no_valid_rows => true
  | _ => false
  end.

(** ** A stable sorting routine *)

Definition stable_sorter : Sorter := fun A leb => insertion_sort leb.

(** ** Sample data: the scenarios of the specification *)
Module Sample.

Local Open Scope Z_scope.

Definition hour : Z := 3600000000000.

(** 2024-01-10T12:00:00 *)
Definition noon : Timestamp := 1704888000000000000.

(** The unit square centred at (0, 0). *)
Definition unit_square : Geom.Geometry :=
  Geom.rectangle (-1#2) (-1#2) (1#2) (1#2).

Definition spill_columns : list string :=
  ["spill_id"; "area_sq_km"; "geometry"; "detection_date"]%string.
Definition vessel_columns : list string :=
  ["mmsi"; "latitude"; "longitude"; "BaseDateTime"; "vessel_name";
   "timestamp"; "geometry"]%string.

Definition S1 : SpillRow := mkSpill 0 "2024-01-10_12:00:00" (5#2) noon unit_square.
(** A later observation of the same slick: same area, detected ten hours on. *)
Definition S2 : SpillRow :=
  mkSpill 1 "2024-01-10_22:00:00" (3#1) (noon + 10 * hour) unit_square.

(** A slick elsewhere: the square of side 2 centred at (10, 10), detected
    two hours after S1. *)
Definition far_square : Geom.Geometry := Geom.rectangle 9 9 11 11.
Definition S3 : SpillRow :=
  mkSpill 2 "2024-01-10_14:00:00" (7#4) (noon + 2 * hour) far_square.

Definition spills1 : DataFrame SpillRow := mkDataFrame spill_columns [S1].
(** Two slicks that do not meet, the later one first in the file. *)
Definition spills31 : DataFrame SpillRow := mkDataFrame spill_columns [S3; S1].
Definition spills12 : DataFrame SpillRow := mkDataFrame spill_columns [S1; S2].

(** Scenario fixes: inside six hours before, inside one hour after,
    outside, inside two hours before. *)
Definition F1 : VesselRow := mkVessel 0 (Some 123) 0 0 (noon - 6 * hour) (Some "AURORA"%string) None.
Definition F2 : VesselRow := mkVessel 1 (Some 123) 0 0 (noon + hour) (Some "AURORA"%string) None.
Definition F3 : VesselRow := mkVessel 2 (Some 123) 10 10 (noon - 6 * hour) (Some "AURORA"%string) None.
Definition F4 : VesselRow := mkVessel 3 (Some 456) 0 0 (noon - 2 * hour) (Some "BOREAS"%string) None.
(** A second fix of vessel 123 inside the square, three hours before. *)
Definition F5 : VesselRow := mkVessel 5 (Some 123) 0 0 (noon - 3 * hour) (Some "AURORA"%string) None.
(** A fix on the right-hand edge of the square, at the detection time. *)
Definition F_edge : VesselRow := mkVessel 4 (Some 789) 0 (1#2) noon None None.

(** A line without vessel number, inside the square four hours before. *)
Definition F_anon : VesselRow :=
  mkVessel 6 None 0 0 (noon - 4 * hour) None None.

Definition vessels_of (l : list VesselRow) : DataFrame VesselRow :=
  mkDataFrame vessel_columns l.

(** Two fixes in the area of both spills: the first, of vessel 111, is one
    hour before the detection of S1; the second, of vessel 222, is five
    hours after it, hence five hours before the detection of S2. *)
Definition P0 : VesselRow := mkVessel 0 (Some 111) 0 0 (noon - hour) (Some "CALYPSO"%string) None.
Definition P1 : VesselRow := mkVessel 1 (Some 222) 0 0 (noon + 5 * hour) (Some "DORIS"%string) None.

(** One vessel reporting under two names: as AURORA twenty hours before
    the first detection, as AURORA II one hour after it. *)
Definition N0 : VesselRow := mkVessel 0 (Some 123) 0 0 (noon - 20 * hour) (Some "AURORA"%string) None.
Definition N1 : VesselRow := mkVessel 1 (Some 123) 0 0 (noon + hour) (Some "AURORA II"%string) None.



Definition candidates_of (spills : DataFrame SpillRow) (l : list VesselRow) (w : Z)
  : DataFrame Candidate :=
  find_candidates (Some spills) (Some (vessels_of l)) w.

(** The de-duplicated incidents of a candidate frame. *)
Definition incidents_of (candidates_df : DataFrame Candidate) : DataFrame Candidate :=
  match unique_incidents candidates_df with
  | Ok ui => ui
  | KeyError _ => GeoDataFrame_new
  end.

(** A parser that knows two date strings. *)
Definition to_datetime (_ : list (option string)) (s : string) : option Timestamp :=
  if String.eqb s "2024-01-10 12:00:00" then Some noon
  else if String.eqb s "2024-01-10_12:00:00" then Some noon
  else None.

Definition to_crs (_ : string) (g : Geom.Geometry) : Geom.Geometry := g.

Definition feature_ok : SpillFeature :=
  mkFeature 0 "2024-01-10_12:00:00" (5#2) None None unit_square.
Definition feature_bad : SpillFeature :=
  mkFeature 1 "slick-17" (3#1) None None unit_square.

Definition geojson (fs : list SpillFeature) : SpillFile :=
  mkSpillFile None dtype_object dtype_object
    (mkDataFrame ["slick_name"; "area_sys"; "geometry"]%string fs).

(** A file with the columns [date] and [time]: the first feature has both
    cells, the second has no time. *)
Definition feature_dated : SpillFeature :=
  mkFeature 0 "slick-1" (5#2) (Some "2024-01-10"%string) (Some "12:00:00"%string)
    unit_square.

Definition geojson_dated (date_dtype : Dtype) (fs : list SpillFeature) : SpillFile :=
  mkSpillFile None date_dtype dtype_object
    (mkDataFrame ["slick_name"; "area_sys"; "date"; "time"; "geometry"]%string fs).

Definition ais_ok : AisRecord :=
  mkAis 0 (Some 123) (Number 0) (Number 0) (Some "2024-01-10 12:00:00"%string)
    (Some "AURORA"%string) None.
Definition ais_bad_time : AisRecord :=
  mkAis 1 (Some 123) (Number 0) (Number 0) (Some "yesterday"%string)
    (Some "AURORA"%string) None.
Definition ais_no_lat : AisRecord :=
  mkAis 2 (Some 456) NaN (Number 0) (Some "2024-01-10 12:00:00"%string) None None.

Definition csv (l : list AisRecord) : DataFrame AisRecord :=
  mkDataFrame ["mmsi"; "latitude"; "longitude"; "BaseDateTime"; "vessel_name"]%string l.

(** Fixes of a file that has the column [VesselType]: two tankers, a cargo
    vessel, and a vessel whose type is missing, all inside the square. *)
Definition T0 : VesselRow :=
  mkVessel 0 (Some 111) 0 0 (noon - hour) (Some "CALYPSO"%string) (Some "Tanker"%string).
Definition T1 : VesselRow :=
  mkVessel 1 (Some 222) 0 0 (noon - 2 * hour) (Some "DORIS"%string) (Some "Cargo"%string).
Definition T2 : VesselRow :=
  mkVessel 2 (Some 333) 0 0 (noon - 3 * hour) (Some "ERATO"%string) (Some "Tanker"%string).
Definition T3 : VesselRow :=
  mkVessel 3 (Some 444) 0 0 (noon - 4 * hour) None None.

Definition typed_vessels : DataFrame VesselRow :=
  mkDataFrame (vessel_columns ++ ["VesselType"%string]) [T0; T1; T2; T3].

End Sample.

(** * Properties *)

(** ** Frames and the matcher *)

Lemma within_interior (pt : Geom.Coordinate) (g : Geom.Geometry) :
  Geom.within pt g = true <-> Geom.locate pt g = Geom.INTERIOR.
Proof.
  unfold Geom.within. destruct (Geom.locate pt g); simpl; split; congruence.
Qed.

Lemma Qlt_bool_iff (a b : Q) : Geom.Qlt_bool a b = true <-> a < b.
Proof.
  unfold Geom.Qlt_bool. rewrite Qlt_alt. destruct (a ?= b); split; congruence.
Qed.

Lemma Qlt_bool_true (a b : Q) : a < b -> Geom.Qlt_bool a b = true.
Proof. apply Qlt_bool_iff. Qed.

Lemma Qlt_bool_false (a b : Q) : b <= a -> Geom.Qlt_bool a b = false.
Proof.
  intros H. destruct (Geom.Qlt_bool a b) eqn:E; [|reflexivity].
  apply Qlt_bool_iff in E. lra.
Qed.

Lemma Qeq_bool_true (a b : Q) : a == b -> Qeq_bool a b = true.
Proof. apply Qeq_bool_iff. Qed.

Lemma Qeq_bool_false (a b : Q) : ~ a == b -> Qeq_bool a b = false.
Proof.
  intros H. destruct (Qeq_bool a b) eqn:E; [|reflexivity].
  apply Qeq_bool_iff in E. contradiction.
Qed.

Lemma Qle_bool_true (a b : Q) : a <= b -> Qle_bool a b = true.
Proof. apply Qle_bool_iff. Qed.

Lemma Qle_bool_false (a b : Q) : b < a -> Qle_bool a b = false.
Proof.
  intros H. destruct (Qle_bool a b) eqn:E; [|reflexivity].
  apply Qle_bool_iff in E. lra.
Qed.

Lemma Qmin_le_bool (a b x : Q) : Qle_bool (Qmin a b) x = Qle_bool a x || Qle_bool b x.
Proof.
  apply eq_true_iff_eq. rewrite orb_true_iff, !Qle_bool_iff. apply Q.min_le_iff.
Qed.

Lemma Qmax_le_bool (a b x : Q) : Qle_bool x (Qmax a b) = Qle_bool x a || Qle_bool x b.
Proof.
  apply eq_true_iff_eq. rewrite orb_true_iff, !Qle_bool_iff. apply Q.max_le_iff.
Qed.

(** Decide the comparisons of a goal from the hypotheses on the
    coordinates. *)
Ltac q_decide :=
  rewrite ?Qmin_le_bool, ?Qmax_le_bool;
  repeat match goal with
  | |- context [Geom.Qlt_bool ?a ?b] =>
      first [ rewrite (@Qlt_bool_true a b) by lra | rewrite (@Qlt_bool_false a b) by lra ]
  | |- context [Qeq_bool ?a ?b] =>
      first [ rewrite (@Qeq_bool_true a b) by lra
            | rewrite (@Qeq_bool_false a b) by (intros ?; lra) ]
  | |- context [Qle_bool ?a ?b] =>
      first [ rewrite (@Qle_bool_true a b) by lra | rewrite (@Qle_bool_false a b) by lra ]
  end;
  cbn [andb orb negb].

Ltac q_sign :=
  repeat match goal with
  | |- context [Qcompare ?e 0] =>
      first [ rewrite (proj1 (Qgt_alt e 0)) by nra
            | rewrite (proj1 (Qlt_alt e 0)) by nra
            | rewrite (proj1 (Qeq_alt e 0))
                by (repeat match goal with H : _ == _ |- _ => rewrite H; clear H end; ring) ]
  end.

Ltac count_segment :=
  match goal with
  | |- context [Geom.countSegment ?pt ?a ?b (Geom.mkRCC ?n ?o)] =>
      let E := fresh "E" in
      eassert (E : Geom.countSegment pt a b (Geom.mkRCC n o) = _)
        by (unfold Geom.countSegment; cbn [Geom.cx Geom.cy fst snd]; q_decide;
            cbv iota; try unfold Geom.orientationIndex; cbn [Geom.cx Geom.cy fst snd];
            q_sign;
            cbv [Geom.rcc_on Geom.rcc_cross Geom.crossingCount Geom.isPointOnSegment];
            reflexivity);
      rewrite E; clear E
  end.

(** Point location on an axis-parallel rectangle: the ray-crossing count
    places a point in the interior exactly when it lies strictly between
    the sides, on the boundary when it lies on a side, outside otherwise. *)
Lemma locate_rectangle (x0 y0 x1 y1 x y : Q) :
  x0 < x1 -> y0 < y1 ->
  Geom.locate (x, y) (Geom.rectangle x0 y0 x1 y1)
  = if Geom.Qlt_bool x0 x && Geom.Qlt_bool x x1 && Geom.Qlt_bool y0 y && Geom.Qlt_bool y y1
    then Geom.INTERIOR
    else if Qle_bool x0 x && Qle_bool x x1 && Qle_bool y0 y && Qle_bool y y1
         then Geom.BOUNDARY else Geom.EXTERIOR.
Proof.
  intros Hx Hy. unfold Geom.locate, Geom.rectangle, Geom.getLines, Geom.polygon_rings.
  cbn [fold_left Geom.countSegments Geom.countRing Geom.shell Geom.holes].
  unfold Geom.rcc_init.
  destruct (Q_dec x x0) as [[?|?]|?], (Q_dec x x1) as [[?|?]|?];
    try (exfalso; lra);
    destruct (Q_dec y y0) as [[?|?]|?], (Q_dec y y1) as [[?|?]|?];
    try (exfalso; lra).
  all: do 4 count_segment.
  all: q_decide; reflexivity.
Qed.

Lemma within_rectangle (x0 y0 x1 y1 : Q) (pt : Geom.Coordinate) :
  x0 < x1 -> y0 < y1 ->
  Geom.locate pt (Geom.rectangle x0 y0 x1 y1) = Geom.INTERIOR
  <-> (x0 < Geom.cx pt /\ Geom.cx pt < x1) /\ (y0 < Geom.cy pt /\ Geom.cy pt < y1).
Proof.
  intros Hx Hy. destruct pt as [x y]. cbn [Geom.cx Geom.cy fst snd].
  rewrite locate_rectangle by assumption.
  destruct (Geom.Qlt_bool x0 x) eqn:E1, (Geom.Qlt_bool x x1) eqn:E2,
    (Geom.Qlt_bool y0 y) eqn:E3, (Geom.Qlt_bool y y1) eqn:E4; cbn [andb];
    try apply Qlt_bool_iff in E1; try apply Qlt_bool_iff in E2;
    try apply Qlt_bool_iff in E3; try apply Qlt_bool_iff in E4;
    try (split; [intros _; tauto | reflexivity]);
    (split;
     [ destruct (_ && _); discriminate
     | intros [[H1 H2] [H3 H4]];
       first [ apply Qlt_bool_iff in H1; congruence
             | apply Qlt_bool_iff in H2; congruence
             | apply Qlt_bool_iff in H3; congruence
             | apply Qlt_bool_iff in H4; congruence ] ]).
Qed.

(** The crossings are counted over the rings of all parts together, so
    that a geometry whose parts or holes overlap is located by parity: a
    point in the overlap of two parts is outside, and a point in the
    overlap of two holes is inside. *)
Example locate_in_overlapping_parts :
  let part1 := Geom.mkPolygon [(0, 0); (4, 0); (4, 4); (0, 4); (0, 0)] [] in
  let part2 := Geom.mkPolygon [(2, 2); (6, 2); (6, 6); (2, 6); (2, 2)] [] in
  let g := Geom.GMultiPolygon [part1; part2] in
  Geom.locate (3, 3) g = Geom.EXTERIOR /\ Geom.within (3, 3) g = false
  /\ Geom.locate (1, 1) g = Geom.INTERIOR /\ Geom.locate (5, 5) g = Geom.INTERIOR.
Proof. repeat split; vm_compute; reflexivity. Qed.

Example locate_in_overlapping_holes :
  let g := Geom.GPolygon
             (Geom.mkPolygon [(0, 0); (10, 0); (10, 10); (0, 10); (0, 0)]
                [[(2, 2); (5, 2); (5, 5); (2, 5); (2, 2)];
                 [(3, 3); (6, 3); (6, 6); (3, 6); (3, 3)]]) in
  Geom.locate (4, 4) g = Geom.INTERIOR /\ Geom.within (4, 4) g = true
  /\ Geom.locate ((5#2), (5#2)) g = Geom.EXTERIOR /\ Geom.locate (1, 1) g = Geom.INTERIOR.
Proof. repeat split; vm_compute; reflexivity. Qed.

Lemma sjoin_within_In (left : DataFrame VesselRow) (right : DataFrame SpillRow)
  (c : Candidate) :
  In c (rows (sjoin_within left right)) <->
  In (vessel c) (rows left) /\ In (spill c) (rows right)
  /\ time_to_detection c = None
  /\ Geom.within (v_geometry (vessel c)) (geometry (spill c)) = true.
Proof.
  unfold sjoin_within; simpl. rewrite in_flat_map. split.
  - intros (v & Hv & Hc). apply in_map_iff in Hc. destruct Hc as (s & <- & Hs).
    apply filter_In in Hs. simpl. tauto.
  - intros (Hv & Hs & Ht & Hw). exists (vessel c). split; [assumption|].
    apply in_map_iff. exists (spill c). split.
    + destruct c as [v s t]; simpl in *. subst t. reflexivity.
    + apply filter_In. tauto.
Qed.

Lemma sjoin_within_columns (left : DataFrame VesselRow) (right : DataFrame SpillRow) :
  columns (sjoin_within left right) <> [].
Proof.
  unfold sjoin_within; simpl. intros E. apply app_eq_nil in E. destruct E as [_ E].
  discriminate E.
Qed.

Lemma empty_rows {R : Type} (df : DataFrame R) :
  columns df <> [] -> empty df = true -> rows df = [].
Proof.
  unfold empty. destruct (rows df), (columns df); congruence.
Qed.

Lemma in_window_spec (d : Timedelta) (c : Candidate) :
  in_window d c = true <->
  (detection_date (spill c) - d <= timestamp (vessel c) <= detection_date (spill c))%Z.
Proof.
  unfold in_window. rewrite andb_true_iff, Z.leb_le, Z.geb_le. lia.
Qed.

Lemma find_candidates_In (spills : DataFrame SpillRow) (vessels : DataFrame VesselRow)
  (w : Z) (c : Candidate) :
  In c (rows (find_candidates (Some spills) (Some vessels) w)) <->
  In c (rows (sjoin_within vessels spills)) /\ in_window (timedelta_hours w) c = true.
Proof.
  unfold find_candidates.
  destruct (empty (sjoin_within vessels spills)) eqn:E.
  - apply empty_rows in E; [|apply sjoin_within_columns].
    rewrite E. simpl. tauto.
  - unfold select; simpl. apply filter_In.
Qed.

(** C1 (as the code has it).  A row is in the frame returned by
    [find_candidates] exactly when it pairs a fix of [vessels_gdf] with a
    spill of [spills_gdf] such that the point of the fix is located in the
    INTERIOR of the spill geometry (a point on the boundary is not within)
    and [detection_date - window <= timestamp <= detection_date], both ends
    included.  For a spill whose polygon is an axis-parallel rectangle this
    says: the longitude and the latitude of the fix lie strictly between
    the sides of the rectangle. *)
Theorem find_candidates_interior_and_window
  (spills : DataFrame SpillRow) (vessels : DataFrame VesselRow) (w : Z) (c : Candidate) :
  (In c (rows (find_candidates (Some spills) (Some vessels) w)) <->
   In (vessel c) (rows vessels) /\ In (spill c) (rows spills)
   /\ time_to_detection c = None
   /\ Geom.locate (v_geometry (vessel c)) (geometry (spill c)) = Geom.INTERIOR
   /\ (detection_date (spill c) - timedelta_hours w <= timestamp (vessel c)
       <= detection_date (spill c))%Z)
  /\ (forall x0 y0 x1 y1 : Q,
        x0 < x1 -> y0 < y1 ->
        geometry (spill c) = Geom.rectangle x0 y0 x1 y1 ->
        (In c (rows (find_candidates (Some spills) (Some vessels) w)) <->
         In (vessel c) (rows vessels) /\ In (spill c) (rows spills)
         /\ time_to_detection c = None
         /\ (x0 < longitude (vessel c) /\ longitude (vessel c) < x1)
         /\ (y0 < latitude (vessel c) /\ latitude (vessel c) < y1)
         /\ (detection_date (spill c) - timedelta_hours w <= timestamp (vessel c)
             <= detection_date (spill c))%Z)).
Proof.
  assert (H : In c (rows (find_candidates (Some spills) (Some vessels) w)) <->
              In (vessel c) (rows vessels) /\ In (spill c) (rows spills)
              /\ time_to_detection c = None
              /\ Geom.locate (v_geometry (vessel c)) (geometry (spill c)) = Geom.INTERIOR
              /\ (detection_date (spill c) - timedelta_hours w <= timestamp (vessel c)
                  <= detection_date (spill c))%Z).
  { rewrite find_candidates_In, sjoin_within_In, within_interior, in_window_spec. tauto. }
  split; [exact H|].
  intros x0 y0 x1 y1 Hx Hy Eg. rewrite H, Eg.
  rewrite (within_rectangle (v_geometry (vessel c)) Hx Hy).
  unfold v_geometry. cbn [Geom.cx Geom.cy fst snd]. tauto.
Qed.

(** C1, counterexample.  The fix [F_edge] lies on the edge of the unit
    square of [S1] (so it is contained in the closed polygon) and its
    timestamp equals the detection time (so it is inside the closed 24 h
    window), yet the matcher does not emit it. *)
Lemma boundary_fix_is_not_a_candidate :
  Geom.covered_by (v_geometry Sample.F_edge) (geometry Sample.S1) = true
  /\ (detection_date Sample.S1 - timedelta_hours 24 <= timestamp Sample.F_edge
      <= detection_date Sample.S1)%Z
  /\ ~ In (mkCandidate Sample.F_edge Sample.S1 None)
         (rows (Sample.candidates_of Sample.spills1 [Sample.F_edge] 24)).
Proof.
  split; [vm_compute; reflexivity|].
  split; [vm_compute; split; discriminate|].
  vm_compute. tauto.
Qed.

(** C4.  For the same two input frames and windows [w1 <= w2], every row
    returned at window [w1] is returned at window [w2]. *)
Theorem find_candidates_window_monotone
  (spills_gdf : option (DataFrame SpillRow)) (vessels_gdf : option (DataFrame VesselRow))
  (w1 w2 : Z) :
  (w1 <= w2)%Z ->
  incl (rows (find_candidates spills_gdf vessels_gdf w1))
       (rows (find_candidates spills_gdf vessels_gdf w2)).
Proof.
  intros Hw c.
  destruct spills_gdf as [spills|], vessels_gdf as [vessels|];
    try (simpl; tauto).
  rewrite !find_candidates_In, !in_window_spec. unfold timedelta_hours.
  intros [Hin Ht]. split; [exact Hin | lia].
Qed.

Lemma find_candidates_window_monotone_witness :
  (1 <= 3)%Z
  /\ incl (rows (Sample.candidates_of Sample.spills1 [Sample.F1; Sample.F4] 1))
          (rows (Sample.candidates_of Sample.spills1 [Sample.F1; Sample.F4] 3)).
Proof.
  split; [lia|].
  apply (@find_candidates_window_monotone
           (Some Sample.spills1) (Some (Sample.vessels_of [Sample.F1; Sample.F4])) 1 3).
  lia.
Defined.

(** ** Keys *)

#[export] Instance KeyLaws_option_Z : KeyLaws (option Z).
Proof.
  constructor. intros [a|] [b|]; simpl; try (split; congruence).
  rewrite Z.eqb_eq. split; congruence.
Qed.

#[export] Instance KeyLaws_string : KeyLaws string.
Proof. constructor. exact String.eqb_eq. Qed.

#[export] Instance KeyLaws_option_string : KeyLaws (option string).
Proof.
  constructor. intros [a|] [b|]; simpl; try (split; congruence).
  rewrite String.eqb_eq. split; congruence.
Qed.

#[export] Instance KeyLaws_pair {A B : Type} `{KeyLaws A} `{KeyLaws B} : KeyLaws (A * B).
Proof.
  constructor. intros [a b] [a' b']; simpl.
  rewrite andb_true_iff, !key_eqb_eq. split.
  - intros [-> ->]; reflexivity.
  - intros E; inversion E; auto.
Qed.

Section KeyFacts.
Context {K : Type} `{KeyLaws K}.

Lemma key_eqb_refl (k : K) : key_eqb k k = true.
Proof. apply key_eqb_eq. reflexivity. Qed.

Lemma key_eqb_neq (a b : K) : key_eqb a b = false <-> a <> b.
Proof.
  rewrite <- key_eqb_eq. destruct (key_eqb a b); split; congruence.
Qed.

Lemma key_eqb_sym (a b : K) : key_eqb a b = key_eqb b a.
Proof.
  destruct (key_eqb a b) eqn:E1, (key_eqb b a) eqn:E2; try reflexivity.
  - apply key_eqb_eq in E1. subst. rewrite key_eqb_refl in E2. discriminate.
  - apply key_eqb_eq in E2. subst. rewrite key_eqb_refl in E1. discriminate.
Qed.

Lemma seen_In (k : K) (seen : list K) :
  existsb (key_eqb k) seen = true <-> In k seen.
Proof.
  rewrite existsb_exists. split.
  - intros (x & Hx & E). apply key_eqb_eq in E. subst. assumption.
  - intros Hk. exists k. split; [assumption | apply key_eqb_refl].
Qed.

Lemma seen_not_In (k : K) (seen : list K) :
  existsb (key_eqb k) seen = false <-> ~ In k seen.
Proof.
  rewrite <- seen_In. destruct (existsb (key_eqb k) seen); split; congruence.
Qed.
End KeyFacts.

(** ** [drop_duplicates] keeps the first row of every key *)

Section DropDuplicatesFacts.
Context {R K : Type} `{KeyLaws K}.
Variable key : R -> K.

Lemma drop_duplicates_rows_In (l : list R) : forall (seen : list K) (r : R),
  In r (drop_duplicates_rows key seen l) -> In r l /\ ~ In (key r) seen.
Proof.
  induction l as [|x l IH]; intros seen r; simpl; [tauto|].
  destruct (existsb (key_eqb (key x)) seen) eqn:E.
  - intros Hr. apply IH in Hr. tauto.
  - apply seen_not_In in E. simpl. intros [<- | Hr]; [tauto|].
    apply IH in Hr. simpl in Hr. tauto.
Qed.

Lemma drop_duplicates_rows_NoDup (l : list R) : forall seen : list K,
  NoDup (map key (drop_duplicates_rows key seen l)).
Proof.
  induction l as [|x l IH]; intros seen; simpl; [constructor|].
  destruct (existsb (key_eqb (key x)) seen) eqn:E; [apply IH|].
  simpl. constructor; [|apply IH].
  intros Hin. apply in_map_iff in Hin. destruct Hin as (r & Er & Hr).
  apply drop_duplicates_rows_In in Hr. simpl in Hr. intuition congruence.
Qed.

Lemma drop_duplicates_rows_covers (l : list R) : forall (seen : list K) (c : R),
  In c l -> ~ In (key c) seen ->
  exists r, In r (drop_duplicates_rows key seen l) /\ key r = key c.
Proof.
  induction l as [|x l IH]; intros seen c; simpl; [tauto|].
  intros [-> | Hc] Hs.
  - apply seen_not_In in Hs. rewrite Hs. exists c. simpl. auto.
  - destruct (existsb (key_eqb (key x)) seen) eqn:E.
    + apply IH; assumption.
    + destruct (key_eqb (key x) (key c)) eqn:Ex.
      * apply key_eqb_eq in Ex. exists x. simpl. auto.
      * apply key_eqb_neq in Ex.
        destruct (IH (key x :: seen) c Hc) as (r & Hr & Er).
        { simpl. intuition congruence. }
        exists r. simpl. auto.
Qed.

Lemma drop_duplicates_rows_first (l : list R) : forall (seen : list K) (r : R),
  In r (drop_duplicates_rows key seen l) ->
  find (fun c => key_eqb (key c) (key r)) l = Some r.
Proof.
  induction l as [|x l IH]; intros seen r; simpl; [tauto|].
  destruct (existsb (key_eqb (key x)) seen) eqn:E.
  - intros Hr. pose proof (drop_duplicates_rows_In _ _ _ Hr) as [_ Hs].
    apply seen_In in E.
    assert (Ex : key_eqb (key x) (key r) = false)
      by (apply key_eqb_neq; intros Eq; rewrite Eq in E; contradiction).
    rewrite Ex. eapply IH; eassumption.
  - simpl. intros [<- | Hr]; [rewrite key_eqb_refl; reflexivity|].
    pose proof (drop_duplicates_rows_In _ _ _ Hr) as [_ Hs].
    assert (Ex : key_eqb (key x) (key r) = false)
      by (apply key_eqb_neq; intros Eq; apply Hs; simpl; auto).
    rewrite Ex. eapply IH; eassumption.
Qed.

(** In a list without duplicate keys every key that occurs is the key
    of exactly one row. *)
Lemma NoDup_keys_once (l : list R) (k : K) :
  NoDup (map key l) -> In k (map key l) ->
  List.length (filter (fun r => key_eqb (key r) k) l) = 1%nat.
Proof.
  induction l as [|x l IH]; simpl; [tauto|].
  intros Hnd Hin. inversion Hnd as [|? ? Hx Hnd']; subst.
  destruct (key_eqb (key x) k) eqn:E.
  - apply key_eqb_eq in E. subst k. simpl. f_equal.
    clear IH Hin Hnd. induction l as [|y l IHl]; simpl; [reflexivity|].
    simpl in Hx, Hnd'. inversion Hnd'; subst.
    assert (Ey : key_eqb (key y) (key x) = false)
      by (apply key_eqb_neq; intuition congruence).
    rewrite Ey. apply IHl; [tauto | assumption].
  - apply key_eqb_neq in E. apply IH; [assumption|]. intuition congruence.
Qed.

Lemma drop_duplicates_rows_once (l : list R) (c : R) :
  In c l ->
  List.length (filter (fun r => key_eqb (key r) (key c))
                 (drop_duplicates_rows key [] l)) = 1%nat.
Proof.
  intros Hc. apply NoDup_keys_once; [apply drop_duplicates_rows_NoDup|].
  destruct (drop_duplicates_rows_covers l [] c Hc) as (r & Hr & Er); [simpl; tauto|].
  rewrite <- Er. apply in_map. assumption.
Qed.
End DropDuplicatesFacts.

(** The order in which the subset columns are written does not matter. *)
Lemma drop_duplicates_rows_swap {R A B : Type} `{KeyLaws A} `{KeyLaws B}
  (ka : R -> A) (kb : R -> B) (l : list R) : forall (seen : list (A * B)),
  drop_duplicates_rows (fun r => (kb r, ka r)) (map (fun p => (snd p, fst p)) seen) l
  = drop_duplicates_rows (fun r => (ka r, kb r)) seen l.
Proof.
  induction l as [|x l IH]; intros seen; cbn [drop_duplicates_rows]; [reflexivity|].
  assert (E : existsb (key_eqb (kb x, ka x)) (map (fun p => (snd p, fst p)) seen)
              = existsb (key_eqb (ka x, kb x)) seen).
  { clear IH. induction seen as [|p seen IHs]; [reflexivity|].
    cbn [map existsb]. rewrite IHs. f_equal. apply andb_comm. }
  rewrite E. destruct (existsb (key_eqb (ka x, kb x)) seen); [apply IH|].
  f_equal. apply (IH ((ka x, kb x) :: seen)).
Qed.

Lemma has_columns_not_missing {R : Type} (df : DataFrame R) (ls : list string) :
  forallb (fun l => has_column l df) ls = true -> missing_label ls df = None.
Proof.
  unfold missing_label. induction ls as [|l ls IH]; simpl; [reflexivity|].
  rewrite andb_true_iff. intros [Hl Hls]. rewrite Hl. simpl. auto.
Qed.

Lemma drop_duplicates_ok {R K : Type} `{Key K} (subset : Columns R K) (df : DataFrame R) :
  labels subset <> [] ->
  (rows df <> [] -> forallb (fun l => has_column l df) (labels subset) = true) ->
  drop_duplicates subset df
  = Ok (mkDataFrame (columns df) (drop_duplicates_rows (cells subset) [] (rows df))).
Proof.
  intros Hl Hc. unfold drop_duplicates, empty.
  destruct df as [cols rs]; simpl in *.
  destruct rs as [|r rs]; [reflexivity|].
  assert (Hr : forallb (fun l => has_column l (mkDataFrame cols (r :: rs))) (labels subset) = true)
    by (apply Hc; discriminate).
  rewrite (has_columns_not_missing _ _ Hr).
  destruct cols; [|reflexivity].
  destruct (labels subset); [congruence | discriminate Hr].
Qed.

(** C3.  On a candidate frame (one that has the columns [spill_id] and
    [mmsi] whenever it has rows), [drop_duplicates] on the pair
    (spill_id, mmsi), written in either order (the report table and
    [unique_incidents]), returns a frame in which no pair occurs twice,
    every pair of the input is the pair of exactly one output row, and
    each output row is the first input row carrying its pair. *)
Theorem drop_duplicates_spill_mmsi (candidates_df : DataFrame Candidate) :
  (rows candidates_df <> [] ->
   has_column "spill_id" candidates_df = true /\ has_column "mmsi" candidates_df = true) ->
  exists out : DataFrame Candidate,
    report_df candidates_df = Ok out
    /\ unique_incidents candidates_df = Ok out
    /\ NoDup (map incident_key (rows out))
    /\ (forall c, In c (rows candidates_df) ->
          List.length (filter (same_incident c) (rows out)) = 1%nat)
    /\ (forall r, In r (rows out) ->
          find (same_incident r) (rows candidates_df) = Some r).
Proof.
  intros Hcols.
  exists (mkDataFrame (columns candidates_df)
            (drop_duplicates_rows incident_key [] (rows candidates_df))).
  split; [|split; [|split; [|split]]].
  - unfold report_df. apply drop_duplicates_ok; [discriminate|]. intros Hr.
    destruct (Hcols Hr) as [Hs Hm]. simpl. rewrite Hs, Hm. reflexivity.
  - unfold unique_incidents. rewrite drop_duplicates_ok.
    + simpl. f_equal. f_equal.
      apply (drop_duplicates_rows_swap
               (fun c => spill_id (spill c)) (fun c => mmsi (vessel c))
               (rows candidates_df) []).
    + discriminate.
    + intros Hr. destruct (Hcols Hr) as [Hs Hm]. simpl. rewrite Hs, Hm. reflexivity.
  - simpl. apply drop_duplicates_rows_NoDup.
  - simpl. intros c Hc. apply (drop_duplicates_rows_once incident_key _ _ Hc).
  - simpl. intros r Hr. apply (drop_duplicates_rows_first incident_key _ _ _ Hr).
Qed.

Lemma drop_duplicates_spill_mmsi_witness :
  let candidates_df :=
    Sample.candidates_of Sample.spills1 [Sample.F1; Sample.F4; Sample.F5] 24 in
  (rows candidates_df <> [] ->
   has_column "spill_id" candidates_df = true /\ has_column "mmsi" candidates_df = true)
  /\ exists out : DataFrame Candidate,
       report_df candidates_df = Ok out
       /\ unique_incidents candidates_df = Ok out
       /\ NoDup (map incident_key (rows out))
       /\ (forall c, In c (rows candidates_df) ->
             List.length (filter (same_incident c) (rows out)) = 1%nat)
       /\ (forall r, In r (rows out) ->
             find (same_incident r) (rows candidates_df) = Some r).
Proof.
  intros candidates_df.
  assert (Hc : rows candidates_df <> [] ->
               has_column "spill_id" candidates_df = true
               /\ has_column "mmsi" candidates_df = true)
    by (intros _; split; reflexivity).
  split; [exact Hc | exact (drop_duplicates_spill_mmsi candidates_df Hc)].
Defined.

(** ** The analytics block as a program over the store *)

Lemma deref_old (st fresh : Store) (r : Ref) :
  (r < List.length st)%nat -> deref (st ++ fresh) r = deref st r.
Proof. intros Hr. unfold deref. apply app_nth1. exact Hr. Qed.

Lemma deref_new (st : Store) (df : DataFrame Candidate) :
  deref (st ++ [df]) (List.length st) = df.
Proof. unfold deref. apply nth_middle. Qed.

Lemma length_update (st : Store) : forall (r : Ref) (df : DataFrame Candidate),
  List.length (update r df st) = List.length st.
Proof.
  induction st as [|x st IH]; intros r df; [reflexivity|].
  destruct r; cbn [update List.length]; [reflexivity | rewrite IH; reflexivity].
Qed.

Lemma deref_update (st : Store) : forall (r : Ref) (df : DataFrame Candidate),
  (r < List.length st)%nat -> deref (update r df st) r = df.
Proof.
  unfold deref. induction st as [|x st IH]; intros r df Hr; [simpl in Hr; lia|].
  destruct r; cbn [update nth]; [reflexivity|].
  apply IH. simpl in Hr. lia.
Qed.

Lemma deref_update_other (st : Store) :
  forall (r r' : Ref) (df : DataFrame Candidate),
    r' <> r -> deref (update r df st) r' = deref st r'.
Proof.
  unfold deref. induction st as [|x st IH]; intros r r' df Hr; [reflexivity|].
  destruct r, r'; cbn [update nth]; try reflexivity; try congruence.
  apply IH. congruence.
Qed.

Lemma update_outside (st : Store) : forall (r : Ref) (df : DataFrame Candidate),
  (List.length st <= r)%nat -> update r df st = st.
Proof.
  induction st as [|x st IH]; intros r df Hr; [reflexivity|].
  destruct r; cbn [update]; [simpl in Hr; lia|].
  rewrite IH; [reflexivity | simpl in Hr; lia].
Qed.

(** The blocks on the store that holds [candidates_df] alone. *)
Lemma tab1_eq (sort : Sorter) (st : DataFrame Candidate) :
  tab1 sort st
  = (except_bind (unique_incidents st)
       (fun ui =>
          except_bind (ship_incident_counts sort ui)
            (fun counts =>
               except_bind (ship_area_sum sort ui)
                 (fun areas => Ok (mkTab1 ui counts areas)))),
     st).
Proof.
  unfold tab1, run, Block.tab1, bind, get, new, lift, ret. cbn [deref nth fst snd].
  destruct (unique_incidents st) as [ui|]; [|reflexivity]. cbn.
  destruct (ship_incident_counts sort ui); [|reflexivity]. cbn.
  destruct (ship_area_sum sort ui); reflexivity.
Qed.

Lemma tab3_spill_candidate_counts_eq (sort : Sorter) (st : DataFrame Candidate) :
  tab3_spill_candidate_counts sort st = (spill_candidate_counts sort st, st).
Proof.
  unfold tab3_spill_candidate_counts, run, Block.tab3_spill_candidate_counts,
    bind, get, lift. cbn [deref nth fst snd].
  destruct (spill_candidate_counts sort st); reflexivity.
Qed.

Lemma tab3_prime_suspects_eq (st : DataFrame Candidate) :
  tab3_prime_suspects st
  = match assign_time_to_detection st with
    | Ok assigned => (prime_suspects_df assigned, assigned)
    | KeyError k => (KeyError k, st)
    end.
Proof.
  unfold tab3_prime_suspects, run, Block.tab3_prime_suspects, bind, get, put, new, lift.
  cbn [deref nth fst snd].
  destruct (assign_time_to_detection st) as [assigned|]; [|reflexivity].
  unfold deref. cbn [update nth].
  destruct (prime_suspects_df assigned); reflexivity.
Qed.

Lemma analytics_eq (sort : Sorter) (st : DataFrame Candidate) :
  analytics sort st
  = match fst (tab1 sort st) with
    | KeyError k => (KeyError k, st)
    | Ok t1 =>
        match spill_candidate_counts sort st with
        | KeyError k => (KeyError k, st)
        | Ok counts =>
            match tab3_prime_suspects st with
            | (KeyError k, st') => (KeyError k, st')
            | (Ok suspects, st') =>
                match vessel_type_analysis sort (t1_unique_incidents t1) with
                | KeyError k => (KeyError k, st')
                | Ok types => (Ok (mkAnalytics t1 counts suspects types), st')
                end
            end
        end
    end.
Proof.
  rewrite tab1_eq, tab3_prime_suspects_eq. cbn [fst].
  unfold analytics, run, Block.analytics, Block.tab1, Block.tab3_spill_candidate_counts,
    Block.tab3_prime_suspects, Block.tab3_vessel_type_analysis,
    bind, get, put, new, lift, ret.
  cbn [deref nth fst snd].
  destruct (unique_incidents st) as [ui|]; [|reflexivity]. cbn.
  destruct (ship_incident_counts sort ui) as [counts|]; [|reflexivity]. cbn.
  destruct (ship_area_sum sort ui) as [areas|]; [|reflexivity]. cbn.
  destruct (spill_candidate_counts sort st) as [vessels|]; [|reflexivity]. cbn.
  destruct (assign_time_to_detection st) as [assigned|]; [|reflexivity]. cbn.
  destruct (prime_suspects_df assigned) as [suspects|]; [|reflexivity]. cbn.
  destruct (vessel_type_analysis sort ui); reflexivity.
Qed.

Lemma tab1_frame (sort : Sorter) (st : DataFrame Candidate) : snd (tab1 sort st) = st.
Proof. rewrite tab1_eq. reflexivity. Qed.

Lemma set_time_to_detection_keeps (l : list Candidate) :
  map vessel (map set_time_to_detection l) = map vessel l
  /\ map spill (map set_time_to_detection l) = map spill l.
Proof.
  rewrite !map_map. split; apply map_ext; reflexivity.
Qed.

Lemma extends_refl (st : Store) : extends st st.
Proof. exists []. symmetry. apply app_nil_r. Qed.

Lemma tab1_extends (sort : Sorter) (st : Store) (candidates_df : Ref) :
  extends st (snd (Block.tab1 sort candidates_df st)).
Proof.
  unfold Block.tab1, bind, get, new, lift, ret.
  destruct (unique_incidents (deref st candidates_df)) as [ui|]; [|apply extends_refl].
  cbn [fst snd].
  destruct (ship_incident_counts sort _); [|exists [ui]; reflexivity].
  destruct (ship_area_sum sort _); exists [ui]; reflexivity.
Qed.

Lemma tab3_prime_suspects_store (st : Store) (candidates_df : Ref) :
  match assign_time_to_detection (deref st candidates_df) with
  | KeyError k => Block.tab3_prime_suspects candidates_df st = (KeyError k, st)
  | Ok assigned =>
      extends (update candidates_df assigned st)
        (snd (Block.tab3_prime_suspects candidates_df st))
  end.
Proof.
  unfold Block.tab3_prime_suspects, bind, get, put, new, lift.
  destruct (assign_time_to_detection (deref st candidates_df)) as [assigned|];
    [|reflexivity].
  destruct (prime_suspects_df _) as [suspects|]; cbn [snd];
    [exists [suspects]; reflexivity | apply extends_refl].
Qed.

(** What the whole block leaves in the store. *)
Lemma analytics_store (sort : Sorter) (st st' : Store) (candidates_df : Ref)
  (r : Analytics Ref) :
  Block.analytics sort candidates_df st = (Ok r, st') ->
  (candidates_df < List.length st)%nat ->
  exists assigned ui suspects,
    assign_time_to_detection (deref st candidates_df) = Ok assigned
    /\ unique_incidents (deref st candidates_df) = Ok ui
    /\ st' = update candidates_df assigned st ++ [ui; suspects]
    /\ t1_unique_incidents (a_tab1 r) = List.length st
    /\ a_prime_suspects_df r = S (List.length st).
Proof.
  intros E Hr.
  unfold Block.analytics, Block.tab1, Block.tab3_spill_candidate_counts,
    Block.tab3_prime_suspects, Block.tab3_vessel_type_analysis,
    bind, get, put, new, lift, ret in E.
  destruct (unique_incidents (deref st candidates_df)) as [ui|] eqn:Eui;
    [|discriminate E].
  rewrite deref_new in E.
  destruct (ship_incident_counts sort ui) as [counts|]; [|discriminate E].
  destruct (ship_area_sum sort ui) as [areas|]; [|discriminate E].
  rewrite (deref_old st [ui] Hr) in E.
  destruct (spill_candidate_counts sort (deref st candidates_df)) as [vessels|];
    [|discriminate E].
  destruct (assign_time_to_detection (deref st candidates_df)) as [assigned|] eqn:Eas;
    [|discriminate E].
  assert (Hr' : (candidates_df < List.length (st ++ [ui]))%nat)
    by (rewrite length_app; simpl; lia).
  rewrite (deref_update (st ++ [ui]) assigned Hr') in E.
  destruct (prime_suspects_df assigned) as [suspects|]; [|discriminate E].
  cbn [t1_unique_incidents] in E.
  destruct (vessel_type_analysis sort _) as [types|]; [|discriminate E].
  injection E as <- <-.
  exists assigned, ui, suspects. cbn [a_tab1 t1_unique_incidents a_prime_suspects_df].
  split; [reflexivity|]. split; [reflexivity|]. split; [|split].
  - assert (Hupd : forall (s : Store) (c : Ref),
               (c < List.length s)%nat ->
               update c assigned (s ++ [ui]) = update c assigned s ++ [ui]).
    { induction s as [|x s IH]; intros c Hc; [simpl in Hc; lia|].
      destruct c; cbn [update app]; [reflexivity|].
      rewrite IH; [reflexivity | simpl in Hc; lia]. }
    rewrite (Hupd st candidates_df Hr), <- app_assoc. reflexivity.
  - reflexivity.
  - rewrite length_update, length_app. simpl. lia.
Qed.

(** C6 (as the code has it).  The vessel rankings of the first tab create
    the frame of unique incidents and change no frame that existed; the
    per-spill vessel counts and the vessel-type aggregation change nothing
    in the store.  The prime-suspect step stops before writing only when
    the candidate frame lacks [detection_date] or [timestamp]; otherwise
    it replaces the object [candidates_df] is bound to by the frame with
    the column [time_to_detection] assigned (every row gets its cell; the
    fix and the spill of every row, and the order of the rows, are as
    before), creates the frame of prime suspects, and changes no other
    frame.  After a run of the whole block the candidate frame is that
    assigned frame, while the frame of unique incidents, made beforehand by
    [drop_duplicates], is still the de-duplicated frame without the new
    column, and every other frame is as it was. *)
Theorem analytics_effect_on_candidates_df
  (sort : Sorter) (st : Store) (candidates_df ui : Ref) :
  extends st (snd (Block.tab1 sort candidates_df st))
  /\ snd (Block.tab3_spill_candidate_counts sort candidates_df st) = st
  /\ snd (Block.tab3_vessel_type_analysis sort ui st) = st
  /\ match assign_time_to_detection (deref st candidates_df) with
     | KeyError k => Block.tab3_prime_suspects candidates_df st = (KeyError k, st)
     | Ok assigned =>
         extends (update candidates_df assigned st)
           (snd (Block.tab3_prime_suspects candidates_df st))
         /\ assigned
            = mkDataFrame
                (if has_column "time_to_detection" (deref st candidates_df)
                 then columns (deref st candidates_df)
                 else columns (deref st candidates_df) ++ ["time_to_detection"%string])
                (map set_time_to_detection (rows (deref st candidates_df)))
         /\ map vessel (rows assigned) = map vessel (rows (deref st candidates_df))
         /\ map spill (rows assigned) = map spill (rows (deref st candidates_df))
     end
  /\ (forall (r : Analytics Ref) (st' : Store),
        Block.analytics sort candidates_df st = (Ok r, st') ->
        (candidates_df < List.length st)%nat ->
        assign_time_to_detection (deref st candidates_df)
        = Ok (deref st' candidates_df)
        /\ unique_incidents (deref st candidates_df)
           = Ok (deref st' (t1_unique_incidents (a_tab1 r)))
        /\ forall r' : Ref,
             (r' < List.length st)%nat -> r' <> candidates_df ->
             deref st' r' = deref st r').
Proof.
  split; [apply tab1_extends|].
  split; [unfold Block.tab3_spill_candidate_counts, bind, get, lift;
          destruct (spill_candidate_counts sort _); reflexivity|].
  split; [unfold Block.tab3_vessel_type_analysis, bind, get, lift;
          destruct (vessel_type_analysis sort _); reflexivity|].
  split.
  - pose proof (tab3_prime_suspects_store st candidates_df) as H.
    destruct (assign_time_to_detection (deref st candidates_df)) as [assigned|] eqn:E;
      [|exact H].
    split; [exact H|].
    unfold assign_time_to_detection in E.
    destruct (missing_label _ (deref st candidates_df)); [discriminate E|].
    injection E as <-. split; [reflexivity|]. cbn [rows].
    apply set_time_to_detection_keeps.
  - intros r st' E Hr.
    destruct (@analytics_store sort st st' candidates_df r E Hr)
      as (assigned & uif & suspects & Eas & Eui & -> & Hui & _).
    assert (Hlen : (candidates_df < List.length (update candidates_df assigned st))%nat)
      by (rewrite length_update; exact Hr).
    split; [|split].
    + rewrite Eas. f_equal. rewrite deref_old by exact Hlen.
      symmetry. apply deref_update. exact Hr.
    + rewrite Eui, Hui. f_equal.
      rewrite <- (length_update st candidates_df assigned).
      unfold deref. rewrite app_nth2 by lia. rewrite Nat.sub_diag. reflexivity.
    + intros r' Hr' Hne.
      rewrite deref_old by (rewrite length_update; exact Hr').
      apply deref_update_other. exact Hne.
Qed.

(** C6, counterexample.  After the prime-suspect step the frame
    [candidates_df] of scenario 1 is no longer the frame the step received:
    it has one more column. *)
Lemma prime_suspects_step_changes_candidates_df :
  let candidates_df := Sample.candidates_of Sample.spills1 [Sample.F1] 24 in
  snd (tab3_prime_suspects candidates_df) <> candidates_df
  /\ has_column "time_to_detection" candidates_df = false
  /\ has_column "time_to_detection" (snd (tab3_prime_suspects candidates_df)) = true.
Proof.
  intros candidates_df.
  assert (H1 : has_column "time_to_detection" candidates_df = false) by reflexivity.
  assert (H2 : has_column "time_to_detection" (snd (tab3_prime_suspects candidates_df)) = true)
    by (vm_compute; reflexivity).
  split; [|split; assumption].
  intros E. rewrite E in H2. congruence.
Qed.

(** The whole block on the store that holds the candidate frame of two
    fixes of one vessel: afterwards the candidate frame carries the column
    [time_to_detection], the frame of unique incidents does not. *)
Example analytics_block_on_a_store :
  let candidates_df := Sample.candidates_of Sample.spills1 [Sample.F1; Sample.F5] 24 in
  exists (r : Analytics Ref) (st' : Store),
    Block.analytics quicksort 0%nat [candidates_df] = (Ok r, st')
    /\ has_column "time_to_detection" candidates_df = false
    /\ has_column "time_to_detection" (deref st' 0%nat) = true
    /\ has_column "time_to_detection" (deref st' (t1_unique_incidents (a_tab1 r))) = false
    /\ List.length (rows (deref st' (t1_unique_incidents (a_tab1 r)))) = 1%nat.
Proof.
  intros candidates_df.
  destruct (Block.analytics quicksort 0%nat [candidates_df]) as [[r|k] st'] eqn:E;
    [|vm_compute in E; discriminate E].
  exists r, st'. split; [reflexivity|].
  vm_compute in E. injection E as <- <-.
  repeat split; vm_compute; reflexivity.
Qed.

(** C5, on the frame the matcher returns when no fix lies in any spill.
    [find_candidates] then returns [GeoDataFrame()], a frame without
    columns; on it the vessel rankings stop with [KeyError: 'mmsi'], the
    per-spill counts with [KeyError: 'spill_id'], the prime-suspect step
    with [KeyError: 'detection_date'], so the analytics block as a whole
    stops at its first grouping. *)
Theorem analytics_raise_on_empty_candidates (sort : Sorter) :
  Sample.candidates_of Sample.spills1 [Sample.F3] 24 = GeoDataFrame_new
  /\ unique_incidents (@GeoDataFrame_new Candidate) = Ok GeoDataFrame_new
  /\ ship_incident_counts sort GeoDataFrame_new = KeyError "mmsi"
  /\ ship_area_sum sort GeoDataFrame_new = KeyError "mmsi"
  /\ spill_candidate_counts sort GeoDataFrame_new = KeyError "spill_id"
  /\ fst (tab3_prime_suspects GeoDataFrame_new) = KeyError "detection_date"
  /\ fst (analytics sort (Sample.candidates_of Sample.spills1 [Sample.F3] 24))
     = KeyError "mmsi".
Proof.
  assert (E : Sample.candidates_of Sample.spills1 [Sample.F3] 24 = GeoDataFrame_new)
    by (vm_compute; reflexivity).
  rewrite E. repeat split; reflexivity.
Qed.

(** C2, on two overlapping spills.  [P0] lies in both spills, so the
    joined frame holds two rows with its index label; [P1] is the nearest
    fix of the second spill (5 h against 11 h).  [idxmin] returns the label
    of [P0] for the first spill, and [loc] with that label brings back both
    rows of [P0]: the table of prime suspects holds, for the second spill,
    the row of [P0] although [P1] is nearer to the detection. *)
Theorem prime_suspects_with_shared_index_label :
  let candidates_df := Sample.candidates_of Sample.spills12 [Sample.P0; Sample.P1] 24 in
  exists suspects : DataFrame Candidate,
    fst (tab3_prime_suspects candidates_df) = Ok suspects
    /\ map (fun c => (spill_id (spill c), mmsi (vessel c), time_to_detection c))
         (rows suspects)
       = [("2024-01-10_12:00:00"%string, Some 111%Z, Some Sample.hour);
          ("2024-01-10_22:00:00"%string, Some 111%Z, Some (11 * Sample.hour)%Z);
          ("2024-01-10_22:00:00"%string, Some 222%Z, Some (5 * Sample.hour)%Z)]
    /\ exists r c,
         In r (rows suspects)
         /\ In c (rows (snd (tab3_prime_suspects candidates_df)))
         /\ spill_id (spill c) = spill_id (spill r)
         /\ time_to_detection c = Some (5 * Sample.hour)%Z
         /\ time_to_detection r = Some (11 * Sample.hour)%Z.
Proof.
  intros candidates_df.
  destruct (fst (tab3_prime_suspects candidates_df)) as [suspects|k] eqn:E;
    [|vm_compute in E; discriminate E].
  exists suspects. split; [reflexivity|].
  assert (Es : suspects
               = mkDataFrame (columns suspects)
                   (map set_time_to_detection
                      [mkCandidate Sample.P0 Sample.S1 None;
                       mkCandidate Sample.P0 Sample.S2 None;
                       mkCandidate Sample.P1 Sample.S2 None])).
  { vm_compute in E. injection E as <-. reflexivity. }
  rewrite Es. split; [reflexivity|].
  exists (set_time_to_detection (mkCandidate Sample.P0 Sample.S2 None)),
         (set_time_to_detection (mkCandidate Sample.P1 Sample.S2 None)).
  split; [simpl; tauto|].
  split; [vm_compute; tauto|].
  repeat split; reflexivity.
Qed.

(** ** Sorting *)

Section SortingFacts.
Context {A : Type}.
Variable leb : A -> A -> bool.
Hypothesis leb_total_preorder : total_preorder leb.

Lemma leb_false_flip (x y : A) : leb x y = false -> leb y x = true.
Proof.
  intros E. destruct leb_total_preorder as [T _].
  destruct (T x y) as [H | H]; congruence.
Qed.

Lemma insert_sorted_perm (x : A) (l : list A) : Permutation (insert_sorted leb x l) (x :: l).
Proof.
  induction l as [|y l IH]; simpl; [reflexivity|].
  destruct (leb x y); [reflexivity|].
  rewrite IH. apply perm_swap.
Qed.

Lemma insert_sorted_HdRel (y x : A) (l : list A) :
  leb_rel leb y x -> HdRel (leb_rel leb) y l ->
  HdRel (leb_rel leb) y (insert_sorted leb x l).
Proof.
  intros Hyx Hl. destruct l as [|z l]; simpl; [constructor; assumption|].
  destruct (leb x z); constructor; [assumption|].
  inversion Hl; assumption.
Qed.

Lemma insert_sorted_Sorted (x : A) (l : list A) :
  Sorted (leb_rel leb) l -> Sorted (leb_rel leb) (insert_sorted leb x l).
Proof.
  induction l as [|y l IH]; simpl; intros Hs; [repeat constructor|].
  destruct (leb x y) eqn:E.
  - constructor; [assumption | constructor; exact E].
  - inversion Hs; subst. constructor; [auto|].
    apply insert_sorted_HdRel; [apply leb_false_flip; exact E | assumption].
Qed.

Lemma leb_rel_transitive : Relations_1.Transitive (leb_rel leb).
Proof.
  intros x y z Hxy Hyz. destruct leb_total_preorder as [_ T]. exact (T x y z Hxy Hyz).
Qed.

Lemma insertion_sort_sorted (l : list A) :
  StronglySorted (leb_rel leb) (insertion_sort leb l).
Proof.
  apply Sorted_StronglySorted; [exact leb_rel_transitive|].
  induction l as [|x l IH]; simpl; [constructor|].
  apply insert_sorted_Sorted. exact IH.
Qed.

End SortingFacts.

Lemma insertion_sort_perm {A : Type} (leb : A -> A -> bool) (l : list A) :
  Permutation (insertion_sort leb l) l.
Proof.
  induction l as [|x l IH]; simpl; [reflexivity|].
  rewrite insert_sorted_perm. constructor. exact IH.
Qed.


Lemma String_compare_Lt_trans (s1 : string) :
  forall s2 s3 : string,
    String.compare s1 s2 = Lt -> String.compare s2 s3 = Lt -> String.compare s1 s3 = Lt.
Proof.
  induction s1 as [|c1 s1 IH]; intros [|c2 s2] [|c3 s3]; cbn [String.compare];
    try congruence.
  unfold Ascii.compare.
  destruct (N.compare_spec (Ascii.N_of_ascii c1) (Ascii.N_of_ascii c2)) as [E12|L12|G12];
    destruct (N.compare_spec (Ascii.N_of_ascii c2) (Ascii.N_of_ascii c3)) as [E23|L23|G23];
    try congruence; intros H12 H23.
  - rewrite E12, E23, N.compare_refl. exact (IH _ _ H12 H23).
  - rewrite E12. apply N.compare_lt_iff in L23. rewrite L23. reflexivity.
  - rewrite <- E23. apply N.compare_lt_iff in L12. rewrite L12. reflexivity.
  - assert (L13 : (Ascii.N_of_ascii c1 < Ascii.N_of_ascii c3)%N) by lia.
    apply N.compare_lt_iff in L13. rewrite L13. reflexivity.
Qed.

Lemma String_leb_total_preorder : total_preorder String.leb.
Proof.
  split.
  - intros x y. destruct (String.leb_total x y); auto.
  - intros x y z. unfold String.leb.
    destruct (String.compare x y) eqn:Exy; [| |discriminate];
      destruct (String.compare y z) eqn:Eyz; try discriminate; intros _ _.
    + apply String.compare_eq_iff in Exy. subst y. rewrite Eyz. reflexivity.
    + apply String.compare_eq_iff in Exy. subst y. rewrite Eyz. reflexivity.
    + apply String.compare_eq_iff in Eyz. subst z. rewrite Exy. reflexivity.
    + rewrite (String_compare_Lt_trans _ _ _ Exy Eyz). reflexivity.
Qed.

Lemma stable_sorter_contract : sorter_permutes stable_sorter /\ sorter_sorts stable_sorter.
Proof.
  split.
  - intros A leb l. apply insertion_sort_perm.
  - intros A leb l Hl. apply insertion_sort_sorted. exact Hl.
Qed.

Lemma StronglySorted_snoc {A : Type} (R : A -> A -> Prop) (l : list A) (x : A) :
  StronglySorted R l -> Forall (fun y => R y x) l -> StronglySorted R (l ++ [x]).
Proof.
  induction l as [|y l IH]; simpl; intros Hs Hf; [repeat constructor|].
  inversion Hs; subst. inversion Hf; subst.
  constructor; [auto|].
  apply Forall_app. split; [assumption | repeat constructor; assumption].
Qed.

Lemma StronglySorted_rev {A : Type} (R : A -> A -> Prop) (l : list A) :
  StronglySorted R l -> StronglySorted (fun x y => R y x) (rev l).
Proof.
  induction 1 as [|x l Hs IH Hf]; simpl; [constructor|].
  apply StronglySorted_snoc; [exact IH|].
  apply Forall_rev. exact Hf.
Qed.

Lemma total_preorder_on {R V : Type} (leb : V -> V -> bool) (value : R -> V) :
  total_preorder leb -> total_preorder (fun a b => leb (value a) (value b)).
Proof.
  intros [T Tr]. split.
  - intros x y. apply T.
  - intros x y z. apply Tr.
Qed.

Lemma Nat_leb_total_preorder : total_preorder Nat.leb.
Proof.
  split.
  - intros x y. rewrite !Nat.leb_le. lia.
  - intros x y z. rewrite !Nat.leb_le. lia.
Qed.

Lemma Qle_bool_total_preorder : total_preorder Qle_bool.
Proof.
  split.
  - intros x y. rewrite !Qle_bool_iff.
    destruct (Qlt_le_dec x y) as [H | H]; [left; apply Qlt_le_weak; exact H | right; exact H].
  - intros x y z. rewrite !Qle_bool_iff. apply Qle_trans.
Qed.

Lemma sort_values_desc_descending {R V : Type} (sort : Sorter) (leb : V -> V -> bool)
  (value : R -> V) (df : DataFrame R) :
  sorter_sorts sort -> total_preorder leb ->
  descending leb value (rows (sort_values_desc sort leb value df)).
Proof.
  intros Hs Hl. unfold descending, sort_values_desc; simpl.
  apply StronglySorted_rev with (R := fun x y => leb (value x) (value y) = true).
  apply (Hs R (fun a b => leb (value a) (value b)) (rev (rows df))).
  apply total_preorder_on. exact Hl.
Qed.

Lemma sort_values_desc_perm {R V : Type} (sort : Sorter) (leb : V -> V -> bool)
  (value : R -> V) (df : DataFrame R) :
  sorter_permutes sort ->
  Permutation (rows (sort_values_desc sort leb value df)) (rows df).
Proof.
  intros Hp. unfold sort_values_desc; simpl.
  eapply Permutation_trans; [apply Permutation_sym, Permutation_rev|].
  eapply Permutation_trans; [apply Hp|].
  apply Permutation_sym, Permutation_rev.
Qed.


(** ** The ranking tables *)

Lemma groupby_agg_ok {R K V W : Type} `{Key K} (by_ : Columns R K) (value : Columns R V)
  (agg : list R -> W) (name : string) (df : DataFrame R) :
  forallb (fun l => has_column l df) (labels by_ ++ labels value) = true ->
  groupby_agg by_ value agg name df
  = Ok (mkDataFrame (labels by_ ++ [name])
          (map (fun k => (k, agg (group by_ k (rows df)))) (group_keys by_ (rows df)))).
Proof.
  intros Hc. unfold groupby_agg. rewrite (has_columns_not_missing _ _ Hc). reflexivity.
Qed.

Lemma missing_label_Some {R : Type} (df : DataFrame R) (ls : list string) (l : string) :
  missing_label ls df = Some l -> has_column l df = false.
Proof.
  unfold missing_label. intros E. apply find_some in E. destruct E as [_ E].
  destruct (has_column l df); [discriminate E | reflexivity].
Qed.

Lemma missing_label_None {R : Type} (df : DataFrame R) (ls : list string) (l : string) :
  missing_label ls df = None -> In l ls -> has_column l df = true.
Proof.
  unfold missing_label. intros E Hl.
  pose proof (find_none _ _ E l Hl) as Hn. simpl in Hn.
  destruct (has_column l df); [reflexivity | discriminate Hn].
Qed.

Lemma ship_names_ok (ui : DataFrame Candidate) :
  has_column "mmsi" ui = true -> has_column "vessel_name" ui = true ->
  ship_names ui = Ok (mkDataFrame ["mmsi"; "vessel_name"]%string (name_pairs ui)).
Proof.
  intros Hm Hv. unfold ship_names, project, missing_label. simpl.
  rewrite Hm, Hv. simpl.
  unfold drop_duplicates, empty, name_pairs; simpl.
  destruct (rows ui) as [|c l]; reflexivity.
Qed.

Lemma with_names_rows {V : Type} (ui : DataFrame Candidate)
  (table : DataFrame (RankRow (option Z) V)) :
  has_column "mmsi" ui = true ->
  with_names ui table
  = Ok (if has_column "vessel_name" ui
        then merge_left table (mkDataFrame ["mmsi"; "vessel_name"]%string (name_pairs ui))
        else table).
Proof.
  intros Hm. unfold with_names.
  destruct (has_column "vessel_name" ui) eqn:Hv; [|reflexivity].
  rewrite (ship_names_ok ui Hm Hv). reflexivity.
Qed.



Lemma incident_counts_ok (ui : DataFrame Candidate) :
  has_column "mmsi" ui = true ->
  exists g, incident_counts ui = Ok g.
Proof.
  intros Hm. eexists. unfold incident_counts. apply groupby_agg_ok.
  simpl. rewrite Hm. reflexivity.
Qed.

Lemma area_sums_ok (ui : DataFrame Candidate) :
  has_column "mmsi" ui = true -> has_column "area_sq_km" ui = true ->
  exists g, area_sums ui = Ok g.
Proof.
  intros Hm Ha. eexists. unfold area_sums. apply groupby_agg_ok.
  simpl. rewrite Hm, Ha. reflexivity.
Qed.

Lemma distinct_vessel_counts_ok (cdf : DataFrame Candidate) :
  has_column "spill_id" cdf = true -> has_column "mmsi" cdf = true ->
  exists g, distinct_vessel_counts cdf = Ok g.
Proof.
  intros Hs Hm. eexists. unfold distinct_vessel_counts. apply groupby_agg_ok.
  simpl. rewrite Hs, Hm. reflexivity.
Qed.




(** ** The name merge *)

Lemma merge_left_keeps {V : Type} (table : DataFrame (RankRow (option Z) V))
  (names : DataFrame (option Z * option string)) (r : RankRow (option Z) V) :
  In r (rows table) ->
  exists r', In r' (rows (merge_left table names))
             /\ r_key r' = r_key r /\ r_value r' = r_value r.
Proof.
  intros Hr. unfold merge_left; cbn [rows].
  destruct (filter (fun p => key_eqb (fst p) (r_key r)) (rows names)) as [|n ns] eqn:E.
  - exists (mkRank (r_key r) (r_value r) None). split; [|split; reflexivity].
    apply in_flat_map. exists r. split; [exact Hr|]. rewrite E. simpl; auto.
  - exists (mkRank (r_key r) (r_value r) (snd n)). split; [|split; reflexivity].
    apply in_flat_map. exists r. split; [exact Hr|]. rewrite E. simpl; auto.
Qed.

Lemma merge_left_null_name {V : Type} (table : DataFrame (RankRow (option Z) V))
  (names : DataFrame (option Z * option string)) (r : RankRow (option Z) V) :
  In r (rows table) ->
  (forall p, In p (rows names) -> fst p <> r_key r) ->
  In (mkRank (r_key r) (r_value r) None) (rows (merge_left table names)).
Proof.
  intros Hr Hno. unfold merge_left; cbn [rows].
  apply in_flat_map. exists r. split; [exact Hr|].
  destruct (filter (fun p => key_eqb (fst p) (r_key r)) (rows names)) as [|n ns] eqn:E;
    [simpl; auto|].
  assert (Hn : In n (filter (fun p => key_eqb (fst p) (r_key r)) (rows names)))
    by (rewrite E; simpl; auto).
  apply filter_In in Hn. destruct Hn as [Hn Hk]. apply key_eqb_eq in Hk.
  exfalso. exact (Hno n Hn Hk).
Qed.

Lemma groupby_agg_has_column {R K V W : Type} `{Key K} (by_ : Columns R K)
  (value : Columns R V) (agg : list R -> W) (name : string) (df : DataFrame R)
  (g : DataFrame (K * W)) (l : string) :
  groupby_agg by_ value agg name df = Ok g -> In l (labels by_) -> has_column l df = true.
Proof.
  unfold groupby_agg. intros E Hl.
  destruct (missing_label (labels by_ ++ labels value) df) eqn:M; [discriminate E|].
  eapply missing_label_None; [exact M|]. apply in_or_app. left. exact Hl.
Qed.

Lemma incident_counts_sorted_has_mmsi (sort : Sorter) (ui : DataFrame Candidate)
  (t : DataFrame (RankRow (option Z) nat)) :
  incident_counts_sorted sort ui = Ok t -> has_column "mmsi" ui = true.
Proof.
  unfold incident_counts_sorted. intros E.
  destruct (incident_counts ui) as [g|] eqn:G; [|discriminate E].
  unfold incident_counts in G.
  exact (@groupby_agg_has_column _ _ _ _ _ col_mmsi _ _ _ _ _ "mmsi"%string G
           (or_introl eq_refl)).
Qed.

Lemma area_sum_sorted_has_mmsi (sort : Sorter) (ui : DataFrame Candidate)
  (t : DataFrame (RankRow (option Z) Q)) :
  area_sum_sorted sort ui = Ok t -> has_column "mmsi" ui = true.
Proof.
  unfold area_sum_sorted. intros E.
  destruct (area_sums ui) as [g|] eqn:G; [|discriminate E].
  unfold area_sums in G.
  exact (@groupby_agg_has_column _ _ _ _ _ col_mmsi _ _ _ _ _ "mmsi"%string G
           (or_introl eq_refl)).
Qed.

Lemma with_names_keeps {V : Type} (ui : DataFrame Candidate)
  (table : DataFrame (RankRow (option Z) V)) :
  has_column "mmsi" ui = true ->
  exists merged, with_names ui table = Ok merged
    /\ forall r, In r (rows table) ->
         exists r', In r' (rows merged) /\ r_key r' = r_key r /\ r_value r' = r_value r.
Proof.
  intros Hm. eexists. split; [apply with_names_rows; exact Hm|].
  intros r Hr. destruct (has_column "vessel_name" ui).
  - apply merge_left_keeps. exact Hr.
  - exists r. auto.
Qed.

(** C9.  The name merge drops no row.  Once a vessel ranking (by incident
    count or by area sum) has been computed, the merge with [ship_names]
    succeeds and every row of the ranking is found in the merged table
    with the same mmsi and the same aggregate; and in the left merge a row
    whose mmsi has no entry among the names appears with a null name. *)
Theorem name_merge_keeps_every_row (sort : Sorter) (ui : DataFrame Candidate) :
  (forall ranked, incident_counts_sorted sort ui = Ok ranked ->
     exists t, ship_incident_counts sort ui = Ok t
       /\ forall r, In r (rows ranked) ->
            exists r', In r' (rows t) /\ r_key r' = r_key r /\ r_value r' = r_value r)
  /\ (forall ranked, area_sum_sorted sort ui = Ok ranked ->
        exists t, ship_area_sum sort ui = Ok t
          /\ forall r, In r (rows ranked) ->
               exists r', In r' (rows t) /\ r_key r' = r_key r /\ r_value r' = r_value r)
  /\ (forall (V : Type) (table : DataFrame (RankRow (option Z) V))
             (names : DataFrame (option Z * option string)) (r : RankRow (option Z) V),
        In r (rows table) ->
        (forall p, In p (rows names) -> fst p <> r_key r) ->
        In (mkRank (r_key r) (r_value r) None) (rows (merge_left table names))).
Proof.
  split; [|split].
  - intros ranked E.
    pose proof (incident_counts_sorted_has_mmsi _ _ E) as Hm.
    destruct (with_names_keeps ui ranked Hm) as (t & Et & Ht).
    exists t. split; [|exact Ht].
    unfold ship_incident_counts. rewrite E. exact Et.
  - intros ranked E.
    pose proof (area_sum_sorted_has_mmsi _ _ E) as Hm.
    destruct (with_names_keeps ui ranked Hm) as (t & Et & Ht).
    exists t. split; [|exact Ht].
    unfold ship_area_sum. rewrite E. exact Et.
  - intros V table names r. apply merge_left_null_name.
Qed.

(** ** Rows per vessel after the name merge *)

Lemma Permutation_filter_length {A : Type} (p : A -> bool) (l l' : list A) :
  Permutation l l' -> List.length (filter p l) = List.length (filter p l').
Proof.
  induction 1 as [|x l l' _ IH|x y l|l l' l'' _ IH1 _ IH2]; simpl.
  - reflexivity.
  - destruct (p x); simpl; congruence.
  - destruct (p x), (p y); reflexivity.
  - congruence.
Qed.

Section GroupKeysFacts.
Context {R K : Type} `{KeyLaws K}.
Variable by_ : Columns R K.

Lemma drop_duplicates_rows_id_In (l : list K) (k : K) :
  In k (drop_duplicates_rows (fun x => x) [] l) <-> In k l.
Proof.
  split.
  - intros Hk. apply (drop_duplicates_rows_In (fun x => x)) in Hk. tauto.
  - intros Hk.
    destruct (drop_duplicates_rows_covers (fun x => x) l [] k Hk) as (r & Hr & ->);
      [simpl; tauto | exact Hr].
Qed.

Lemma drop_duplicates_rows_id_NoDup (l : list K) :
  NoDup (drop_duplicates_rows (fun x => x) [] l).
Proof.
  rewrite <- (map_id (drop_duplicates_rows (fun x => x) [] l)).
  apply (drop_duplicates_rows_NoDup (fun x => x)).
Qed.

Lemma group_keys_NoDup (l : list R) : NoDup (group_keys by_ l).
Proof.
  unfold group_keys.
  eapply Permutation_NoDup;
    [apply Permutation_sym, insertion_sort_perm | apply drop_duplicates_rows_id_NoDup].
Qed.

Lemma group_keys_In (l : list R) (k : K) :
  In k (group_keys by_ l) <-> In k (map (cells by_) l) /\ key_isna k = false.
Proof.
  unfold group_keys. split.
  - intros Hk. apply (Permutation_in _ (insertion_sort_perm key_leb _)) in Hk.
    apply (proj1 (drop_duplicates_rows_id_In _ _)) in Hk. apply filter_In in Hk.
    destruct Hk as [Hk Hn]. split; [exact Hk|]. destruct (key_isna k); [discriminate Hn | reflexivity].
  - intros [Hk Hn].
    apply (Permutation_in _ (Permutation_sym (insertion_sort_perm key_leb _))).
    apply (proj2 (drop_duplicates_rows_id_In _ _)). apply filter_In. rewrite Hn. auto.
Qed.
End GroupKeysFacts.

(** Among the distinct (mmsi, name) pairs, those of vessel [m] are its
    distinct names. *)
Lemma name_pairs_of_vessel (m : option Z) (l : list (option Z * option string)) :
  forall seen : list (option Z * option string),
    map snd (filter (fun p => key_eqb (fst p) m) (drop_duplicates_rows (fun p => p) seen l))
    = drop_duplicates_rows (fun n => n)
        (map snd (filter (fun p => key_eqb (fst p) m) seen))
        (map snd (filter (fun p => key_eqb (fst p) m) l)).
Proof.
  assert (Hseen : forall (n : option string) (seen : list (option Z * option string)),
             existsb (key_eqb (m, n)) seen
             = existsb (key_eqb n) (map snd (filter (fun p => key_eqb (fst p) m) seen))).
  { intros n seen. induction seen as [|[a b] seen IH]; [reflexivity|].
    cbn [existsb filter fst]. rewrite IH.
    rewrite (key_eqb_sym a m).
    change (key_eqb (m, n) (a, b)) with (key_eqb m a && key_eqb n b).
    destruct (key_eqb m a); reflexivity. }
  induction l as [|[a b] l IH]; intros seen; [reflexivity|].
  cbn [drop_duplicates_rows filter fst].
  destruct (key_eqb a m) eqn:Ea.
  - apply key_eqb_eq in Ea. subst a. cbn [map snd drop_duplicates_rows].
    rewrite <- Hseen.
    destruct (existsb (key_eqb (m, b)) seen); [apply IH|].
    cbn [filter fst map snd]. rewrite key_eqb_refl. cbn [map snd].
    f_equal. rewrite IH. cbn [filter fst]. rewrite key_eqb_refl. reflexivity.
  - destruct (existsb (key_eqb (a, b)) seen); [apply IH|].
    cbn [filter fst]. rewrite Ea. rewrite IH. cbn [filter fst]. rewrite Ea. reflexivity.
Qed.

Lemma distinct_names_length (m : option Z) (ui : DataFrame Candidate) :
  List.length (filter (fun p => key_eqb (fst p) m) (name_pairs ui))
  = List.length (distinct_names m ui).
Proof.
  unfold name_pairs, distinct_names.
  rewrite <- (length_map snd), (name_pairs_of_vessel m _ []).
  cbn [filter map]. f_equal. f_equal.
  unfold group. induction (rows ui) as [|c l IH]; [reflexivity|].
  cbn [map filter fst cells col_mmsi].
  destruct (key_eqb (mmsi (vessel c)) m); cbn [map snd]; rewrite IH; reflexivity.
Qed.

Lemma merge_left_rows_of_vessel {V : Type} (table : DataFrame (RankRow (option Z) V))
  (names : DataFrame (option Z * option string)) (m : option Z) :
  filter (fun p => key_eqb (fst p) m) (rows names) <> [] ->
  List.length (rows_of_vessel m (merge_left table names))
  = (List.length (filter (fun p => key_eqb (fst p) m) (rows names))
     * List.length (filter (fun k => key_eqb k m) (map (@r_key (option Z) V) (rows table))))%nat.
Proof.
  intros Hne. unfold rows_of_vessel, merge_left; cbn [rows].
  induction (rows table) as [|x l IH]; [simpl; lia|].
  cbn [flat_map]. rewrite filter_app, length_app, IH. clear IH.
  cbn [map filter].
  destruct (key_eqb (r_key x) m) eqn:Ex.
  - apply key_eqb_eq in Ex. rewrite Ex.
    destruct (filter (fun p => key_eqb (fst p) m) (rows names)) as [|n ns];
      [congruence|].
    cbv beta iota. set (ms := n :: ns).
    assert (Hf : filter (fun r : RankRow (option Z) V => key_eqb (r_key r) m)
                   (map (fun r => mkRank m (r_value x) (snd r)) ms)
                 = map (fun r => mkRank m (r_value x) (snd r)) ms).
    { induction ms as [|a ms IHm]; cbn [map filter r_key]; [reflexivity|].
      rewrite key_eqb_refl, IHm. reflexivity. }
    change (mkRank m (r_value x) (snd n)
              :: map (fun r : option Z * option string => mkRank m (r_value x) (snd r)) ns)
      with (map (fun r : option Z * option string => mkRank m (r_value x) (snd r)) ms).
    rewrite Hf, length_map. cbn [List.length]. lia.
  - assert (Hf : forall ys : list (RankRow (option Z) V),
               (forall y, In y ys -> r_key y = r_key x) ->
               filter (fun r : RankRow (option Z) V => key_eqb (r_key r) m) ys = []).
    { induction ys as [|a ys IHy]; cbn [filter]; intros Hy; [reflexivity|].
      rewrite (Hy a) by (simpl; auto). rewrite Ex. apply IHy.
      intros y Hin. apply Hy. simpl; auto. }
    rewrite Hf; [simpl; lia|].
    intros y.
    destruct (filter (fun r => key_eqb (fst r) (r_key x)) (rows names)) as [|n ns].
    + cbn [In]. intros [<- | []]. reflexivity.
    + cbn [map In]. intros [<- | Hy]; [reflexivity|].
      apply in_map_iff in Hy. destruct Hy as (r & <- & _). reflexivity.
Qed.

Lemma merged_rows_per_vessel {V : Type} (ui : DataFrame Candidate)
  (table merged : DataFrame (RankRow (option Z) V)) (m : Z) :
  has_column "mmsi" ui = true -> has_column "vessel_name" ui = true ->
  Permutation (map (@r_key (option Z) V) (rows table)) (group_keys col_mmsi (rows ui)) ->
  with_names ui table = Ok merged ->
  In (Some m) (map (cells col_mmsi) (rows ui)) ->
  List.length (rows_of_vessel (Some m) merged) = List.length (distinct_names (Some m) ui).
Proof.
  intros Hm Hv Hp E Hin.
  rewrite (with_names_rows ui table Hm), Hv in E. injection E as <-.
  assert (Hne : filter (fun p => key_eqb (fst p) (Some m)) (name_pairs ui) <> []).
  { apply in_map_iff in Hin. destruct Hin as (c & Ec & Hc).
    intros Hnil.
    assert (Hp' : In (Some m, vessel_name (vessel c)) (name_pairs ui)).
    { unfold name_pairs. apply (proj2 (drop_duplicates_rows_id_In _ _)).
      apply in_map_iff. exists c. cbn [cells col_mmsi] in Ec. rewrite Ec. auto. }
    assert (Hf : In (Some m, vessel_name (vessel c))
                   (filter (fun p => key_eqb (fst p) (Some m)) (name_pairs ui)))
      by (apply filter_In; split; [exact Hp' | apply key_eqb_refl]).
    rewrite Hnil in Hf. exact Hf. }
  rewrite merge_left_rows_of_vessel by exact Hne.
  cbn [rows]. rewrite (Permutation_filter_length _ Hp).
  assert (Hone : List.length (filter (fun k => key_eqb k (Some m))
                                (group_keys col_mmsi (rows ui))) = 1%nat).
  { change (fun k : option Z => key_eqb k (Some m))
      with (fun r : option Z => key_eqb ((fun k : option Z => k) r) (Some m)).
    apply (NoDup_keys_once (fun k : option Z => k)).
    - rewrite map_id. apply group_keys_NoDup.
    - rewrite map_id. apply group_keys_In. split; [exact Hin | reflexivity]. }
  rewrite Hone, Nat.mul_1_r. apply distinct_names_length.
Qed.

Lemma sorted_keys_are_group_keys {V : Type} (sort : Sorter) (leb : V -> V -> bool)
  (agg : list Candidate -> V) (name : string) (ui : DataFrame Candidate) :
  sorter_permutes sort ->
  Permutation
    (map (@r_key (option Z) V)
       (rows (sort_values_desc sort leb (@r_value (option Z) V)
                (rank_rows
                   (mkDataFrame (labels col_mmsi ++ [name])
                      (map (fun k => (k, agg (group col_mmsi k (rows ui))))
                         (group_keys col_mmsi (rows ui))))))))
    (group_keys col_mmsi (rows ui)).
Proof.
  intros Hp.
  eapply Permutation_trans;
    [apply Permutation_map, sort_values_desc_perm; exact Hp|].
  unfold rank_rows; cbn [rows]. rewrite !map_map. cbn [r_key fst].
  rewrite map_id. reflexivity.
Qed.

(** C10.  When the frame of unique incidents has the column
    [vessel_name], a vessel [m] that occurs in it has, in the ranking by
    incident count and in the ranking by area sum, as many rows as it has
    distinct [vessel_name] cells among the unique incidents: one row exactly
    when it carries a single name, k rows when it carries k names. *)
Theorem name_merge_rows_per_vessel (sort : Sorter) (ui : DataFrame Candidate) (m : Z) :
  sorter_permutes sort ->
  has_column "mmsi" ui = true -> has_column "area_sq_km" ui = true ->
  has_column "vessel_name" ui = true ->
  In (Some m) (map (cells col_mmsi) (rows ui)) ->
  exists (counts : DataFrame (RankRow (option Z) nat))
         (areas : DataFrame (RankRow (option Z) Q)),
    ship_incident_counts sort ui = Ok counts
    /\ ship_area_sum sort ui = Ok areas
    /\ List.length (rows_of_vessel (Some m) counts)
       = List.length (distinct_names (Some m) ui)
    /\ List.length (rows_of_vessel (Some m) areas)
       = List.length (distinct_names (Some m) ui).
Proof.
  intros Hp Hm Ha Hv Hin.
  assert (E1 : incident_counts ui = Ok _)
    by (unfold incident_counts; apply groupby_agg_ok; simpl; rewrite Hm; reflexivity).
  assert (E2 : area_sums ui = Ok _)
    by (unfold area_sums; apply groupby_agg_ok; simpl; rewrite Hm, Ha; reflexivity).
  unfold ship_incident_counts, ship_area_sum, incident_counts_sorted, area_sum_sorted.
  rewrite E1, E2. cbn [except_bind].
  destruct (with_names_keeps ui
              (sort_values_desc sort Nat.leb (@r_value (option Z) nat)
                 (rank_rows
                    (mkDataFrame (labels col_mmsi ++ ["incident_count"%string])
                       (map (fun k => (k, List.length (group col_mmsi k (rows ui))))
                          (group_keys col_mmsi (rows ui)))))) Hm)
    as (counts & Ec & _).
  destruct (with_names_keeps ui
              (sort_values_desc sort Qle_bool (@r_value (option Z) Q)
                 (rank_rows
                    (mkDataFrame (labels col_mmsi ++ ["total_area_sq_km"%string])
                       (map (fun k => (k, Qsum (map (cells col_area_sq_km)
                                                  (group col_mmsi k (rows ui)))))
                          (group_keys col_mmsi (rows ui)))))) Hm)
    as (areas & Ea & _).
  exists counts, areas.
  split; [exact Ec|]. split; [exact Ea|]. split.
  - eapply merged_rows_per_vessel; [exact Hm | exact Hv | | exact Ec | exact Hin].
    apply sorted_keys_are_group_keys. exact Hp.
  - eapply merged_rows_per_vessel; [exact Hm | exact Hv | | exact Ea | exact Hin].
    apply (sorted_keys_are_group_keys Qle_bool
             (fun g => Qsum (map (cells col_area_sq_km) g))). exact Hp.
Qed.

Lemma name_merge_rows_per_vessel_witness :
  let ui := Sample.incidents_of
              (Sample.candidates_of Sample.spills12 [Sample.N0; Sample.N1] 24) in
  (sorter_permutes stable_sorter
   /\ has_column "mmsi" ui = true /\ has_column "area_sq_km" ui = true
   /\ has_column "vessel_name" ui = true
   /\ In (Some 123%Z) (map (cells col_mmsi) (rows ui)))
  /\ List.length (distinct_names (Some 123%Z) ui) = 2%nat
  /\ exists (counts : DataFrame (RankRow (option Z) nat))
            (areas : DataFrame (RankRow (option Z) Q)),
       ship_incident_counts stable_sorter ui = Ok counts
       /\ ship_area_sum stable_sorter ui = Ok areas
       /\ List.length (rows_of_vessel (Some 123%Z) counts)
          = List.length (distinct_names (Some 123%Z) ui)
       /\ List.length (rows_of_vessel (Some 123%Z) areas)
          = List.length (distinct_names (Some 123%Z) ui).
Proof.
  intros ui.
  assert (Hin : In (Some 123%Z) (map (cells col_mmsi) (rows ui))) by (vm_compute; auto).
  split; [|split].
  - split; [exact (proj1 stable_sorter_contract)|].
    repeat split; try (vm_compute; reflexivity). exact Hin.
  - vm_compute. reflexivity.
  - apply (@name_merge_rows_per_vessel stable_sorter ui 123%Z
             (proj1 stable_sorter_contract)); try (vm_compute; reflexivity).
    exact Hin.
Defined.

(** ** The loaders *)

Lemma combine_map_self {A B : Type} (g : A -> B) (l : list A) :
  combine l (map g l) = map (fun a => (a, g a)) l.
Proof.
  induction l as [|a l IH]; simpl; [reflexivity | rewrite IH; reflexivity].
Qed.

Lemma dropna_map {A B C : Type} (h : B -> option C) (g : A -> B) (l : list A) :
  dropna h (map g l) = dropna (fun a => h (g a)) l.
Proof.
  induction l as [|a l IH]; simpl; [reflexivity|].
  destruct (h (g a)); rewrite IH; reflexivity.
Qed.



Lemma spill_rows_kept (to_crs : string -> Geom.Geometry -> Geom.Geometry)
  (src : option string) (parsed : SpillFeature -> option Timestamp)
  (fs : list SpillFeature) :
  Forall2 (spill_of_feature to_crs src parsed)
    (dropna (spill_row to_crs src) (combine fs (map parsed fs)))
    (filter (fun f => negb (is_null (parsed f))) fs).
Proof.
  rewrite combine_map_self, dropna_map.
  induction fs as [|f fs IH]; simpl; [constructor|].
  unfold spill_row at 1; simpl.
  destruct (parsed f) as [d|] eqn:E; simpl; [|exact IH].
  constructor; [|exact IH].
  unfold spill_of_feature; simpl. rewrite E. repeat split; reflexivity.
Qed.

Lemma vessel_rows_kept (to_datetime : list (option string) -> string -> option Timestamp)
  (rs kept : list AisRecord) :
  (forall r, In r kept -> complete to_datetime rs r = true /\ text_coordinate r = false) ->
  Forall2 (vessel_of_record (timestamp_of to_datetime rs))
    (dropna (vessel_row to_datetime rs) kept) kept.
Proof.
  induction kept as [|r kept IH]; intros Hall; cbn [dropna]; [constructor|].
  destruct (Hall r (or_introl eq_refl)) as [Hc Ht].
  unfold complete in Hc. unfold text_coordinate in Ht.
  apply andb_true_iff in Hc. destruct Hc as [Hc Hlon].
  apply andb_true_iff in Hc. destruct Hc as [Hts Hlat].
  apply orb_false_iff in Ht. destruct Ht as [Htlon Htlat].
  unfold vessel_row at 1.
  destruct (timestamp_of to_datetime rs r) as [t|] eqn:Et; [|discriminate Hts].
  destruct (a_latitude r) as [lat| |] eqn:Elat; try discriminate.
  destruct (a_longitude r) as [lon| |] eqn:Elon; try discriminate.
  cbn [as_float]. constructor; [|apply IH; intros r' Hr'; apply Hall; simpl; auto].
  unfold vessel_of_record; cbn. rewrite Et, Elat, Elon. repeat split; reflexivity.
Qed.

Section LoaderFacts.
Variable to_datetime : list (option string) -> string -> option Timestamp.
Variable to_datetime_format : list (option string) -> string -> option Timestamp.
Variable to_crs : string -> Geom.Geometry -> Geom.Geometry.

Lemma load_spills_data_raises (file : SpillFile) :
  forallb (fun c => has_column c (features file)) ["slick_name"; "area_sys"]%string = true ->
  has_column "date" (features file) && has_column "time" (features file)
  && negb (text_columns file) = true ->
  load_spills_data to_datetime to_datetime_format to_crs (Some file)
  = (Raises TypeError, [Info_loading; Success_date_time_columns]).
Proof.
  intros Hreq Hdt. unfold load_spills_data. rewrite Hreq. cbn [negb].
  rewrite Hdt. apply andb_true_iff in Hdt. destruct Hdt as [Hdt _].
  rewrite Hdt. reflexivity.
Qed.


Lemma load_ais_data_raises (df : DataFrame AisRecord) :
  forallb (fun c => has_column c df)
    ["mmsi"; "latitude"; "longitude"; "BaseDateTime"]%string = true ->
  existsb text_coordinate (filter (complete to_datetime (rows df)) (rows df)) = true ->
  load_ais_data to_datetime (Some df) = (Raises ValueError, [Info_loading]).
Proof.
  intros Hreq Ht. unfold load_ais_data. rewrite Hreq. cbn [negb]. rewrite Ht. reflexivity.
Qed.

End LoaderFacts.

(** The AIS loader emits no message that carries a count. *)
Lemma load_ais_data_reports_no_count
  (to_datetime : list (option string) -> string -> option Timestamp)
  (read_csv : option (DataFrame AisRecord)) (n : nat) :
  ~ In (Warning_unparsed n) (snd (load_ais_data to_datetime read_csv)).
Proof.
  unfold load_ais_data. destruct read_csv as [df|].
  - destruct (negb _); cbn [snd]; [simpl; intuition discriminate|].
    destruct (existsb _ _); cbn [snd]; simpl; intuition discriminate.
  - simpl. intuition discriminate.
Qed.




(** The file of [feature_dated], once with [date] read as text and once
    with [date] read as a column of dates: the first load succeeds, the
    second ends in a [TypeError] at the line that adds the two columns. *)
Example date_column_read_as_dates :
  (exists spills,
     fst (load_spills_data Sample.to_datetime Sample.to_datetime Sample.to_crs
            (Some (Sample.geojson_dated dtype_object [Sample.feature_dated])))
     = Returns (Some spills)
     /\ map detection_date (rows spills) = [Sample.noon])
  /\ load_spills_data Sample.to_datetime Sample.to_datetime Sample.to_crs
       (Some (Sample.geojson_dated dtype_datetime64 [Sample.feature_dated]))
     = (Raises TypeError, [Info_loading; Success_date_time_columns]).
Proof.
  split; [eexists; split; vm_compute; reflexivity | vm_compute; reflexivity].
Qed.

(** ** Prime suspects when no fix lies in two spills

    With unique index labels, [idxmin] followed by [loc] returns one row
    per spill, a nearest candidate of that spill. *)

Lemma idxmin_from_spec (l : list Candidate) : forall (b : Candidate) (t : Timedelta),
  time_to_detection b = Some t ->
  exists r tr,
    In r (b :: l) /\ c_index r = idxmin_from (c_index b, t) l
    /\ time_to_detection r = Some tr /\ (tr <= t)%Z
    /\ forall c tc, In c l -> time_to_detection c = Some tc -> (tr <= tc)%Z.
Proof.
  induction l as [|c l IH]; intros b t Hb.
  - exists b, t. simpl. repeat split; auto; try lia; try tauto.
  - cbn [idxmin_from]. destruct (time_to_detection c) as [tc|] eqn:Ec.
    + cbn [snd]. destruct (Z.ltb tc t) eqn:Elt.
      * apply Z.ltb_lt in Elt.
        destruct (IH c tc Ec) as (r & tr & Hin & Hidx & Hr & Hle & Hall).
        exists r, tr. split; [simpl in *; tauto|]. split; [exact Hidx|].
        split; [exact Hr|]. split; [lia|].
        intros c' tc' [<- | Hc'] Hc't; [|eapply Hall; eassumption].
        rewrite Ec in Hc't. injection Hc't as <-. exact Hle.
      * apply Z.ltb_ge in Elt.
        destruct (IH b t Hb) as (r & tr & Hin & Hidx & Hr & Hle & Hall).
        exists r, tr. split; [simpl in *; tauto|]. split; [exact Hidx|].
        split; [exact Hr|]. split; [exact Hle|].
        intros c' tc' [<- | Hc'] Hc't; [|eapply Hall; eassumption].
        rewrite Ec in Hc't. injection Hc't as <-. lia.
    + destruct (IH b t Hb) as (r & tr & Hin & Hidx & Hr & Hle & Hall).
      exists r, tr. split; [simpl in *; tauto|]. split; [exact Hidx|].
      split; [exact Hr|]. split; [exact Hle|].
      intros c' tc' [<- | Hc'] Hc't; [congruence | eapply Hall; eassumption].
Qed.

Lemma idxmin_spec (l : list Candidate) (i : Z) :
  idxmin l = Some i ->
  exists r tr,
    In r l /\ c_index r = i /\ time_to_detection r = Some tr
    /\ forall c tc, In c l -> time_to_detection c = Some tc -> (tr <= tc)%Z.
Proof.
  induction l as [|b l IH]; [discriminate|].
  cbn [idxmin]. destruct (time_to_detection b) as [t|] eqn:Eb.
  - intros E. injection E as <-.
    destruct (idxmin_from_spec l b Eb) as (r & tr & Hin & Hidx & Hr & Hle & Hall).
    exists r, tr. repeat split; auto.
    intros c tc [<- | Hc] Hct; [|eapply Hall; eassumption].
    rewrite Eb in Hct. injection Hct as <-. exact Hle.
  - intros E. destruct (IH E) as (r & tr & Hin & Hidx & Hr & Hall).
    exists r, tr. repeat split; simpl; auto.
    intros c tc [<- | Hc] Hct; [congruence | eapply Hall; eassumption].
Qed.

Lemma unique_label_row (l : list Candidate) (r : Candidate) :
  NoDup (map c_index l) -> In r l ->
  filter (fun c => Z.eqb (c_index c) (c_index r)) l = [r].
Proof.
  induction l as [|x l IH]; simpl; [tauto|].
  intros Hnd Hin. inversion Hnd as [|? ? Hx Hnd']; subst.
  destruct Hin as [-> | Hin].
  - rewrite Z.eqb_refl. f_equal.
    clear IH Hnd. induction l as [|y l IHl]; simpl; [reflexivity|].
    simpl in Hx. inversion Hnd'; subst.
    destruct (Z.eqb (c_index y) (c_index r)) eqn:E.
    + apply Z.eqb_eq in E. exfalso. apply Hx. auto.
    + apply IHl; [tauto | assumption].
  - destruct (Z.eqb (c_index x) (c_index r)) eqn:E.
    + apply Z.eqb_eq in E. exfalso. apply Hx. rewrite E. apply in_map. exact Hin.
    + apply IH; assumption.
Qed.

Lemma loc_rows_nearest (l : list Candidate) (keys : list string) :
  NoDup (map c_index l) ->
  forall out,
    loc_rows (map (fun k => idxmin (group col_spill_id k l)) keys) l = Ok out ->
    Forall2 (nearest_of_spill l) out keys.
Proof.
  intros Hnd. induction keys as [|k keys IH]; intros out; cbn [map loc_rows].
  - intros E. injection E as <-. constructor.
  - destruct (idxmin (group col_spill_id k l)) as [i|] eqn:Ei; [|discriminate].
    destruct (idxmin_spec _ Ei) as (r & tr & Hin & Hidx & Hr & Hall).
    unfold group in Hin. apply filter_In in Hin. destruct Hin as [Hin Hk].
    apply String.eqb_eq in Hk. cbn [cells col_spill_id] in Hk.
    rewrite <- Hidx, (unique_label_row l r Hnd Hin).
    destruct (loc_rows (map (fun k0 => idxmin (group col_spill_id k0 l)) keys) l)
      as [more|] eqn:Em; [|discriminate].
    cbn [except_bind]. intros E. injection E as <-. cbn [app].
    constructor; [|apply IH; reflexivity].
    split; [exact Hin|]. split; [exact Hk|].
    exists tr. split; [exact Hr|].
    intros c tc Hc Hck Hct. apply (Hall c tc); [|exact Hct].
    unfold group. apply filter_In. split; [exact Hc|].
    apply String.eqb_eq. exact Hck.
Qed.

Lemma prime_suspects_df_unique_index (candidates_df out : DataFrame Candidate) :
  NoDup (map c_index (rows candidates_df)) ->
  prime_suspects_df candidates_df = Ok out ->
  Forall2 (nearest_of_spill (rows candidates_df)) (rows out)
    (group_keys col_spill_id (rows candidates_df)).
Proof.
  intros Hnd. unfold prime_suspects_df, prime_suspects_idx, groupby_agg.
  destruct (missing_label _ candidates_df); [discriminate|].
  cbn [except_bind rows]. rewrite map_map. cbn [snd].
  unfold loc.
  destruct (loc_rows _ (rows candidates_df)) as [l|] eqn:El; [|discriminate].
  cbn [except_bind]. intros E. injection E as <-. cbn [rows].
  apply loc_rows_nearest; assumption.
Qed.

(** ** The analytics on a frame that has its columns but no row *)

Lemma sort_nil (sort : Sorter) (A : Type) (leb : A -> A -> bool) :
  sorter_permutes sort -> sort A leb [] = [].
Proof.
  intros Hp. apply Permutation_nil. apply Permutation_sym. apply Hp.
Qed.

Lemma aggregations_on_empty_rows (sort : Sorter) (cols : list string) :
  sorter_permutes sort ->
  forallb (fun l => existsb (String.eqb l) cols)
    ["mmsi"; "spill_id"; "area_sq_km"; "detection_date"; "timestamp"]%string = true ->
  exists r : Analytics (DataFrame Candidate),
    fst (analytics sort (mkDataFrame cols [])) = Ok r
    /\ rows (t1_ship_incident_counts (a_tab1 r)) = []
    /\ rows (t1_ship_area_sum (a_tab1 r)) = []
    /\ rows (a_spill_candidate_counts r) = []
    /\ rows (a_prime_suspects_df r) = [].
Proof.
  intros Hp Hc. cbn [forallb] in Hc.
  repeat (apply andb_true_iff in Hc; destruct Hc as [?H Hc]).
  set (st := mkDataFrame cols (@nil Candidate)).
  assert (Hm : has_column "mmsi" st = true) by assumption.
  assert (Hs : has_column "spill_id" st = true) by assumption.
  assert (Ha : has_column "area_sq_km" st = true) by assumption.
  assert (Hd : has_column "detection_date" st = true) by assumption.
  assert (Ht : has_column "timestamp" st = true) by assumption.
  assert (Eui : unique_incidents st = Ok st) by reflexivity.
  assert (E1 : incident_counts_sorted sort st
               = Ok (mkDataFrame ["mmsi"; "incident_count"]%string [])).
  { unfold incident_counts_sorted, incident_counts.
    rewrite groupby_agg_ok by (simpl; rewrite Hm; reflexivity).
    cbn. unfold sort_values_desc. cbn. rewrite (sort_nil _ Hp). reflexivity. }
  assert (E2 : area_sum_sorted sort st
               = Ok (mkDataFrame ["mmsi"; "total_area_sq_km"]%string [])).
  { unfold area_sum_sorted, area_sums.
    rewrite groupby_agg_ok by (simpl; rewrite Hm, Ha; reflexivity).
    cbn. unfold sort_values_desc. cbn. rewrite (sort_nil _ Hp). reflexivity. }
  assert (E3 : spill_candidate_counts sort st
               = Ok (mkDataFrame ["spill_id"; "candidate_count"]%string [])).
  { unfold spill_candidate_counts, distinct_vessel_counts.
    rewrite groupby_agg_ok by (simpl; rewrite Hs, Hm; reflexivity).
    cbn. unfold sort_values_desc. cbn. rewrite (sort_nil _ Hp). reflexivity. }
  destruct (with_names_keeps st (mkDataFrame ["mmsi"; "incident_count"]%string
                                   (@nil (RankRow (option Z) nat))) Hm) as (c1 & W1 & _).
  destruct (with_names_keeps st (mkDataFrame ["mmsi"; "total_area_sq_km"]%string
                                   (@nil (RankRow (option Z) Q))) Hm) as (c2 & W2 & _).
  assert (R1 : rows c1 = []).
  { rewrite with_names_rows in W1 by exact Hm. injection W1 as <-.
    destruct (has_column "vessel_name" st); reflexivity. }
  assert (R2 : rows c2 = []).
  { rewrite with_names_rows in W2 by exact Hm. injection W2 as <-.
    destruct (has_column "vessel_name" st); reflexivity. }
  assert (T1 : tab1 sort st = (Ok (mkTab1 st c1 c2), st)).
  { rewrite tab1_eq, Eui. cbn [except_bind].
    unfold ship_incident_counts, ship_area_sum. rewrite E1, E2. cbn [except_bind].
    rewrite W1, W2. reflexivity. }
  pose (st' := mkDataFrame
                 (if has_column "time_to_detection" st then cols
                  else cols ++ ["time_to_detection"%string]) (@nil Candidate)).
  assert (Eas : assign_time_to_detection st = Ok st').
  { unfold assign_time_to_detection, missing_label. cbn [find].
    rewrite Hd, Ht. reflexivity. }
  assert (Hs' : has_column "spill_id" st' = true).
  { unfold st'. destruct (has_column "time_to_detection" st); [exact Hs|].
    unfold has_column, st in *; cbn [columns] in *.
    rewrite existsb_app, Hs. reflexivity. }
  assert (Ht' : has_column "time_to_detection" st' = true).
  { unfold st'. destruct (has_column "time_to_detection" st) eqn:E; [exact E|].
    unfold has_column; cbn [columns]. rewrite existsb_app. cbn.
    apply orb_true_r. }
  assert (Eps : prime_suspects_df st' = Ok (mkDataFrame (columns st') [])).
  { unfold prime_suspects_df, prime_suspects_idx.
    rewrite groupby_agg_ok by (simpl; rewrite Hs', Ht'; reflexivity).
    reflexivity. }
  destruct (vessel_type_analysis sort st) as [vt|k] eqn:Evt.
  - exists (mkAnalytics (mkTab1 st c1 c2)
              (mkDataFrame ["spill_id"; "candidate_count"]%string [])
              (mkDataFrame (columns st') []) vt).
    split; [|repeat split; assumption].
    rewrite analytics_eq, T1. cbn [fst].
    rewrite E3, tab3_prime_suspects_eq, Eas, Eps. cbn [t1_unique_incidents].
    rewrite Evt. reflexivity.
  - exfalso. unfold vessel_type_analysis in Evt.
    destruct (has_column "VesselType" st) eqn:Hv; [|discriminate Evt].
    rewrite groupby_agg_ok in Evt; [discriminate Evt|].
    simpl. rewrite Hv, Hs, Ha. reflexivity.
Qed.

Lemma tab3_prime_suspects_unique_index (st out : DataFrame Candidate) :
  NoDup (map c_index (rows st)) ->
  fst (tab3_prime_suspects st) = Ok out ->
  Forall2 (nearest_of_spill (map set_time_to_detection (rows st))) (rows out)
    (group_keys col_spill_id (map set_time_to_detection (rows st))).
Proof.
  intros Hnd. rewrite tab3_prime_suspects_eq. unfold assign_time_to_detection.
  destruct (missing_label _ st); [discriminate|].
  cbn [fst]. intros E.
  apply prime_suspects_df_unique_index in E; [exact E|].
  cbn [rows]. rewrite map_map.
  replace (map (fun c => c_index (set_time_to_detection c)) (rows st))
    with (map c_index (rows st)) by (apply map_ext; reflexivity).
  exact Hnd.
Qed.

(** The time to detection of a row the matcher returned is not negative. *)
Lemma time_to_detection_nonneg (spills : DataFrame SpillRow)
  (vessels : DataFrame VesselRow) (w : Z) (c : Candidate) :
  In c (rows (find_candidates (Some spills) (Some vessels) w)) ->
  exists t, time_to_detection (set_time_to_detection c) = Some t /\ (0 <= t)%Z.
Proof.
  intros Hc. apply find_candidates_In in Hc. destruct Hc as [_ Hw].
  apply in_window_spec in Hw.
  eexists. split; [reflexivity | lia].
Qed.

(** ** The scenarios of the specification *)

Example scenario1_inside_before_detection :
  In (mkCandidate Sample.F1 Sample.S1 None)
     (rows (Sample.candidates_of Sample.spills1 [Sample.F1] 24)).
Proof. vm_compute. auto. Qed.

Example scenario2_after_detection (w : Z) :
  rows (Sample.candidates_of Sample.spills1 [Sample.F2] w) = [].
Proof.
  destruct (rows (Sample.candidates_of Sample.spills1 [Sample.F2] w)) as [|c l] eqn:E;
    [reflexivity|].
  assert (Hc : In c (rows (Sample.candidates_of Sample.spills1 [Sample.F2] w)))
    by (rewrite E; simpl; auto).
  apply find_candidates_In in Hc. destruct Hc as [Hj Hw].
  apply sjoin_within_In in Hj. destruct Hj as (Hv & Hs & _).
  simpl in Hv, Hs. destruct Hv as [Hv | []]. destruct Hs as [Hs | []].
  apply in_window_spec in Hw. rewrite <- Hv, <- Hs in Hw.
  destruct Hw as [_ Hw]. vm_compute in Hw. exfalso. apply Hw. reflexivity.
Qed.

Example scenario3_outside_polygon :
  Sample.candidates_of Sample.spills1 [Sample.F3] 24 = GeoDataFrame_new.
Proof. vm_compute. reflexivity. Qed.

Example scenario4_window :
  rows (Sample.candidates_of Sample.spills1 [Sample.F4] 1) = []
  /\ rows (Sample.candidates_of Sample.spills1 [Sample.F4] 3)
     = [mkCandidate Sample.F4 Sample.S1 None].
Proof. split; vm_compute; reflexivity. Qed.

Example scenario5_one_incident_two_fixes :
  let candidates_df := Sample.candidates_of Sample.spills1 [Sample.F1; Sample.F5] 24 in
  rows (Sample.incidents_of candidates_df) = [mkCandidate Sample.F1 Sample.S1 None]
  /\ exists suspects,
       fst (tab3_prime_suspects candidates_df) = Ok suspects
       /\ rows suspects
          = [set_time_to_detection (mkCandidate Sample.F5 Sample.S1 None)].
Proof.
  split; [vm_compute; reflexivity|].
  eexists. split; vm_compute; reflexivity.
Qed.

(** A table of at most seventeen rows is sorted by insertion alone: two
    vessels with one incident each come out in grouping order. *)
Example ranking_ties_of_two_vessels :
  let ui := Sample.incidents_of
              (Sample.candidates_of Sample.spills1 [Sample.F1; Sample.F4] 24) in
  exists sorted : DataFrame (RankRow (option Z) nat),
    incident_counts_sorted quicksort ui = Ok sorted
    /\ map (fun r => (r_key r, r_value r)) (rows sorted)
       = [(Some 123%Z, 1%nat); (Some 456%Z, 1%nat)].
Proof. eexists. split; vm_compute; reflexivity. Qed.

(** The three rankings of a sample with a twelve-hour window: vessel 456
    lies in the window of both spills, vessel 123 in that of the first. *)
Example rankings_of_two_vessels :
  let cdf := Sample.candidates_of Sample.spills12 [Sample.F1; Sample.F4; Sample.F5] 12 in
  let ui := Sample.incidents_of cdf in
  exists (counts : DataFrame (RankRow (option Z) nat))
         (areas : DataFrame (RankRow (option Z) Q))
         (vessels : DataFrame (RankRow string nat)),
    ship_incident_counts quicksort ui = Ok counts
    /\ ship_area_sum quicksort ui = Ok areas
    /\ spill_candidate_counts quicksort cdf = Ok vessels
    /\ map (fun r => (r_key r, r_value r, r_vessel_name r)) (rows counts)
       = [(Some 456%Z, 2%nat, Some "BOREAS"%string);
          (Some 123%Z, 1%nat, Some "AURORA"%string)]
    /\ map (fun r => (r_key r, r_value r, r_vessel_name r)) (rows areas)
       = [(Some 456%Z, 11 # 2, Some "BOREAS"%string);
          (Some 123%Z, 5 # 2, Some "AURORA"%string)]
    /\ map (fun r => (r_key r, r_value r)) (rows vessels)
       = [("2024-01-10_12:00:00"%string, 2%nat); ("2024-01-10_22:00:00"%string, 1%nat)].
Proof. do 3 eexists. repeat split; vm_compute; reflexivity. Qed.

(** * Further properties of the script *)

(** ** The matcher: bounds, empty results, index labels *)

(** X1.  For every row the matcher returns, the time to detection that the
    prime-suspect step assigns to it, [detection_date - timestamp], lies
    between zero and the window, both included. *)
Theorem time_to_detection_within_window
  (spills : DataFrame SpillRow) (vessels : DataFrame VesselRow) (w : Z) (c : Candidate) :
  In c (rows (find_candidates (Some spills) (Some vessels) w)) ->
  exists t, time_to_detection (set_time_to_detection c) = Some t
            /\ (0 <= t <= timedelta_hours w)%Z.
Proof.
  intros Hc. apply find_candidates_In in Hc. destruct Hc as [_ Hw].
  apply in_window_spec in Hw.
  eexists. split; [reflexivity | lia].
Qed.

Lemma time_to_detection_within_window_witness :
  let c := mkCandidate Sample.F1 Sample.S1 None in
  In c (rows (Sample.candidates_of Sample.spills1 [Sample.F1] 24))
  /\ exists t, time_to_detection (set_time_to_detection c) = Some t
               /\ (0 <= t <= timedelta_hours 24)%Z.
Proof.
  intros c.
  assert (Hc : In c (rows (Sample.candidates_of Sample.spills1 [Sample.F1] 24)))
    by (vm_compute; auto).
  split; [exact Hc|].
  exact (@time_to_detection_within_window Sample.spills1
           (Sample.vessels_of [Sample.F1]) 24 c Hc).
Defined.

Lemma sjoin_within_no_rows (left : DataFrame VesselRow) (right : DataFrame SpillRow) :
  rows left = [] \/ rows right = [] -> rows (sjoin_within left right) = [].
Proof.
  unfold sjoin_within; cbn [rows]. intros [E | E]; rewrite E; [reflexivity|].
  induction (rows left) as [|v l IH]; [reflexivity | exact IH].
Qed.

Lemma find_candidates_of_empty_join (spills : DataFrame SpillRow)
  (vessels : DataFrame VesselRow) (w : Z) :
  rows (sjoin_within vessels spills) = [] ->
  find_candidates (Some spills) (Some vessels) w = GeoDataFrame_new.
Proof.
  intros E. unfold find_candidates, empty. rewrite E. reflexivity.
Qed.

(** X2.  On two loaded frames the matcher returns the frame without columns
    and rows, [GeoDataFrame()], exactly when no fix lies within a spill.
    Otherwise its result has the columns of the join, whatever the window
    leaves of the rows; with a negative window it has no row. *)
Theorem find_candidates_empty_results
  (spills : DataFrame SpillRow) (vessels : DataFrame VesselRow) (w : Z) :
  let candidates_df := find_candidates (Some spills) (Some vessels) w in
  (candidates_df = GeoDataFrame_new
   <-> forall v s, In v (rows vessels) -> In s (rows spills) ->
         Geom.locate (v_geometry v) (geometry s) <> Geom.INTERIOR)
  /\ (candidates_df <> GeoDataFrame_new ->
      columns candidates_df
      = columns vessels ++ ["index_right"%string]
          ++ filter (fun c => negb (String.eqb c "geometry")) (columns spills))
  /\ ((w < 0)%Z -> rows candidates_df = []).
Proof.
  intros candidates_df. split; [|split].
  - split.
    + intros E v s Hv Hs Hloc.
      assert (Hrow : In (mkCandidate v s None) (rows (sjoin_within vessels spills))).
      { apply sjoin_within_In. cbn [vessel spill time_to_detection].
        repeat split; try assumption. apply within_interior. exact Hloc. }
      unfold candidates_df, find_candidates, empty in E.
      destruct (rows (sjoin_within vessels spills)) as [|c l] eqn:Er; [destruct Hrow|].
      destruct (columns (sjoin_within vessels spills)) eqn:Ecol;
        [exact (sjoin_within_columns vessels spills Ecol)|].
      unfold select in E. rewrite Ecol in E. discriminate E.
    + intros H. apply find_candidates_of_empty_join.
      destruct (rows (sjoin_within vessels spills)) as [|c l] eqn:E; [reflexivity|].
      assert (Hc : In c (rows (sjoin_within vessels spills))) by (rewrite E; simpl; auto).
      apply sjoin_within_In in Hc. destruct Hc as (Hv & Hs & _ & Hw).
      apply within_interior in Hw. exfalso. exact (H _ _ Hv Hs Hw).
  - unfold candidates_df, find_candidates.
    destruct (empty (sjoin_within vessels spills)); [congruence | reflexivity].
  - intros Hw.
    destruct (rows candidates_df) as [|c l] eqn:E; [reflexivity|].
    assert (Hc : In c (rows (find_candidates (Some spills) (Some vessels) w)))
      by (fold candidates_df; rewrite E; simpl; auto).
    apply find_candidates_In in Hc. destruct Hc as [_ Hc].
    apply in_window_spec in Hc. unfold timedelta_hours in Hc. lia.
Qed.

(** A fix within the spill but after its detection: the matcher returns
    the joined columns without rows, not the frame without columns. *)
Example find_candidates_columns_without_rows :
  let candidates_df := Sample.candidates_of Sample.spills1 [Sample.F2] 24 in
  rows candidates_df = [] /\ has_column "mmsi" candidates_df = true
  /\ candidates_df <> GeoDataFrame_new.
Proof.
  intros candidates_df. split; [vm_compute; reflexivity|].
  split; [vm_compute; reflexivity|]. intros E.
  assert (H : has_column "mmsi" candidates_df = has_column "mmsi" (@GeoDataFrame_new Candidate))
    by (rewrite E; reflexivity).
  vm_compute in H. discriminate H.
Qed.

Lemma filter_keeps_labels_unique (R L : Type) (label : R -> L)
  (keep : R -> bool) (rs : list R) (Hnd : NoDup (map label rs)) :
  NoDup (map label (filter keep rs)).
Proof.
  induction rs as [|r rs IH]; cbn [filter map] in *; [exact Hnd|].
  apply NoDup_cons_iff in Hnd. destruct Hnd as [Hr Hnd].
  destruct (keep r); cbn [map]; [|exact (IH Hnd)].
  apply NoDup_cons; [|exact (IH Hnd)].
  rewrite in_map_iff. intros (r' & Er & Hr').
  apply filter_In in Hr'. apply Hr. rewrite <- Er. apply in_map. tauto.
Qed.

Lemma sjoin_within_index (left : DataFrame VesselRow) (right : DataFrame SpillRow) :
  NoDup (map v_index (rows left)) ->
  forallb (in_one_spill_at_most (rows right)) (rows left) = true ->
  NoDup (map c_index (rows (sjoin_within left right))).
Proof.
  unfold sjoin_within; cbn [rows].
  induction (rows left) as [|v l IH]; cbn [map flat_map forallb]; [constructor|].
  intros Hnd Hone. inversion Hnd as [|? ? Hv Hnd']; subst.
  apply andb_true_iff in Hone. destruct Hone as [Hone Hrest].
  specialize (IH Hnd' Hrest).
  unfold in_one_spill_at_most in Hone. apply Nat.leb_le in Hone.
  destruct (filter (fun s => Geom.within (v_geometry v) (geometry s)) (rows right))
    as [|s [|s' ss]]; cbn [map app]; [exact IH | | simpl in Hone; lia].
  constructor; [|exact IH].
  intros Hin. apply Hv. apply in_map_iff in Hin. destruct Hin as (c & Ec & Hc).
  apply in_flat_map in Hc. destruct Hc as (v' & Hv' & Hc).
  apply in_map_iff in Hc. destruct Hc as (s0 & <- & _).
  unfold c_index in Ec; cbn [vessel] in Ec. rewrite <- Ec. apply in_map. exact Hv'.
Qed.

Lemma find_candidates_index_NoDup
  (spills : DataFrame SpillRow) (vessels : DataFrame VesselRow) (w : Z) :
  NoDup (map v_index (rows vessels)) ->
  forallb (in_one_spill_at_most (rows spills)) (rows vessels) = true ->
  NoDup (map c_index (rows (find_candidates (Some spills) (Some vessels) w))).
Proof.
  intros Hnd Hone. unfold find_candidates.
  destruct (empty (sjoin_within vessels spills)); [constructor|].
  unfold select; cbn [rows]. apply filter_keeps_labels_unique.
  apply sjoin_within_index; assumption.
Qed.

(** X3.  The frame of candidates keeps the index labels of the fixes: when
    the labels of [vessels_gdf] are unique and every fix lies within at
    most one spill, the labels of the candidate frame are unique too. *)
Theorem find_candidates_unique_index
  (spills : DataFrame SpillRow) (vessels : DataFrame VesselRow) (w : Z) :
  NoDup (map v_index (rows vessels)) ->
  forallb (in_one_spill_at_most (rows spills)) (rows vessels) = true ->
  NoDup (map c_index (rows (find_candidates (Some spills) (Some vessels) w))).
Proof.
  intros Hnd Hone. apply find_candidates_index_NoDup; assumption.
Qed.

(** Two slicks apart from each other, three fixes within the one and one
    within the other: four candidates, labelled as their fixes. *)
Lemma find_candidates_unique_index_witness :
  let fixes := [Sample.F1; Sample.F3; Sample.F4; Sample.F5] in
  (NoDup (map v_index fixes)
   /\ forallb (in_one_spill_at_most (rows Sample.spills31)) fixes = true)
  /\ map c_index (rows (Sample.candidates_of Sample.spills31 fixes 24))
     = [0; 2; 3; 5]%Z
  /\ NoDup (map c_index (rows (Sample.candidates_of Sample.spills31 fixes 24))).
Proof.
  intros fixes.
  assert (H1 : NoDup (map v_index fixes)).
  { simpl. repeat constructor; simpl; intuition discriminate. }
  assert (H2 : forallb (in_one_spill_at_most (rows Sample.spills31)) fixes = true)
    by (vm_compute; reflexivity).
  split; [split; assumption|].
  split; [vm_compute; reflexivity|].
  exact (@find_candidates_unique_index Sample.spills31 (Sample.vessels_of fixes) 24 H1 H2).
Defined.

(** ** The prime suspects *)

Lemma loc_rows_holds_nearest (l : list Candidate) (keys : list string) :
  forall out,
    loc_rows (map (fun k => idxmin (group col_spill_id k l)) keys) l = Ok out ->
    incl out l
    /\ forall k, In k keys -> exists r, In r out /\ nearest_of_spill l r k.
Proof.
  induction keys as [|k keys IH]; intros out; cbn [map loc_rows].
  - intros E. injection E as <-. split; [intros r [] | intros k []].
  - destruct (idxmin (group col_spill_id k l)) as [i|] eqn:Ei; [|discriminate].
    destruct (idxmin_spec _ Ei) as (r & tr & Hin & Hidx & Hr & Hall).
    unfold group in Hin. apply filter_In in Hin. destruct Hin as [Hin Hk].
    apply String.eqb_eq in Hk. cbn [cells col_spill_id] in Hk.
    destruct (filter (fun c => Z.eqb (c_index c) i) l) as [|f fs] eqn:Ef;
      [discriminate|].
    destruct (loc_rows (map (fun k0 => idxmin (group col_spill_id k0 l)) keys) l)
      as [more|] eqn:Em; [|discriminate].
    cbn [except_bind]. intros E. injection E as <-.
    change (f :: fs ++ more) with ((f :: fs) ++ more).
    destruct (IH more eq_refl) as [Hincl Hnear].
    assert (Hr_found : In r (f :: fs)).
    { rewrite <- Ef. apply filter_In. split; [exact Hin | apply Z.eqb_eq; exact Hidx]. }
    split.
    + intros x Hx. apply in_app_or in Hx. destruct Hx as [Hx | Hx]; [|auto].
      rewrite <- Ef in Hx. apply filter_In in Hx. tauto.
    + intros k' [<- | Hk'].
      * exists r. split; [apply in_or_app; left; exact Hr_found|].
        split; [exact Hin|]. split; [exact Hk|].
        exists tr. split; [exact Hr|].
        intros c tc Hc Hck Hct. apply (Hall c tc); [|exact Hct].
        unfold group. apply filter_In. split; [exact Hc|].
        apply String.eqb_eq. exact Hck.
      * destruct (Hnear k' Hk') as (r' & Hr' & Hn).
        exists r'. split; [apply in_or_app; right; exact Hr' | exact Hn].
Qed.

(** X4.  Whenever the prime-suspect step returns a table, every row of the
    table is a row of the candidate frame (with its time to detection), and
    for every spill that has a candidate the table holds a nearest candidate
    of that spill; this holds also when index labels repeat. *)
Theorem prime_suspects_hold_a_nearest_candidate (st out : DataFrame Candidate) :
  fst (tab3_prime_suspects st) = Ok out ->
  incl (rows out) (map set_time_to_detection (rows st))
  /\ forall c, In c (rows st) ->
       exists r, In r (rows out)
                 /\ nearest_of_spill (map set_time_to_detection (rows st)) r
                      (spill_id (spill c)).
Proof.
  rewrite tab3_prime_suspects_eq. unfold assign_time_to_detection.
  destruct (missing_label _ st); [discriminate|].
  cbn [fst]. unfold prime_suspects_df, prime_suspects_idx, groupby_agg.
  destruct (missing_label _ _); [discriminate|].
  cbn [except_bind rows]. rewrite map_map. cbn [snd]. unfold loc. cbn [rows].
  match goal with
  | |- context [loc_rows ?a ?b] => destruct (loc_rows a b) as [l|] eqn:El
  end; [|discriminate].
  cbn [except_bind]. intros E. injection E as <-. cbn [rows].
  destruct (loc_rows_holds_nearest _ _ El) as [Hincl Hnear].
  split; [exact Hincl|].
  intros c Hc. apply Hnear. apply group_keys_In. split; [|reflexivity].
  apply in_map_iff. exists (set_time_to_detection c). split; [reflexivity|].
  apply in_map. exact Hc.
Qed.

Lemma prime_suspects_hold_a_nearest_candidate_witness :
  let st := Sample.candidates_of Sample.spills12 [Sample.P0; Sample.P1] 24 in
  exists out,
    fst (tab3_prime_suspects st) = Ok out
    /\ incl (rows out) (map set_time_to_detection (rows st))
    /\ forall c, In c (rows st) ->
         exists r, In r (rows out)
                   /\ nearest_of_spill (map set_time_to_detection (rows st)) r
                        (spill_id (spill c)).
Proof.
  intros st.
  destruct (fst (tab3_prime_suspects st)) as [out|k] eqn:E;
    [|vm_compute in E; discriminate E].
  exists out. split; [reflexivity|].
  exact (@prime_suspects_hold_a_nearest_candidate st out E).
Defined.

(** X5.  When the index labels of the fixes are unique and no fix lies
    within two spills, the table of prime suspects has exactly one row per
    spill that has a candidate: every row is a nearest candidate of its own
    spill, no spill has two rows, the spills of the table are those of the
    candidates, and the rows stand in ascending order of [spill_id]. *)
Theorem prime_suspects_one_nearest_row_per_spill
  (spills : DataFrame SpillRow) (vessels : DataFrame VesselRow) (w : Z)
  (out : DataFrame Candidate) :
  NoDup (map v_index (rows vessels)) ->
  forallb (in_one_spill_at_most (rows spills)) (rows vessels) = true ->
  fst (tab3_prime_suspects (find_candidates (Some spills) (Some vessels) w)) = Ok out ->
  let candidates_df := find_candidates (Some spills) (Some vessels) w in
  let assigned := map set_time_to_detection (rows candidates_df) in
  let ids := map (fun r => spill_id (spill r)) (rows out) in
  Forall (fun r => nearest_of_spill assigned r (spill_id (spill r))) (rows out)
  /\ NoDup ids
  /\ (forall k, In k ids <-> exists c, In c (rows candidates_df) /\ spill_id (spill c) = k)
  /\ StronglySorted (fun a b => String.leb a b = true) ids.
Proof.
  intros Hnd Hone E candidates_df assigned ids.
  assert (F : Forall2 (nearest_of_spill assigned) (rows out)
                (group_keys col_spill_id assigned)).
  { apply tab3_prime_suspects_unique_index; [|exact E].
    apply find_candidates_index_NoDup; assumption. }
  assert (Eids : ids = group_keys col_spill_id assigned).
  { unfold ids. clear -F. induction F as [|r k l ks Hr _ IH]; [reflexivity|].
    cbn [map]. rewrite IH. destruct Hr as (_ & -> & _). reflexivity. }
  split; [|rewrite Eids; split; [|split]].
  - clear -F. induction F as [|r k l ks Hr _ IH]; constructor; [|exact IH].
    destruct Hr as (Hin & Ek & Hrest). subst k.
    split; [exact Hin|]. split; [reflexivity | exact Hrest].
  - apply group_keys_NoDup.
  - intros k. rewrite (group_keys_In col_spill_id). unfold assigned.
    rewrite map_map. cbn [cells col_spill_id]. split.
    + intros [Hk _]. apply in_map_iff in Hk. destruct Hk as (c & Ec & Hc).
      exists c. split; [exact Hc | exact Ec].
    + intros (c & Hc & Ec). split; [|reflexivity].
      apply in_map_iff. exists c. split; [exact Ec | exact Hc].
  - unfold group_keys. apply (insertion_sort_sorted String_leb_total_preorder).
Qed.

(** Fixes within two slicks that lie apart: vessel 456, two hours before
    the detection, is the prime suspect of the first slick, and the only
    fix within the other slick is that of the second; the table lists the
    earlier [spill_id] first, though the file has it last. *)
Lemma prime_suspects_one_nearest_row_per_spill_witness :
  let vessels := Sample.vessels_of [Sample.F1; Sample.F3; Sample.F4; Sample.F5] in
  let candidates_df := find_candidates (Some Sample.spills31) (Some vessels) 24 in
  exists out,
    (NoDup (map v_index (rows vessels))
     /\ forallb (in_one_spill_at_most (rows Sample.spills31)) (rows vessels) = true
     /\ fst (tab3_prime_suspects candidates_df) = Ok out)
    /\ map (fun r => (spill_id (spill r), c_index r)) (rows out)
       = [("2024-01-10_12:00:00"%string, 3%Z); ("2024-01-10_14:00:00"%string, 2%Z)]
    /\ (let assigned := map set_time_to_detection (rows candidates_df) in
        let ids := map (fun r => spill_id (spill r)) (rows out) in
        Forall (fun r => nearest_of_spill assigned r (spill_id (spill r))) (rows out)
        /\ NoDup ids
        /\ (forall k, In k ids <->
                      exists c, In c (rows candidates_df) /\ spill_id (spill c) = k)
        /\ StronglySorted (fun a b => String.leb a b = true) ids).
Proof.
  intros vessels candidates_df.
  assert (H1 : NoDup (map v_index (rows vessels))).
  { simpl. repeat constructor; simpl; intuition discriminate. }
  assert (H2 : forallb (in_one_spill_at_most (rows Sample.spills31)) (rows vessels) = true)
    by (vm_compute; reflexivity).
  destruct (fst (tab3_prime_suspects candidates_df)) as [out|k] eqn:E;
    [|vm_compute in E; discriminate E].
  exists out. split; [repeat split; assumption|].
  split; [vm_compute in E; injection E as <-; vm_compute; reflexivity|].
  exact (@prime_suspects_one_nearest_row_per_spill Sample.spills31 vessels 24 out H1 H2 E).
Defined.

(** ** When the analytics raise *)

Lemma has_column_sjoin_left (left : DataFrame VesselRow) (right : DataFrame SpillRow)
  (l : string) :
  has_column l left = true -> has_column l (sjoin_within left right) = true.
Proof.
  unfold has_column, sjoin_within; cbn [columns]. intros H.
  rewrite existsb_app, H. reflexivity.
Qed.

Lemma has_column_sjoin_right (left : DataFrame VesselRow) (right : DataFrame SpillRow)
  (l : string) :
  has_column l right = true -> String.eqb l "geometry" = false ->
  has_column l (sjoin_within left right) = true.
Proof.
  unfold has_column, sjoin_within; cbn [columns]. intros H Hg.
  rewrite !existsb_app. apply orb_true_iff. right. apply orb_true_iff. right.
  apply existsb_exists in H. destruct H as (x & Hx & E).
  apply String.eqb_eq in E. subst x.
  apply existsb_exists. exists l. split; [|apply String.eqb_refl].
  apply filter_In. split; [exact Hx | rewrite Hg; reflexivity].
Qed.

Lemma idxmin_some (l : list Candidate) :
  l <> [] -> (forall c, In c l -> time_to_detection c <> None) ->
  exists i, idxmin l = Some i.
Proof.
  destruct l as [|c l]; [congruence|]. intros _ Hall. cbn [idxmin].
  destruct (time_to_detection c) eqn:E; [eexists; reflexivity|].
  exfalso. apply (Hall c); simpl; auto.
Qed.

Lemma loc_rows_total (l : list Candidate) (keys : list string) :
  (forall c, In c l -> time_to_detection c <> None) ->
  (forall k, In k keys -> exists c, In c l /\ spill_id (spill c) = k) ->
  exists out, loc_rows (map (fun k => idxmin (group col_spill_id k l)) keys) l = Ok out.
Proof.
  intros Hall. induction keys as [|k keys IH]; intros Hkeys; cbn [map loc_rows].
  - eexists; reflexivity.
  - destruct (Hkeys k) as (c & Hc & Ek); [simpl; auto|].
    assert (Hg : In c (group col_spill_id k l)).
    { unfold group. apply filter_In. split; [exact Hc|].
      apply String.eqb_eq. exact Ek. }
    destruct (idxmin_some (l := group col_spill_id k l)) as [i Ei].
    + intros E. rewrite E in Hg. exact Hg.
    + intros x Hx. apply Hall. unfold group in Hx. apply filter_In in Hx. tauto.
    + rewrite Ei.
      destruct (idxmin_spec _ Ei) as (r & tr & Hin & Hidx & _).
      unfold group in Hin. apply filter_In in Hin. destruct Hin as [Hin _].
      destruct (filter (fun c0 => Z.eqb (c_index c0) i) l) as [|f fs] eqn:Ef.
      * exfalso.
        assert (Hr : In r (filter (fun c0 => Z.eqb (c_index c0) i) l))
          by (apply filter_In; split; [exact Hin | apply Z.eqb_eq; exact Hidx]).
        rewrite Ef in Hr. exact Hr.
      * destruct IH as [more Em]; [intros k' Hk'; apply Hkeys; simpl; auto|].
        rewrite Em. eexists; reflexivity.
Qed.

Lemma assign_time_to_detection_ok (st : DataFrame Candidate) :
  has_column "detection_date" st = true -> has_column "timestamp" st = true ->
  exists st',
    assign_time_to_detection st = Ok st'
    /\ rows st' = map set_time_to_detection (rows st)
    /\ has_column "time_to_detection" st' = true
    /\ forall l, has_column l st = true -> has_column l st' = true.
Proof.
  intros Hd Ht. unfold assign_time_to_detection, missing_label. cbn [find].
  rewrite Hd, Ht. cbn [negb]. eexists. split; [reflexivity|].
  split; [reflexivity|]. unfold has_column; cbn [columns].
  destruct (existsb (String.eqb "time_to_detection") (columns st)) eqn:E.
  - split; [exact E | auto].
  - split.
    + rewrite existsb_app. cbn. apply orb_true_r.
    + intros l Hl. rewrite existsb_app, Hl. reflexivity.
Qed.

Lemma prime_suspects_df_total (st : DataFrame Candidate) :
  has_column "spill_id" st = true -> has_column "time_to_detection" st = true ->
  (forall c, In c (rows st) -> time_to_detection c <> None) ->
  exists out, prime_suspects_df st = Ok out.
Proof.
  intros Hs Ht Hall. unfold prime_suspects_df, prime_suspects_idx.
  rewrite groupby_agg_ok by (simpl; rewrite Hs, Ht; reflexivity).
  cbn [except_bind rows]. rewrite map_map. cbn [snd]. unfold loc.
  destruct (@loc_rows_total (rows st) (group_keys col_spill_id (rows st)) Hall)
    as [out Eo].
  - intros k Hk. apply group_keys_In in Hk. destruct Hk as [Hk _].
    apply in_map_iff in Hk. destruct Hk as (c & Ec & Hc). exists c. auto.
  - rewrite Eo. eexists; reflexivity.
Qed.

Lemma analytics_total (sort : Sorter) (st : DataFrame Candidate) :
  forallb (fun l => has_column l st)
    ["mmsi"; "spill_id"; "area_sq_km"; "detection_date"; "timestamp"]%string = true ->
  exists r, fst (analytics sort st) = Ok r.
Proof.
  intros Hc. cbn [forallb] in Hc.
  repeat (apply andb_true_iff in Hc; destruct Hc as [?H Hc]).
  assert (Hm : has_column "mmsi" st = true) by assumption.
  assert (Hs : has_column "spill_id" st = true) by assumption.
  assert (Ha : has_column "area_sq_km" st = true) by assumption.
  assert (Hd : has_column "detection_date" st = true) by assumption.
  assert (Ht : has_column "timestamp" st = true) by assumption.
  pose (ui := mkDataFrame (columns st)
                (drop_duplicates_rows (cells (col_pair col_mmsi col_spill_id)) []
                   (rows st))).
  assert (Eui : unique_incidents st = Ok ui).
  { unfold unique_incidents. apply drop_duplicates_ok; [discriminate|].
    intros _. simpl. rewrite Hm, Hs. reflexivity. }
  assert (Hcol : forall l, has_column l ui = has_column l st) by reflexivity.
  assert (Hm' : has_column "mmsi" ui = true) by (rewrite Hcol; exact Hm).
  assert (Ha' : has_column "area_sq_km" ui = true) by (rewrite Hcol; exact Ha).
  assert (Hs' : has_column "spill_id" ui = true) by (rewrite Hcol; exact Hs).
  destruct (incident_counts_ok ui Hm') as [g1 E1].
  destruct (area_sums_ok ui Hm' Ha') as [g2 E2].
  destruct (distinct_vessel_counts_ok st Hs Hm) as [g3 E3].
  destruct (with_names_keeps ui
              (sort_values_desc sort Nat.leb (@r_value (option Z) nat) (rank_rows g1)) Hm')
    as (c1 & W1 & _).
  destruct (with_names_keeps ui
              (sort_values_desc sort Qle_bool (@r_value (option Z) Q) (rank_rows g2)) Hm')
    as (c2 & W2 & _).
  assert (T1 : tab1 sort st = (Ok (mkTab1 ui c1 c2), st)).
  { rewrite tab1_eq, Eui. cbn [except_bind].
    unfold ship_incident_counts, ship_area_sum, incident_counts_sorted, area_sum_sorted.
    rewrite E1, E2. cbn [except_bind]. rewrite W1, W2. reflexivity. }
  destruct (assign_time_to_detection_ok st Hd Ht) as (st' & Eas & Hrows & Httd & Hkeep).
  destruct (@prime_suspects_df_total st' (Hkeep _ Hs) Httd) as [ps Eps].
  { rewrite Hrows. intros c Hc'. apply in_map_iff in Hc'.
    destruct Hc' as (c0 & <- & _). discriminate. }
  assert (Evt : exists vt, vessel_type_analysis sort ui = Ok vt).
  { unfold vessel_type_analysis. destruct (has_column "VesselType" ui) eqn:Hv.
    - rewrite groupby_agg_ok by (simpl; rewrite Hv, Hs', Ha'; reflexivity).
      eexists; reflexivity.
    - eexists; reflexivity. }
  destruct Evt as [vt Evt].
  eexists.
  rewrite analytics_eq, T1. cbn [fst].
  unfold spill_candidate_counts. rewrite E3. cbn [except_bind].
  rewrite tab3_prime_suspects_eq, Eas, Eps. cbn [t1_unique_incidents].
  rewrite Evt. reflexivity.
Qed.

(** X6.  On frames that have the columns the loaders create, the analytics
    block runs through (for any sorting routine) exactly when some fix lies
    within some spill; it then returns all its tables, also when the time
    window leaves no candidate.  When no fix lies within any spill it stops
    with [KeyError: 'mmsi']. *)
Theorem analytics_succeed_iff_some_fix_within_a_spill
  (sort : Sorter) (spills : DataFrame SpillRow) (vessels : DataFrame VesselRow) (w : Z) :
  forallb (fun l => has_column l vessels) ["mmsi"; "timestamp"]%string = true ->
  forallb (fun l => has_column l spills)
    ["spill_id"; "area_sq_km"; "detection_date"]%string = true ->
  let candidates_df := find_candidates (Some spills) (Some vessels) w in
  ((exists v s, In v (rows vessels) /\ In s (rows spills)
                /\ Geom.locate (v_geometry v) (geometry s) = Geom.INTERIOR) ->
   exists r, fst (analytics sort candidates_df) = Ok r)
  /\ ((forall v s, In v (rows vessels) -> In s (rows spills) ->
         Geom.locate (v_geometry v) (geometry s) <> Geom.INTERIOR) ->
      fst (analytics sort candidates_df) = KeyError "mmsi").
Proof.
  intros Hv Hs candidates_df. cbn [forallb] in Hv, Hs.
  repeat (apply andb_true_iff in Hv; destruct Hv as [?Hv Hv]).
  repeat (apply andb_true_iff in Hs; destruct Hs as [?Hs Hs]).
  split.
  - intros (v & s & Hin_v & Hin_s & Hloc).
    assert (Hrow : In (mkCandidate v s None) (rows (sjoin_within vessels spills))).
    { apply sjoin_within_In. cbn [vessel spill time_to_detection].
      repeat split; try assumption. apply within_interior. exact Hloc. }
    assert (Ec : candidates_df
                 = select (in_window (timedelta_hours w)) (sjoin_within vessels spills)).
    { unfold candidates_df, find_candidates, empty.
      destruct (rows (sjoin_within vessels spills)) as [|c l] eqn:E; [destruct Hrow|].
      destruct (columns (sjoin_within vessels spills)) eqn:Ecol; [|reflexivity].
      exfalso. exact (sjoin_within_columns vessels spills Ecol). }
    apply analytics_total. rewrite Ec. unfold select.
    assert (Hcol : forall l, has_column l
                     (mkDataFrame (columns (sjoin_within vessels spills))
                        (filter (in_window (timedelta_hours w))
                           (rows (sjoin_within vessels spills))))
                   = has_column l (sjoin_within vessels spills)) by reflexivity.
    cbn [forallb]. rewrite !Hcol.
    rewrite (has_column_sjoin_left vessels spills "mmsi") by assumption.
    rewrite (has_column_sjoin_left vessels spills "timestamp") by assumption.
    rewrite (has_column_sjoin_right vessels spills "spill_id") by (assumption || reflexivity).
    rewrite (has_column_sjoin_right vessels spills "area_sq_km")
      by (assumption || reflexivity).
    rewrite (has_column_sjoin_right vessels spills "detection_date")
      by (assumption || reflexivity).
    reflexivity.
  - intros Hnone.
    assert (Ec : candidates_df = GeoDataFrame_new).
    { apply find_candidates_of_empty_join.
      destruct (rows (sjoin_within vessels spills)) as [|c l] eqn:E; [reflexivity|].
      assert (Hc : In c (rows (sjoin_within vessels spills))) by (rewrite E; simpl; auto).
      apply sjoin_within_In in Hc. destruct Hc as (Hcv & Hcs & _ & Hw).
      apply within_interior in Hw. exfalso. exact (Hnone _ _ Hcv Hcs Hw). }
    rewrite Ec. reflexivity.
Qed.

Lemma analytics_succeed_iff_some_fix_within_a_spill_witness :
  let vessels := Sample.vessels_of [Sample.F2; Sample.F3] in
  let candidates_df := find_candidates (Some Sample.spills1) (Some vessels) 24 in
  (forallb (fun l => has_column l vessels) ["mmsi"; "timestamp"]%string = true
   /\ forallb (fun l => has_column l Sample.spills1)
        ["spill_id"; "area_sq_km"; "detection_date"]%string = true)
  /\ ((exists v s, In v (rows vessels) /\ In s (rows Sample.spills1)
                   /\ Geom.locate (v_geometry v) (geometry s) = Geom.INTERIOR) ->
      exists r, fst (analytics stable_sorter candidates_df) = Ok r)
  /\ ((forall v s, In v (rows vessels) -> In s (rows Sample.spills1) ->
         Geom.locate (v_geometry v) (geometry s) <> Geom.INTERIOR) ->
      fst (analytics stable_sorter candidates_df) = KeyError "mmsi").
Proof.
  intros vessels candidates_df.
  assert (H1 : forallb (fun l => has_column l vessels) ["mmsi"; "timestamp"]%string = true)
    by reflexivity.
  assert (H2 : forallb (fun l => has_column l Sample.spills1)
                 ["spill_id"; "area_sq_km"; "detection_date"]%string = true)
    by reflexivity.
  split; [split; assumption|].
  exact (@analytics_succeed_iff_some_fix_within_a_spill stable_sorter Sample.spills1
           vessels 24 H1 H2).
Defined.

(** ** Counting on the de-duplicated frame and on the full frame *)

Section DedupGroups.
Context {R A B : Type} `{KeyLaws A} `{KeyLaws B}.
Variable ka : R -> A.
Variable kb : R -> B.

(** De-duplicating on the pair keeps the first occurrence of every value of
    its first column, also among the values a test [p] selects. *)
Lemma dedup_keeps_first_keys (p : A -> bool) (l : list R) :
  forall (seen : list (A * B)) (seen_a : list A),
    (forall q, In q seen -> p (fst q) = true -> In (fst q) seen_a) ->
    drop_duplicates_rows (fun a => a) seen_a
      (filter p (map ka (drop_duplicates_rows (fun r => (ka r, kb r)) seen l)))
    = drop_duplicates_rows (fun a => a) seen_a (filter p (map ka l)).
Proof.
  induction l as [|x l IH]; intros seen seen_a Hinv; [reflexivity|].
  cbn [drop_duplicates_rows map filter].
  destruct (existsb (key_eqb (ka x, kb x)) seen) eqn:Ep.
  - apply seen_In in Ep. destruct (p (ka x)) eqn:Epx.
    + apply Hinv in Ep; [|exact Epx]. cbn [fst] in Ep.
      apply seen_In in Ep. cbn [drop_duplicates_rows]. rewrite Ep.
      apply IH. exact Hinv.
    + apply IH. exact Hinv.
  - cbn [map filter]. destruct (p (ka x)) eqn:Epx.
    + cbn [drop_duplicates_rows].
      destruct (existsb (key_eqb (ka x)) seen_a) eqn:Ea.
      * apply IH. intros q [<- | Hq] Hpq; [apply seen_In; exact Ea | apply Hinv; assumption].
      * f_equal. apply IH.
        intros q [<- | Hq] Hpq; [simpl; auto | simpl; right; apply Hinv; assumption].
    + apply IH. intros q [<- | Hq] Hpq; [cbn [fst] in Hpq; congruence | apply Hinv; assumption].
Qed.

(** Among the de-duplicated rows, those of one value of the first column
    carry its distinct values of the second column. *)
Lemma dedup_group_values (a : A) (l : list R) :
  forall seen : list (A * B),
    map kb (filter (fun r => key_eqb (ka r) a)
              (drop_duplicates_rows (fun r => (ka r, kb r)) seen l))
    = drop_duplicates_rows (fun b => b)
        (map snd (filter (fun p => key_eqb (fst p) a) seen))
        (map kb (filter (fun r => key_eqb (ka r) a) l)).
Proof.
  assert (Hseen : forall (b : B) (seen : list (A * B)),
             existsb (key_eqb (a, b)) seen
             = existsb (key_eqb b) (map snd (filter (fun p => key_eqb (fst p) a) seen))).
  { intros b seen. induction seen as [|[a' b'] seen IH]; [reflexivity|].
    cbn [existsb filter fst]. rewrite IH.
    change (key_eqb (a, b) (a', b')) with (key_eqb a a' && key_eqb b b').
    rewrite (key_eqb_sym a a').
    destruct (key_eqb a' a); reflexivity. }
  induction l as [|x l IH]; intros seen; [reflexivity|].
  cbn [drop_duplicates_rows filter].
  destruct (key_eqb (ka x) a) eqn:Ea.
  - apply key_eqb_eq in Ea. subst a. cbn [map drop_duplicates_rows].
    rewrite <- Hseen.
    destruct (existsb (key_eqb (ka x, kb x)) seen); [apply IH|].
    cbn [filter]. rewrite key_eqb_refl. cbn [map].
    f_equal. rewrite IH. cbn [filter fst]. rewrite key_eqb_refl. reflexivity.
  - destruct (existsb (key_eqb (ka x, kb x)) seen); [apply IH|].
    cbn [filter]. rewrite Ea. rewrite IH. cbn [filter fst]. rewrite Ea. reflexivity.
Qed.
End DedupGroups.

Section DedupFilter.
Context {K : Type} `{KeyLaws K}.

(** A key that does not occur in the list may be left out of the keys seen
    so far. *)
Lemma drop_duplicates_rows_unseen (x : K) (l : list K) :
  forall seen1 seen2 : list K,
    ~ In x l ->
    drop_duplicates_rows (fun k => k) (seen1 ++ x :: seen2) l
    = drop_duplicates_rows (fun k => k) (seen1 ++ seen2) l.
Proof.
  induction l as [|y l IH]; intros seen1 seen2 Hx; [reflexivity|].
  cbn [drop_duplicates_rows].
  assert (Ey : key_eqb y x = false).
  { apply key_eqb_neq. intros Eq. apply Hx. rewrite Eq. simpl; auto. }
  assert (Hl : ~ In x l) by (intros Hin; apply Hx; simpl; auto).
  rewrite !existsb_app. cbn [existsb]. rewrite Ey. cbn [orb].
  destruct (existsb (key_eqb y) seen1 || existsb (key_eqb y) seen2).
  - apply IH. exact Hl.
  - f_equal. apply (IH (y :: seen1) seen2 Hl).
Qed.

(** Selecting values and dropping duplicates can be done in either
    order. *)
Lemma filter_drop_duplicates_rows (p : K -> bool) (l : list K) :
  forall seen : list K,
    filter p (drop_duplicates_rows (fun k => k) seen l)
    = drop_duplicates_rows (fun k => k) seen (filter p l).
Proof.
  induction l as [|y l IH]; intros seen; [reflexivity|].
  cbn [drop_duplicates_rows filter].
  destruct (existsb (key_eqb y) seen) eqn:Es.
  - rewrite IH. destruct (p y); [|reflexivity].
    cbn [drop_duplicates_rows]. rewrite Es. reflexivity.
  - cbn [filter]. destruct (p y) eqn:Ep.
    + cbn [drop_duplicates_rows]. rewrite Es, IH. reflexivity.
    + rewrite IH. apply (drop_duplicates_rows_unseen y (filter p l) [] seen).
      intros Hin. apply filter_In in Hin. destruct Hin as [_ Hin]. congruence.
Qed.
End DedupFilter.

Lemma filter_map_length {A B : Type} (f : A -> B) (p : B -> bool) (l : list A) :
  List.length (filter p (map f l)) = List.length (filter (fun a => p (f a)) l).
Proof.
  induction l as [|a l IH]; simpl; [reflexivity|].
  destruct (p (f a)); simpl; rewrite IH; reflexivity.
Qed.

Lemma filter_filter_implied {A : Type} (p q : A -> bool) (l : list A) :
  (forall x, p x = true -> q x = true) ->
  filter p (filter q l) = filter p l.
Proof.
  intros Hpq. induction l as [|x l IH]; simpl; [reflexivity|].
  destruct (q x) eqn:Eq; simpl.
  - destruct (p x); rewrite IH; reflexivity.
  - destruct (p x) eqn:Ep; [|exact IH].
    apply Hpq in Ep. congruence.
Qed.

Lemma filter_all {A : Type} (p : A -> bool) (l : list A) :
  (forall x, In x l -> p x = true) -> filter p l = l.
Proof.
  induction l as [|x l IH]; simpl; intros Hp; [reflexivity|].
  rewrite Hp by auto. rewrite IH by auto. reflexivity.
Qed.

Lemma unique_incidents_rows (cdf ui : DataFrame Candidate) :
  unique_incidents cdf = Ok ui ->
  has_column "spill_id" cdf = true \/ has_column "mmsi" cdf = true ->
  columns ui = columns cdf
  /\ rows ui = drop_duplicates_rows (cells (col_pair col_mmsi col_spill_id)) [] (rows cdf).
Proof.
  unfold unique_incidents, drop_duplicates. intros E Hc.
  destruct (empty cdf) eqn:Ee.
  - injection E as <-. split; [reflexivity|].
    rewrite (empty_rows cdf); [reflexivity | | exact Ee].
    intros Hn. unfold has_column in Hc. rewrite Hn in Hc. simpl in Hc.
    destruct Hc; discriminate.
  - destruct (missing_label _ cdf); [discriminate|].
    injection E as <-. split; reflexivity.
Qed.

(** The de-duplicated incidents have the spills and the vessels of the
    full frame, in the order of their group keys. *)
Lemma unique_incidents_group_keys (cdf ui : DataFrame Candidate) :
  rows ui = drop_duplicates_rows (cells (col_pair col_mmsi col_spill_id)) [] (rows cdf) ->
  group_keys col_spill_id (rows ui) = group_keys col_spill_id (rows cdf)
  /\ group_keys col_mmsi (rows ui) = group_keys col_mmsi (rows cdf).
Proof.
  intros Hrows. split.
  - unfold group_keys. f_equal.
    assert (Hswap : rows ui
                    = drop_duplicates_rows
                        (fun c => (spill_id (spill c), mmsi (vessel c))) [] (rows cdf)).
    { rewrite Hrows. symmetry.
      apply (drop_duplicates_rows_swap
               (fun c => mmsi (vessel c)) (fun c => spill_id (spill c)) (rows cdf) []). }
    rewrite Hswap. cbn [cells col_spill_id].
    apply (dedup_keeps_first_keys
             (fun c => spill_id (spill c)) (fun c => mmsi (vessel c))
             (fun k : string => negb (key_isna k)) (rows cdf) [] []).
    intros q [].
  - unfold group_keys. f_equal. rewrite Hrows.
    cbn [cells col_mmsi col_pair col_spill_id].
    apply (dedup_keeps_first_keys
             (fun c => mmsi (vessel c)) (fun c => spill_id (spill c))
             (fun k : option Z => negb (key_isna k)) (rows cdf) [] []).
    intros q [].
Qed.

(** X7.  The tally of candidate vessels per spill, computed on the full
    candidate frame with [nunique], is the table that counting, per spill,
    the de-duplicated incidents with a vessel number gives
    ([groupby('spill_id')['mmsi'].count()] on [unique_incidents]): same
    spills in the same order, same counts.  When no [mmsi] cell of the
    candidates is missing, that is the number of de-duplicated incidents of
    the spill; an incident without vessel number is left out of the
    tally. *)
Theorem vessels_per_spill_on_full_or_unique_frame (cdf ui : DataFrame Candidate) :
  has_column "mmsi" cdf = true ->
  unique_incidents cdf = Ok ui ->
  distinct_vessel_counts cdf
  = groupby_agg col_spill_id col_mmsi (count col_mmsi) "candidate_count" ui
  /\ ((forall c, In c (rows cdf) -> mmsi (vessel c) <> None) ->
      distinct_vessel_counts cdf
      = groupby_agg col_spill_id no_value (@List.length Candidate) "candidate_count" ui).
Proof.
  intros Hm Eui.
  destruct (unique_incidents_rows cdf Eui (or_intror Hm)) as [Hcols Hrows].
  destruct (unique_incidents_group_keys cdf ui Hrows) as [Hkeys _].
  assert (Hcol : forall l, has_column l ui = has_column l cdf)
    by (intros l; unfold has_column; rewrite Hcols; reflexivity).
  assert (Hswap : rows ui
                  = drop_duplicates_rows
                      (fun c => (spill_id (spill c), mmsi (vessel c))) [] (rows cdf)).
  { rewrite Hrows. symmetry.
    apply (drop_duplicates_rows_swap
             (fun c => mmsi (vessel c)) (fun c => spill_id (spill c)) (rows cdf) []). }
  assert (Hcount : forall k,
             nunique col_mmsi (group col_spill_id k (rows cdf))
             = count col_mmsi (group col_spill_id k (rows ui))).
  { intros k. unfold nunique, count, group.
    rewrite <- (filter_map_length (cells col_mmsi) (fun m => negb (key_isna m))).
    rewrite Hswap. cbn [cells col_spill_id col_mmsi].
    rewrite (dedup_group_values
               (fun c => spill_id (spill c)) (fun c => mmsi (vessel c)) k (rows cdf) []).
    cbn [filter map]. rewrite filter_drop_duplicates_rows. reflexivity. }
  assert (E1 : distinct_vessel_counts cdf
               = groupby_agg col_spill_id col_mmsi (count col_mmsi) "candidate_count" ui).
  { unfold distinct_vessel_counts, groupby_agg.
    unfold missing_label; cbn [labels col_spill_id col_mmsi app find].
    rewrite !Hcol, Hm.
    destruct (has_column "spill_id" cdf); [|reflexivity].
    cbn [negb]. f_equal. f_equal. rewrite Hkeys.
    apply map_ext. intros k. f_equal. apply Hcount. }
  split; [exact E1|].
  intros Hall. rewrite E1. unfold groupby_agg.
  unfold missing_label; cbn [labels col_spill_id col_mmsi no_value app find].
  rewrite !Hcol, Hm.
  destruct (has_column "spill_id" cdf); [|reflexivity].
  cbn [negb]. f_equal. f_equal. apply map_ext. intros k. f_equal.
  unfold count. f_equal. apply filter_all. intros c Hc.
  unfold group in Hc. apply filter_In in Hc. destruct Hc as [Hc _].
  rewrite Hrows in Hc. apply drop_duplicates_rows_In in Hc. destruct Hc as [Hc _].
  specialize (Hall c Hc). cbn [cells col_mmsi].
  destruct (mmsi (vessel c)); [reflexivity | congruence].
Qed.

Lemma vessels_per_spill_on_full_or_unique_frame_witness :
  let cdf := Sample.candidates_of Sample.spills12
               [Sample.F1; Sample.F4; Sample.F5; Sample.F_anon] 24 in
  let ui := Sample.incidents_of cdf in
  (has_column "mmsi" cdf = true /\ unique_incidents cdf = Ok ui)
  /\ List.length (rows ui) = 6%nat
  /\ distinct_vessel_counts cdf
     = Ok (mkDataFrame ["spill_id"; "candidate_count"]%string
             [("2024-01-10_12:00:00"%string, 2%nat);
              ("2024-01-10_22:00:00"%string, 2%nat)])
  /\ distinct_vessel_counts cdf
     = groupby_agg col_spill_id col_mmsi (count col_mmsi) "candidate_count" ui
  /\ ((forall c, In c (rows cdf) -> mmsi (vessel c) <> None) ->
      distinct_vessel_counts cdf
      = groupby_agg col_spill_id no_value (@List.length Candidate) "candidate_count" ui).
Proof.
  intros cdf ui.
  assert (H1 : has_column "mmsi" cdf = true) by reflexivity.
  assert (H2 : unique_incidents cdf = Ok ui) by (vm_compute; reflexivity).
  split; [split; assumption|].
  split; [vm_compute; reflexivity|].
  split; [vm_compute; reflexivity|].
  exact (@vessels_per_spill_on_full_or_unique_frame cdf ui H1 H2).
Defined.

(** X8.  The incident count of a vessel, the number of its rows among the
    de-duplicated incidents, is the number of distinct spills among all its
    candidate rows: the ranking by incident count is the table that
    [nunique] of [spill_id] per vessel gives on the full candidate frame. *)
Theorem incident_count_is_number_of_spills (cdf ui : DataFrame Candidate) :
  has_column "spill_id" cdf = true ->
  unique_incidents cdf = Ok ui ->
  incident_counts ui
  = groupby_agg col_mmsi col_spill_id (nunique col_spill_id) "incident_count" cdf.
Proof.
  intros Hs Eui.
  destruct (unique_incidents_rows cdf Eui (or_introl Hs)) as [Hcols Hrows].
  destruct (unique_incidents_group_keys cdf ui Hrows) as [_ Hkeys].
  unfold incident_counts, groupby_agg.
  assert (Hcol : forall l, has_column l ui = has_column l cdf)
    by (intros l; unfold has_column; rewrite Hcols; reflexivity).
  unfold missing_label; cbn [labels col_spill_id col_mmsi no_value app find].
  rewrite Hcol, Hs.
  destruct (has_column "mmsi" cdf); [|reflexivity].
  cbn [negb]. f_equal. f_equal.
  rewrite Hkeys. apply map_ext. intros k. f_equal.
  unfold nunique, group.
  rewrite (filter_all (fun k0 : string => negb (key_isna k0))) by (intros x _; reflexivity).
  rewrite Hrows. rewrite <- (length_map (fun c => spill_id (spill c))).
  cbn [cells col_spill_id col_mmsi col_pair].
  rewrite (dedup_group_values
             (fun c => mmsi (vessel c)) (fun c => spill_id (spill c)) k (rows cdf) []).
  reflexivity.
Qed.

Lemma incident_count_is_number_of_spills_witness :
  let cdf := Sample.candidates_of Sample.spills12 [Sample.F1; Sample.F4; Sample.F5] 24 in
  let ui := Sample.incidents_of cdf in
  (has_column "spill_id" cdf = true /\ unique_incidents cdf = Ok ui)
  /\ incident_counts ui
     = groupby_agg col_mmsi col_spill_id (nunique col_spill_id) "incident_count" cdf.
Proof.
  intros cdf ui.
  assert (H1 : has_column "spill_id" cdf = true) by reflexivity.
  assert (H2 : unique_incidents cdf = Ok ui) by (vm_compute; reflexivity).
  split; [split; assumption|].
  exact (@incident_count_is_number_of_spills cdf ui H1 H2).
Defined.

(** ** The ranking by incident count *)

Lemma list_sum_permutation (l l' : list nat) :
  Permutation l l' -> list_sum l = list_sum l'.
Proof.
  induction 1 as [|x l l' _ IH|x y l|l l' l'' _ IH1 _ IH2]; simpl; lia.
Qed.

Lemma list_sum_map_add {A : Type} (f g : A -> nat) (l : list A) :
  list_sum (map (fun a => f a + g a)%nat l)
  = (list_sum (map f l) + list_sum (map g l))%nat.
Proof.
  induction l as [|a l IH]; simpl; lia.
Qed.

Section GroupSizes.
Context {R K : Type} `{KeyLaws K}.
Variable key : R -> K.

Lemma one_group_per_row (keys : list K) (k0 : K) :
  NoDup keys -> In k0 keys ->
  list_sum (map (fun k => if key_eqb k0 k then 1 else 0)%nat keys) = 1%nat.
Proof.
  induction keys as [|k keys IH]; simpl; [tauto|].
  intros Hnd Hin. inversion Hnd as [|? ? Hk Hnd']; subst.
  destruct (key_eqb k0 k) eqn:E.
  - apply key_eqb_eq in E. subst k.
    assert (Hz : list_sum (map (fun k => if key_eqb k0 k then 1 else 0)%nat keys) = 0%nat).
    { clear IH Hin Hnd Hnd'. induction keys as [|k keys IHk]; simpl; [reflexivity|].
      simpl in Hk.
      assert (E : key_eqb k0 k = false) by (apply key_eqb_neq; intuition congruence).
      rewrite E. apply IHk. tauto. }
    rewrite Hz. reflexivity.
  - apply key_eqb_neq in E. simpl. apply IH; [assumption|]. intuition congruence.
Qed.

(** The sizes of the groups add up to the number of rows. *)
Lemma group_sizes_add_up (keys : list K) (l : list R) :
  NoDup keys -> (forall y, In y l -> In (key y) keys) ->
  list_sum (map (fun k => List.length (filter (fun r => key_eqb (key r) k) l)) keys)
  = List.length l.
Proof.
  intros Hnd. induction l as [|x l IH]; intros Hcov.
  - simpl. clear Hnd Hcov. induction keys as [|k keys IHk]; simpl; [reflexivity|].
    exact IHk.
  - rewrite (map_ext _
               (fun k => ((if key_eqb (key x) k then 1 else 0)
                          + List.length (filter (fun r => key_eqb (key r) k) l))%nat)).
    + rewrite list_sum_map_add, one_group_per_row, IH; try assumption.
      * reflexivity.
      * intros y Hy. apply Hcov. simpl; auto.
      * apply Hcov. simpl; auto.
    + intros k. cbn [filter]. destruct (key_eqb (key x) k); reflexivity.
Qed.
End GroupSizes.

(** X9.  With a sorting routine that permutes, the ranking by incident
    count lists exactly the vessel numbers of the de-duplicated incidents
    (the missing number is no vessel), each once, every one with the number
    of its incidents, which is at least one; the counts add up to the number
    of de-duplicated incidents that carry a vessel number, which is the
    number of all de-duplicated incidents when no number is missing. *)
Theorem incident_counts_add_up (sort : Sorter) (ui : DataFrame Candidate)
  (t : DataFrame (RankRow (option Z) nat)) :
  sorter_permutes sort ->
  incident_counts_sorted sort ui = Ok t ->
  list_sum (map (@r_value (option Z) nat) (rows t)) = count col_mmsi (rows ui)
  /\ ((forall c, In c (rows ui) -> mmsi (vessel c) <> None) ->
      list_sum (map (@r_value (option Z) nat) (rows t)) = List.length (rows ui))
  /\ NoDup (map (@r_key (option Z) nat) (rows t))
  /\ (forall m, In m (map (@r_key (option Z) nat) (rows t))
                <-> In m (map (cells col_mmsi) (rows ui)) /\ m <> None)
  /\ (forall r, In r (rows t) ->
        r_value r = List.length (group col_mmsi (r_key r) (rows ui))
        /\ (1 <= r_value r)%nat).
Proof.
  intros Hp E.
  pose proof (incident_counts_sorted_has_mmsi _ _ E) as Hm.
  unfold incident_counts_sorted, incident_counts in E.
  rewrite groupby_agg_ok in E by (simpl; rewrite Hm; reflexivity).
  cbn [except_bind] in E. injection E as <-.
  set (keys := group_keys col_mmsi (rows ui)).
  match goal with
  | |- context [rank_rows ?g] => set (grouped := g)
  end.
  assert (Hperm : Permutation
                    (rows (sort_values_desc sort Nat.leb (@r_value (option Z) nat)
                             (rank_rows grouped)))
                    (rows (rank_rows grouped)))
    by (apply sort_values_desc_perm; exact Hp).
  assert (Hkeys : Permutation
                    (map (@r_key (option Z) nat)
                       (rows (sort_values_desc sort Nat.leb (@r_value (option Z) nat)
                                (rank_rows grouped))))
                    keys)
    by (apply sorted_keys_are_group_keys; exact Hp).
  assert (Hnd : NoDup keys) by apply group_keys_NoDup.
  assert (Hin : forall m, In m keys <-> In m (map (cells col_mmsi) (rows ui)) /\ m <> None).
  { intros m. unfold keys. rewrite group_keys_In. cbn [key_isna Key_option_Z].
    destruct m; intuition congruence. }
  assert (Hsum : list_sum (map (@r_value (option Z) nat)
                             (rows (sort_values_desc sort Nat.leb (@r_value (option Z) nat)
                                      (rank_rows grouped))))
                 = count col_mmsi (rows ui)).
  { rewrite (list_sum_permutation (Permutation_map (@r_value (option Z) nat) Hperm)).
    unfold rank_rows, grouped; cbn [rows]. rewrite !map_map. cbn [r_value snd].
    unfold count.
    rewrite <- (group_sizes_add_up (cells col_mmsi) (keys := keys)
                  (filter (fun c => negb (key_isna (cells col_mmsi c))) (rows ui))).
    - f_equal. apply map_ext_in. intros k Hk. unfold group.
      rewrite filter_filter_implied; [reflexivity|].
      intros c Ec. apply key_eqb_eq in Ec. rewrite Ec.
      apply Hin in Hk. destruct Hk as [_ Hk]. destruct k; [reflexivity | congruence].
    - exact Hnd.
    - intros y Hy. apply filter_In in Hy. destruct Hy as [Hy Hn].
      apply Hin. split; [apply in_map; exact Hy|].
      intros En. rewrite En in Hn. discriminate Hn. }
  split; [exact Hsum|]. split; [|split; [|split]].
  - intros Hall. rewrite Hsum. unfold count. f_equal. apply filter_all.
    intros c Hc. specialize (Hall c Hc). cbn [cells col_mmsi].
    destruct (mmsi (vessel c)); [reflexivity | congruence].
  - eapply Permutation_NoDup; [apply Permutation_sym; exact Hkeys | exact Hnd].
  - intros m. rewrite <- Hin. split; intros Hx.
    + eapply Permutation_in; [exact Hkeys | exact Hx].
    + eapply Permutation_in; [apply Permutation_sym; exact Hkeys | exact Hx].
  - intros r Hr. apply (Permutation_in _ Hperm) in Hr.
    unfold rank_rows, grouped in Hr; cbn [rows] in Hr. rewrite map_map in Hr.
    apply in_map_iff in Hr. destruct Hr as (k & <- & Hk). cbn [r_value r_key fst snd].
    split; [reflexivity|].
    apply Hin in Hk. destruct Hk as [Hk _].
    apply in_map_iff in Hk. destruct Hk as (c & Ec & Hc).
    assert (Hg : In c (group col_mmsi k (rows ui))).
    { unfold group. apply filter_In. split; [exact Hc|].
      rewrite Ec. apply key_eqb_refl. }
    destruct (group col_mmsi k (rows ui)); [destruct Hg | simpl; lia].
Qed.

Lemma incident_counts_add_up_witness :
  let ui := Sample.incidents_of
              (Sample.candidates_of Sample.spills12
                 [Sample.F1; Sample.F4; Sample.F5; Sample.F_anon] 24) in
  exists t,
    (sorter_permutes stable_sorter /\ incident_counts_sorted stable_sorter ui = Ok t)
    /\ (List.length (rows ui) = 6%nat /\ count col_mmsi (rows ui) = 4%nat)
    /\ list_sum (map (@r_value (option Z) nat) (rows t)) = count col_mmsi (rows ui)
    /\ ((forall c, In c (rows ui) -> mmsi (vessel c) <> None) ->
        list_sum (map (@r_value (option Z) nat) (rows t)) = List.length (rows ui))
    /\ NoDup (map (@r_key (option Z) nat) (rows t))
    /\ (forall m, In m (map (@r_key (option Z) nat) (rows t))
                  <-> In m (map (cells col_mmsi) (rows ui)) /\ m <> None)
    /\ (forall r, In r (rows t) ->
          r_value r = List.length (group col_mmsi (r_key r) (rows ui))
          /\ (1 <= r_value r)%nat).
Proof.
  intros ui.
  destruct (incident_counts_sorted stable_sorter ui) as [t|k] eqn:E;
    [|vm_compute in E; discriminate E].
  exists t. split; [split; [exact (proj1 stable_sorter_contract) | reflexivity]|].
  split; [split; vm_compute; reflexivity|].
  exact (@incident_counts_add_up stable_sorter ui t (proj1 stable_sorter_contract) E).
Defined.

(** ** Names in the rankings *)

Lemma with_names_from_incidents {V : Type} (ui : DataFrame Candidate)
  (table merged : DataFrame (RankRow (option Z) V)) :
  has_column "mmsi" ui = true -> has_column "vessel_name" ui = true ->
  (forall x, In x (rows table) -> In (r_key x) (map (cells col_mmsi) (rows ui))) ->
  with_names ui table = Ok merged ->
  forall r, In r (rows merged) ->
    exists c, In c (rows ui) /\ mmsi (vessel c) = r_key r
              /\ vessel_name (vessel c) = r_vessel_name r.
Proof.
  intros Hm Hv Hkeys E r Hr.
  rewrite (with_names_rows ui table Hm), Hv in E. injection E as <-.
  unfold merge_left in Hr; cbn [rows] in Hr.
  apply in_flat_map in Hr. destruct Hr as (x & Hx & Hr).
  assert (Hpair : forall p, In p (name_pairs ui) ->
            exists c, In c (rows ui) /\ mmsi (vessel c) = fst p
                      /\ vessel_name (vessel c) = snd p).
  { intros p Hp. unfold name_pairs in Hp.
    apply (proj1 (drop_duplicates_rows_id_In _ _)) in Hp.
    apply in_map_iff in Hp. destruct Hp as (c & <- & Hc). exists c. auto. }
  destruct (filter (fun p => key_eqb (fst p) (r_key x)) (name_pairs ui)) as [|n ns] eqn:Ef.
  - exfalso. specialize (Hkeys x Hx). apply in_map_iff in Hkeys.
    destruct Hkeys as (c & Ec & Hc). cbn [cells col_mmsi] in Ec.
    assert (Hp : In (mmsi (vessel c), vessel_name (vessel c))
                   (filter (fun p => key_eqb (fst p) (r_key x)) (name_pairs ui))).
    { apply filter_In. split.
      - unfold name_pairs. apply (proj2 (drop_duplicates_rows_id_In _ _)).
        apply in_map_iff. exists c. auto.
      - cbn [fst]. apply key_eqb_eq. exact Ec. }
    rewrite Ef in Hp. exact Hp.
  - assert (Hn : exists p, In p (n :: ns) /\ r = mkRank (r_key x) (r_value x) (snd p)).
    { apply in_map_iff in Hr. destruct Hr as (p & <- & Hp). exists p. auto. }
    destruct Hn as (p & Hp & ->). rewrite <- Ef in Hp. apply filter_In in Hp.
    destruct Hp as [Hp Hk]. apply key_eqb_eq in Hk.
    destruct (Hpair p Hp) as (c & Hc & Ec & En).
    exists c. cbn [r_key r_vessel_name]. repeat split; congruence.
Qed.

(** X10.  With a sorting routine that permutes, every row of the two vessel
    rankings, after the name merge, shows a vessel together with a name that
    one of the vessel's de-duplicated incidents carries (a null name only if
    such an incident has a null name). *)
Theorem ranking_names_come_from_incidents (sort : Sorter) (ui : DataFrame Candidate) :
  sorter_permutes sort ->
  has_column "vessel_name" ui = true ->
  (forall t, ship_incident_counts sort ui = Ok t ->
     forall r, In r (rows t) ->
       exists c, In c (rows ui) /\ mmsi (vessel c) = r_key r
                 /\ vessel_name (vessel c) = r_vessel_name r)
  /\ (forall t, ship_area_sum sort ui = Ok t ->
        forall r, In r (rows t) ->
          exists c, In c (rows ui) /\ mmsi (vessel c) = r_key r
                    /\ vessel_name (vessel c) = r_vessel_name r).
Proof.
  intros Hp Hv. split.
  - intros t E. unfold ship_incident_counts in E.
    destruct (incident_counts_sorted sort ui) as [s|] eqn:Es; [|discriminate E].
    cbn [except_bind] in E.
    pose proof (incident_counts_sorted_has_mmsi _ _ Es) as Hm.
    eapply with_names_from_incidents; [exact Hm | exact Hv | | exact E].
    intros x Hx. unfold incident_counts_sorted, incident_counts in Es.
    rewrite groupby_agg_ok in Es by (simpl; rewrite Hm; reflexivity).
    cbn [except_bind] in Es. injection Es as <-.
    apply (group_keys_In col_mmsi).
    apply (Permutation_in _
             (sorted_keys_are_group_keys Nat.leb (@List.length Candidate)
                "incident_count" ui Hp)).
    apply in_map. exact Hx.
  - intros t E. unfold ship_area_sum in E.
    destruct (area_sum_sorted sort ui) as [s|] eqn:Es; [|discriminate E].
    cbn [except_bind] in E.
    pose proof (area_sum_sorted_has_mmsi _ _ Es) as Hm.
    eapply with_names_from_incidents; [exact Hm | exact Hv | | exact E].
    intros x Hx. unfold area_sum_sorted, area_sums in Es.
    destruct (groupby_agg col_mmsi col_area_sq_km _ "total_area_sq_km" ui)
      as [g|] eqn:Eg; [|discriminate Es].
    unfold groupby_agg in Eg.
    destruct (missing_label _ ui); [discriminate Eg|]. injection Eg as <-.
    cbn [except_bind] in Es. injection Es as <-.
    apply (group_keys_In col_mmsi).
    apply (Permutation_in _
             (sorted_keys_are_group_keys Qle_bool
                (fun g => Qsum (map (cells col_area_sq_km) g))
                "total_area_sq_km" ui Hp)).
    apply in_map. exact Hx.
Qed.

Lemma ranking_names_come_from_incidents_witness :
  let ui := Sample.incidents_of
              (Sample.candidates_of Sample.spills12 [Sample.N0; Sample.N1] 24) in
  (sorter_permutes stable_sorter /\ has_column "vessel_name" ui = true)
  /\ (forall t, ship_incident_counts stable_sorter ui = Ok t ->
        forall r, In r (rows t) ->
          exists c, In c (rows ui) /\ mmsi (vessel c) = r_key r
                    /\ vessel_name (vessel c) = r_vessel_name r)
  /\ (forall t, ship_area_sum stable_sorter ui = Ok t ->
        forall r, In r (rows t) ->
          exists c, In c (rows ui) /\ mmsi (vessel c) = r_key r
                    /\ vessel_name (vessel c) = r_vessel_name r).
Proof.
  intros ui.
  assert (Hv : has_column "vessel_name" ui = true) by reflexivity.
  split; [split; [exact (proj1 stable_sorter_contract) | exact Hv]|].
  exact (@ranking_names_come_from_incidents stable_sorter ui
           (proj1 stable_sorter_contract) Hv).
Defined.

(** ** The tables shown *)

Lemma Z_leb_total_preorder : total_preorder Z.leb.
Proof.
  split.
  - intros x y. rewrite !Z.leb_le. lia.
  - intros x y z. rewrite !Z.leb_le. lia.
Qed.

Lemma has_column_In {R : Type} (l : string) (df : DataFrame R) :
  has_column l df = true <-> In l (columns df).
Proof.
  unfold has_column. rewrite existsb_exists. split.
  - intros (x & Hx & E). apply String.eqb_eq in E. subst. exact Hx.
  - intros H. exists l. split; [exact H | apply String.eqb_refl].
Qed.

Lemma sort_values_by_ok {R V : Type} (sort : Sorter) (label : string)
  (leb : V -> V -> bool) (value : R -> V) (df : DataFrame R) :
  sorter_permutes sort -> sorter_sorts sort -> total_preorder leb ->
  has_column label df = true ->
  exists shown,
    sort_values_by sort label leb value df = Ok shown
    /\ columns shown = columns df
    /\ Permutation (rows shown) (rows df)
    /\ descending leb value (rows shown).
Proof.
  intros Hp Hs Hl Hc. unfold sort_values_by. rewrite Hc.
  eexists. split; [reflexivity|]. split; [reflexivity|]. split.
  - apply sort_values_desc_perm. exact Hp.
  - apply sort_values_desc_descending; assumption.
Qed.

(** X11.  On a candidate frame that has rows and the columns [spill_id],
    [mmsi] and [detection_date], the table under the map is produced without
    error: it holds exactly the rows of the de-duplicated report, latest
    detection first, under the renamed labels of those of the six wanted
    columns that exist, in the order the script lists them.  On a frame
    without rows no table is shown. *)
Theorem candidates_table_shows_the_report (sort : Sorter)
  (candidates_df : DataFrame Candidate) :
  sorter_permutes sort -> sorter_sorts sort ->
  forallb (fun l => has_column l candidates_df)
    ["spill_id"; "mmsi"; "detection_date"]%string = true ->
  match rows candidates_df with
  | [] => candidates_table sort candidates_df = Ok None
  | _ :: _ =>
      exists report shown,
        report_df candidates_df = Ok report
        /\ candidates_table sort candidates_df = Ok (Some shown)
        /\ Permutation (rows shown) (rows report)
        /\ descending Z.leb (fun c => detection_date (spill c)) (rows shown)
        /\ columns shown
           = map (renamed rename_dict) (existing_cols desired_cols candidates_df)
  end.
Proof.
  intros Hp Hs Hc. cbn [forallb] in Hc.
  repeat (apply andb_true_iff in Hc; destruct Hc as [?H Hc]).
  assert (Hsp : has_column "spill_id" candidates_df = true) by assumption.
  assert (Hm : has_column "mmsi" candidates_df = true) by assumption.
  assert (Hd : has_column "detection_date" candidates_df = true) by assumption.
  destruct (rows candidates_df) as [|c0 l0] eqn:Erows.
  - unfold candidates_table, empty. rewrite Erows. reflexivity.
  - assert (Hne : empty candidates_df = false).
    { unfold empty. rewrite Erows.
      destruct (columns candidates_df) eqn:Ecol; [|reflexivity].
      unfold has_column in Hm. rewrite Ecol in Hm. discriminate Hm. }
    pose (report := mkDataFrame (columns candidates_df)
                      (drop_duplicates_rows (cells (col_pair col_spill_id col_mmsi)) []
                         (rows candidates_df))).
    assert (Er : report_df candidates_df = Ok report).
    { unfold report_df. apply drop_duplicates_ok; [discriminate|].
      intros _. simpl. rewrite Hsp, Hm. reflexivity. }
    assert (Hhead : has_column "Время обнаружения пятна" (display_df report) = true).
    { apply has_column_In. unfold display_df; cbn [columns].
      change "Время обнаружения пятна"%string
        with (renamed rename_dict "detection_date").
      apply in_map. unfold existing_cols. apply filter_In. split.
      - unfold desired_cols. simpl. tauto.
      - exact Hd. }
    destruct (@sort_values_by_ok Candidate Z sort "Время обнаружения пятна"%string
                Z.leb (fun c : Candidate => detection_date (spill c))
                (display_df report) Hp Hs Z_leb_total_preorder Hhead)
      as (shown & Eshown & Hcols & Hperm & Hdesc).
    exists report, shown.
    split; [exact Er|].
    split; [|split; [exact Hperm | split; [exact Hdesc | exact Hcols]]].
    unfold candidates_table. rewrite Hne, Er. cbn [except_bind].
    rewrite Eshown. reflexivity.
Qed.

Lemma candidates_table_shows_the_report_witness :
  let candidates_df :=
    Sample.candidates_of Sample.spills12 [Sample.F1; Sample.F4; Sample.F5] 24 in
  (sorter_permutes stable_sorter /\ sorter_sorts stable_sorter
   /\ forallb (fun l => has_column l candidates_df)
        ["spill_id"; "mmsi"; "detection_date"]%string = true)
  /\ match rows candidates_df with
     | [] => candidates_table stable_sorter candidates_df = Ok None
     | _ :: _ =>
         exists report shown,
           report_df candidates_df = Ok report
           /\ candidates_table stable_sorter candidates_df = Ok (Some shown)
           /\ Permutation (rows shown) (rows report)
           /\ descending Z.leb (fun c => detection_date (spill c)) (rows shown)
           /\ columns shown
              = map (renamed rename_dict) (existing_cols desired_cols candidates_df)
     end.
Proof.
  intros candidates_df.
  assert (Hc : forallb (fun l => has_column l candidates_df)
                 ["spill_id"; "mmsi"; "detection_date"]%string = true) by reflexivity.
  split; [repeat split; try apply stable_sorter_contract; exact Hc|].
  exact (@candidates_table_shows_the_report stable_sorter candidates_df
           (proj1 stable_sorter_contract) (proj2 stable_sorter_contract) Hc).
Defined.

(** X12.  The table of prime suspects is shown in descending order of the
    spill area and holds exactly the rows of [prime_suspects_df], with those
    of the five display columns that exist; without the column [area_sq_km]
    the sort raises [KeyError: 'area_sq_km']. *)
Theorem prime_suspects_table_by_area (sort : Sorter) (suspects : DataFrame Candidate) :
  sorter_permutes sort -> sorter_sorts sort ->
  (has_column "area_sq_km" suspects = true ->
   exists shown,
     prime_suspects_table sort suspects = Ok shown
     /\ Permutation (rows shown) (rows suspects)
     /\ descending Qle_bool (fun c => area_sq_km (spill c)) (rows shown)
     /\ columns shown = existing_cols display_cols suspects)
  /\ (has_column "area_sq_km" suspects = false ->
      prime_suspects_table sort suspects = KeyError "area_sq_km").
Proof.
  intros Hp Hs.
  assert (Hcol : has_column "area_sq_km"
                   (mkDataFrame (existing_cols display_cols suspects) (rows suspects))
                 = has_column "area_sq_km" suspects).
  { unfold has_column at 1; cbn [columns]. unfold existing_cols, display_cols.
    cbn [filter].
    destruct (has_column "spill_id" suspects), (has_column "mmsi" suspects),
      (has_column "vessel_name" suspects), (has_column "time_to_detection" suspects),
      (has_column "area_sq_km" suspects); reflexivity. }
  split.
  - intros Ha. rewrite <- Hcol in Ha.
    destruct (@sort_values_by_ok Candidate Q sort "area_sq_km"%string
                Qle_bool (fun c : Candidate => area_sq_km (spill c))
                (mkDataFrame (existing_cols display_cols suspects) (rows suspects))
                Hp Hs Qle_bool_total_preorder Ha)
      as (shown & Eshown & Hcols & Hperm & Hdesc).
    exists shown. repeat split; assumption.
  - intros Ha. unfold prime_suspects_table, sort_values_by. rewrite Hcol, Ha. reflexivity.
Qed.

Lemma prime_suspects_table_by_area_witness :
  let st := Sample.candidates_of Sample.spills12 [Sample.P0; Sample.P1] 24 in
  exists suspects,
    fst (tab3_prime_suspects st) = Ok suspects
    /\ (sorter_permutes stable_sorter /\ sorter_sorts stable_sorter)
    /\ (has_column "area_sq_km" suspects = true ->
        exists shown,
          prime_suspects_table stable_sorter suspects = Ok shown
          /\ Permutation (rows shown) (rows suspects)
          /\ descending Qle_bool (fun c => area_sq_km (spill c)) (rows shown)
          /\ columns shown = existing_cols display_cols suspects)
    /\ (has_column "area_sq_km" suspects = false ->
        prime_suspects_table stable_sorter suspects = KeyError "area_sq_km").
Proof.
  intros st.
  destruct (fst (tab3_prime_suspects st)) as [suspects|k] eqn:E;
    [|vm_compute in E; discriminate E].
  exists suspects. split; [reflexivity|]. split; [exact stable_sorter_contract|].
  exact (@prime_suspects_table_by_area stable_sorter suspects
           (proj1 stable_sorter_contract) (proj2 stable_sorter_contract)).
Defined.

(** ** The loaders: failures, columns, index labels *)

Lemma missing_of_In {R : Type} (required_cols : list string) (df : DataFrame R)
  (c : string) :
  In c (missing_of required_cols df)
  <-> In c required_cols /\ has_column c df = false.
Proof.
  unfold missing_of. rewrite filter_In.
  destruct (has_column c df); simpl; intuition congruence.
Qed.

Lemma missing_of_nil {R : Type} (required_cols : list string) (df : DataFrame R) :
  forallb (fun col => has_column col df) required_cols = true
  <-> missing_of required_cols df = [].
Proof.
  unfold missing_of. induction required_cols as [|c l IH]; simpl; [tauto|].
  destruct (has_column c df); simpl; [exact IH | split; discriminate].
Qed.

Lemma Forall2_nil_iff {A B : Type} (P : A -> B -> Prop) (l1 : list A) (l2 : list B) :
  Forall2 P l1 l2 -> (l1 = [] <-> l2 = []).
Proof.
  intros H. destruct H; split; congruence.
Qed.

Lemma Forall2_map_eq {A B C : Type} (P : A -> B -> Prop) (g : A -> C) (h : B -> C)
  (l1 : list A) (l2 : list B) :
  (forall a b, P a b -> g a = h b) -> Forall2 P l1 l2 -> map g l1 = map h l2.
Proof.
  intros Hp H. induction H as [|a b l1 l2 Hab _ IH]; simpl; [reflexivity|].
  rewrite (Hp a b Hab), IH. reflexivity.
Qed.

Lemma none_parsed {A B : Type} (g : A -> option B) (l : list A) :
  filter (fun a => negb (is_null (g a))) l = [] <-> forall a, In a l -> g a = None.
Proof.
  induction l as [|x l IH]; simpl; [tauto|].
  destruct (g x) eqn:E; simpl.
  - split; [discriminate|]. intros H. specialize (H x (or_introl eq_refl)). congruence.
  - rewrite IH. split.
    + intros H a [<- | Ha]; auto.
    + intros H a Ha. apply H. auto.
Qed.

Section LoaderOutcomes.
Variable to_datetime : list (option string) -> string -> option Timestamp.
Variable to_datetime_format : list (option string) -> string -> option Timestamp.
Variable to_crs : string -> Geom.Geometry -> Geom.Geometry.

(** The four ways [load_spills_data] can end on a file that was read. *)
Lemma load_spills_data_cases (file : SpillFile) :
  let gdf := features file in
  let required_cols := ["slick_name"; "area_sys"]%string in
  let has_dt := has_column "date" gdf && has_column "time" gdf in
  let parsed := detection_date_of to_datetime to_datetime_format has_dt (rows gdf) in
  let good := filter (fun f => negb (is_null (parsed f))) (rows gdf) in
  let result := load_spills_data to_datetime to_datetime_format to_crs (Some file) in
  (missing_of required_cols gdf <> []
   /\ result = (Returns None,
                [Info_loading; Error_missing_columns (missing_of required_cols gdf)]))
  \/ (missing_of required_cols gdf = []
      /\ has_dt && negb (text_columns file) = true
      /\ result = (Raises TypeError, [Info_loading; Success_date_time_columns]))
  \/ (missing_of required_cols gdf = []
      /\ has_dt && negb (text_columns file) = false
      /\ good = []
      /\ fst result = Returns None
      /\ existsb is_error (snd result) = true
      /\ forall m, ~ In (Error_missing_columns m) (snd result))
  \/ (missing_of required_cols gdf = []
      /\ has_dt && negb (text_columns file) = false
      /\ good <> []
      /\ existsb is_error (snd result) = false
      /\ exists spills,
           fst result = Returns (Some spills)
           /\ Forall2 (spill_of_feature to_crs (crs file) parsed) (rows spills) good
           /\ (forall l, In l (columns gdf) ->
                 In (rename_label "area_sys" "area_sq_km"
                       (rename_label "slick_name" "spill_id" l)) (columns spills))
           /\ In "detection_date"%string (columns spills)).
Proof.
  intros gdf required_cols has_dt parsed good result.
  destruct (forallb (fun col => has_column col gdf) required_cols) eqn:Hreq.
  - pose proof (proj1 (missing_of_nil required_cols gdf) Hreq) as Hmiss.
    destruct (has_dt && negb (text_columns file)) eqn:Hdt.
    { right. left. split; [exact Hmiss|]. split; [reflexivity|].
      exact (load_spills_data_raises to_datetime to_datetime_format to_crs file Hreq Hdt). }
    pose proof (spill_rows_kept to_crs (crs file) parsed (rows gdf)) as Hkept.
    fold good in Hkept.
    subst result. unfold load_spills_data. fold gdf. fold required_cols.
    rewrite Hreq. cbn [negb]. fold has_dt. rewrite Hdt.
    unfold detection_dates. fold parsed.
    set (cols := map _ (columns gdf)).
    set (cols' := if existsb (String.eqb "detection_date") cols then cols
                  else cols ++ ["detection_date"%string]).
    assert (Hdd : In "detection_date"%string cols').
    { subst cols'. destruct (existsb (String.eqb "detection_date") cols) eqn:E.
      - apply existsb_exists in E. destruct E as (x & Hx & E).
        apply String.eqb_eq in E. subst x. exact Hx.
      - apply in_or_app. right. simpl; auto. }
    assert (Hsub : forall l, In l cols -> In l cols').
    { subst cols'. destruct (existsb (String.eqb "detection_date") cols); [auto|].
      intros l Hl. apply in_or_app. auto. }
    set (warn := if existsb is_null (map parsed (rows gdf)) then _ else _).
    assert (Hwarn : existsb is_error warn = false
                    /\ forall m, ~ In (Error_missing_columns m) warn).
    { subst warn. destruct (existsb is_null (map parsed (rows gdf))); simpl;
        (split; [reflexivity | intros m Hm; intuition discriminate]). }
    destruct Hwarn as [Hw1 Hw2].
    set (kept := dropna _ _) in *.
    destruct kept as [|s kept'] eqn:Ek.
    + right. right. left. split; [exact Hmiss|]. split; [reflexivity|].
      split; [apply (Forall2_nil_iff Hkept); reflexivity|].
      cbn [fst snd]. split; [reflexivity|]. split.
      * rewrite !existsb_app. rewrite Hw1. destruct has_dt; reflexivity.
      * intros m Hm. apply in_app_or in Hm. destruct Hm as [Hm | Hm].
        -- simpl in Hm. destruct has_dt; intuition discriminate.
        -- apply in_app_or in Hm. destruct Hm as [Hm | Hm]; [exact (Hw2 m Hm)|].
           simpl in Hm. intuition discriminate.
    + destruct cols' as [|c0 cols''] eqn:Ec; [destruct Hdd|].
      right. right. right. split; [exact Hmiss|]. split; [reflexivity|].
      split; [intros Hn; rewrite Hn in Hkept; inversion Hkept|].
      cbn [fst snd]. split.
      * rewrite !existsb_app. rewrite Hw1. destruct has_dt; reflexivity.
      * eexists. split; [reflexivity|]. cbn [rows columns].
        split; [exact Hkept|]. split; [|exact Hdd].
        intros l Hl. apply Hsub.
        exact (in_map (fun l0 => rename_label "area_sys" "area_sq_km"
                                   (rename_label "slick_name" "spill_id" l0)) _ _ Hl).
  - left.
    assert (Hmiss : missing_of required_cols gdf <> []).
    { intros Hn. apply missing_of_nil in Hn. congruence. }
    split; [exact Hmiss|].
    subst result. unfold load_spills_data. fold gdf. fold required_cols.
    rewrite Hreq. reflexivity.
Qed.
End LoaderOutcomes.

(** The three ways [load_ais_data] can end on a file that was read. *)
Lemma load_ais_data_cases
  (to_datetime : list (option string) -> string -> option Timestamp)
  (df : DataFrame AisRecord) :
  let required_cols := ["mmsi"; "latitude"; "longitude"; "BaseDateTime"]%string in
  let kept := filter (complete to_datetime (rows df)) (rows df) in
  let result := load_ais_data to_datetime (Some df) in
  (missing_of required_cols df <> []
   /\ result = (Returns None,
                [Info_loading; Error_missing_columns (missing_of required_cols df)]))
  \/ (missing_of required_cols df = []
      /\ existsb text_coordinate kept = true
      /\ result = (Raises ValueError, [Info_loading]))
  \/ (missing_of required_cols df = []
      /\ existsb text_coordinate kept = false
      /\ snd result = [Info_loading; Success_loaded]
      /\ exists vessels,
           fst result = Returns (Some vessels)
           /\ Forall2 (vessel_of_record (timestamp_of to_datetime (rows df)))
                (rows vessels) kept
           /\ (forall l, In l (columns df) -> In l (columns vessels))
           /\ In "timestamp"%string (columns vessels)
           /\ In "geometry"%string (columns vessels)).
Proof.
  intros required_cols kept result.
  destruct (forallb (fun col => has_column col df) required_cols) eqn:Hreq.
  - right. pose proof (proj1 (missing_of_nil required_cols df) Hreq) as Hmiss.
    destruct (existsb text_coordinate kept) eqn:Ht.
    { left. split; [exact Hmiss|]. split; [reflexivity|].
      exact (load_ais_data_raises to_datetime df Hreq Ht). }
    right. split; [exact Hmiss|]. split; [reflexivity|].
    assert (Hsound : forall r, In r kept ->
              complete to_datetime (rows df) r = true /\ text_coordinate r = false).
    { intros r Hr. split; [apply filter_In in Hr; tauto|].
      destruct (text_coordinate r) eqn:E; [|reflexivity].
      assert (Hex : existsb text_coordinate kept = true)
        by (apply existsb_exists; exists r; auto).
      congruence. }
    subst result. unfold load_ais_data. fold required_cols.
    rewrite Hreq. cbn [negb]. fold kept. rewrite Ht. cbn [fst snd].
    split; [reflexivity|].
    eexists. split; [reflexivity|]. cbn [rows columns].
    split; [apply vessel_rows_kept; exact Hsound|].
    set (cols := if has_column "timestamp" df then columns df
                 else columns df ++ ["timestamp"%string]).
    assert (Hts : In "timestamp"%string cols).
    { subst cols. destruct (has_column "timestamp" df) eqn:E.
      - apply has_column_In. exact E.
      - apply in_or_app. right. simpl; auto. }
    assert (Hsub : forall l, In l (columns df) -> In l cols).
    { subst cols. destruct (has_column "timestamp" df); [auto|].
      intros l Hl. apply in_or_app. auto. }
    destruct (existsb (String.eqb "geometry") cols) eqn:Eg.
    + split; [exact Hsub|]. split; [exact Hts|].
      apply existsb_exists in Eg. destruct Eg as (x & Hx & E).
      apply String.eqb_eq in E. subst x. exact Hx.
    + split; [intros l Hl; apply in_or_app; left; apply Hsub; exact Hl|].
      split; [apply in_or_app; left; exact Hts|].
      apply in_or_app. right. simpl; auto.
  - left.
    assert (Hmiss : missing_of required_cols df <> []).
    { intros Hn. apply missing_of_nil in Hn. congruence. }
    split; [exact Hmiss|].
    subst result. unfold load_ais_data. fold required_cols. rewrite Hreq. reflexivity.
Qed.

Lemma missing_nonempty {R : Type} (required_cols : list string) (df : DataFrame R) :
  missing_of required_cols df <> []
  <-> exists c, In c required_cols /\ has_column c df = false.
Proof.
  split.
  - intros Hn. destruct (missing_of required_cols df) as [|c l] eqn:E; [congruence|].
    exists c. apply missing_of_In. rewrite E. simpl; auto.
  - intros (c & Hc) Hn. apply missing_of_In in Hc. rewrite Hn in Hc. exact Hc.
Qed.

(** X13.  The spill loader ends in one of three ways.  It raises, and then
    a [TypeError], exactly when the file was read, has the required columns
    and the columns [date] and [time], and one of these two is not a text
    column.  It returns nothing exactly when it printed an error, and that
    is exactly when the file could not be read, a required column is absent,
    or no exception is raised and no feature has a detection date that
    parses.  An error about missing columns names exactly the required
    columns that the file lacks. *)
Theorem load_spills_data_fails_exactly_on_error
  (to_datetime to_datetime_format : list (option string) -> string -> option Timestamp)
  (to_crs : string -> Geom.Geometry -> Geom.Geometry) (read_file : option SpillFile) :
  let result := load_spills_data to_datetime to_datetime_format to_crs read_file in
  (fst result = Returns None <-> existsb is_error (snd result) = true)
  /\ (fst result = Returns None <->
      match read_file with
      | None => True
      | Some file =>
          (exists c, In c ["slick_name"; "area_sys"]%string
                     /\ has_column c (features file) = false)
          \/ (has_column "date" (features file) && has_column "time" (features file)
              && negb (text_columns file) = false
              /\ forall f, In f (rows (features file)) ->
                   detection_date_of to_datetime to_datetime_format
                     (has_column "date" (features file)
                      && has_column "time" (features file))
                     (rows (features file)) f = None)
      end)
  /\ (forall e, fst result = Raises e <->
        e = TypeError
        /\ exists file,
             read_file = Some file
             /\ forallb (fun c => has_column c (features file))
                  ["slick_name"; "area_sys"]%string = true
             /\ has_column "date" (features file) = true
             /\ has_column "time" (features file) = true
             /\ text_columns file = false)
  /\ (forall m, In (Error_missing_columns m) (snd result) ->
        exists file,
          read_file = Some file /\ m <> []
          /\ forall c, In c m <-> In c ["slick_name"; "area_sys"]%string
                                  /\ has_column c (features file) = false).
Proof.
  intros result. destruct read_file as [file|].
  - assert (Hraise : forall e,
               e = TypeError
               /\ (exists file0,
                     Some file = Some file0
                     /\ forallb (fun c => has_column c (features file0))
                          ["slick_name"; "area_sys"]%string = true
                     /\ has_column "date" (features file0) = true
                     /\ has_column "time" (features file0) = true
                     /\ text_columns file0 = false)
               <-> e = TypeError
                   /\ missing_of ["slick_name"; "area_sys"]%string (features file) = []
                   /\ has_column "date" (features file) && has_column "time" (features file)
                      && negb (text_columns file) = true).
    { intros e. rewrite <- missing_of_nil. rewrite !andb_true_iff, negb_true_iff. split.
      - intros (He & f0 & Ef & H1 & H2 & H3 & H4). injection Ef as <-. tauto.
      - intros (He & H1 & (H2 & H3) & H4). split; [exact He|]. exists file. tauto. }
    destruct (load_spills_data_cases to_datetime to_datetime_format to_crs file)
      as [(Hmiss & E)
         | [(Hmiss & Hdt & E)
           | [(Hmiss & Hdt & Hgood & E1 & E2 & E3)
             | (Hmiss & Hdt & Hgood & E2 & spills & E1 & _)]]];
      fold result in E || fold result in E1, E2.
    + rewrite E. cbn [fst snd existsb is_error].
      split; [split; reflexivity|]. split; [|split].
      * split; [intros _; left; apply missing_nonempty; exact Hmiss | reflexivity].
      * intros e. rewrite Hraise. split; [discriminate|].
        intros (_ & Hn & _). contradiction.
      * intros m [Hm | [Hm | []]]; [discriminate|]. injection Hm as <-.
        exists file. split; [reflexivity|]. split; [exact Hmiss|].
        intros c.
        exact (missing_of_In ["slick_name"; "area_sys"]%string (features file) c).
    + rewrite E. cbn [fst snd existsb is_error orb].
      split; [split; discriminate|]. split; [|split].
      * split; [discriminate|]. intros [Hc | [Hn _]]; exfalso.
        -- apply missing_nonempty in Hc. exact (Hc Hmiss).
        -- congruence.
      * intros e. rewrite Hraise. split.
        -- intros Ee. injection Ee as <-. auto.
        -- intros (-> & _). reflexivity.
      * intros m [Hm | [Hm | []]]; discriminate.
    + fold result in E3. rewrite E1, E2.
      split; [split; reflexivity|]. split; [|split].
      * split; [|reflexivity]. intros _. right. split; [exact Hdt|].
        apply none_parsed. exact Hgood.
      * intros e. rewrite Hraise. split; [discriminate|].
        intros (_ & _ & Hn). congruence.
      * intros m Hm. exfalso. exact (E3 m Hm).
    + rewrite E1, E2.
      split; [split; discriminate|]. split; [|split].
      * split; [discriminate|]. intros [Hc | [_ Hnone]]; exfalso.
        -- apply missing_nonempty in Hc. exact (Hc Hmiss).
        -- apply none_parsed in Hnone. exact (Hgood Hnone).
      * intros e. rewrite Hraise. split; [discriminate|].
        intros (_ & _ & Hn). congruence.
      * intros m Hm. exfalso.
        assert (Herr : existsb is_error (snd result) = true)
          by (apply existsb_exists; exists (Error_missing_columns m); auto).
        congruence.
  - subst result. cbn. split; [split; reflexivity|].
    split; [split; auto|]. split.
    + intros e. split; [discriminate|]. intros (_ & f & Ef & _). discriminate Ef.
    + intros m [Hm | [Hm | []]]; discriminate.
Qed.

(** X14.  The AIS loader ends in one of three ways.  It raises, and then a
    [ValueError], exactly when the file was read, has the four required
    columns, and some line whose timestamp parses and whose coordinates are
    not missing carries a coordinate that is no number.  It returns nothing
    exactly when it printed an error, and that is exactly when the file
    could not be read or one of the columns mmsi, latitude, longitude,
    BaseDateTime is absent.  An error about missing columns names exactly
    the required columns that the file lacks. *)
Theorem load_ais_data_fails_exactly_on_error
  (to_datetime : list (option string) -> string -> option Timestamp)
  (read_csv : option (DataFrame AisRecord)) :
  let result := load_ais_data to_datetime read_csv in
  (fst result = Returns None <-> existsb is_error (snd result) = true)
  /\ (fst result = Returns None <->
      match read_csv with
      | None => True
      | Some df =>
          exists c, In c ["mmsi"; "latitude"; "longitude"; "BaseDateTime"]%string
                    /\ has_column c df = false
      end)
  /\ (forall e, fst result = Raises e <->
        e = ValueError
        /\ exists df,
             read_csv = Some df
             /\ forallb (fun c => has_column c df)
                  ["mmsi"; "latitude"; "longitude"; "BaseDateTime"]%string = true
             /\ exists r, In r (rows df)
                          /\ complete to_datetime (rows df) r = true
                          /\ text_coordinate r = true)
  /\ (forall m, In (Error_missing_columns m) (snd result) ->
        exists df,
          read_csv = Some df /\ m <> []
          /\ forall c, In c m
                       <-> In c ["mmsi"; "latitude"; "longitude"; "BaseDateTime"]%string
                           /\ has_column c df = false).
Proof.
  intros result. destruct read_csv as [df|].
  - assert (Hraise : forall e,
               e = ValueError
               /\ (exists df0,
                     Some df = Some df0
                     /\ forallb (fun c => has_column c df0)
                          ["mmsi"; "latitude"; "longitude"; "BaseDateTime"]%string = true
                     /\ exists r, In r (rows df0)
                                  /\ complete to_datetime (rows df0) r = true
                                  /\ text_coordinate r = true)
               <-> e = ValueError
                   /\ missing_of ["mmsi"; "latitude"; "longitude"; "BaseDateTime"]%string
                        df = []
                   /\ existsb text_coordinate
                        (filter (complete to_datetime (rows df)) (rows df)) = true).
    { intros e. rewrite <- missing_of_nil, existsb_exists. split.
      - intros (He & d0 & Ed & H1 & r & Hr & Hc & Ht). injection Ed as <-.
        split; [exact He|]. split; [exact H1|]. exists r.
        split; [apply filter_In; auto | exact Ht].
      - intros (He & H1 & r & Hr & Ht). apply filter_In in Hr.
        split; [exact He|]. exists df. split; [reflexivity|]. split; [exact H1|].
        exists r. tauto. }
    destruct (load_ais_data_cases to_datetime df)
      as [(Hmiss & E) | [(Hmiss & Ht & E) | (Hmiss & Ht & E2 & vessels & E1 & _)]];
      fold result in E || fold result in E1, E2.
    + rewrite E. cbn [fst snd existsb is_error].
      split; [split; reflexivity|]. split; [|split].
      * split; [intros _; apply missing_nonempty; exact Hmiss | reflexivity].
      * intros e. rewrite Hraise. split; [discriminate|].
        intros (_ & Hn & _). contradiction.
      * intros m [Hm | [Hm | []]]; [discriminate|]. injection Hm as <-.
        exists df. split; [reflexivity|]. split; [exact Hmiss|].
        intros c.
        exact (missing_of_In ["mmsi"; "latitude"; "longitude"; "BaseDateTime"]%string
                 df c).
    + rewrite E. cbn [fst snd existsb is_error orb].
      split; [split; discriminate|]. split; [|split].
      * split; [discriminate|]. intros Hc. exfalso.
        apply missing_nonempty in Hc. exact (Hc Hmiss).
      * intros e. rewrite Hraise. split.
        -- intros Ee. injection Ee as <-. auto.
        -- intros (-> & _). reflexivity.
      * intros m [Hm | []]; discriminate.
    + rewrite E1, E2. cbn [existsb is_error orb].
      split; [split; discriminate|]. split; [|split].
      * split; [discriminate|]. intros Hc. exfalso.
        apply missing_nonempty in Hc. exact (Hc Hmiss).
      * intros e. rewrite Hraise. split; [discriminate|].
        intros (_ & _ & Hn). congruence.
      * intros m [Hm | [Hm | []]]; discriminate.
  - subst result. cbn. split; [split; reflexivity|].
    split; [split; auto|]. split.
    + intros e. split; [discriminate|]. intros (_ & d & Ed & _). discriminate Ed.
    + intros m [Hm | [Hm | []]]; discriminate.
Qed.

Section LoadedFrames.
Variable to_datetime : list (option string) -> string -> option Timestamp.
Variable to_datetime_format : list (option string) -> string -> option Timestamp.
Variable to_crs : string -> Geom.Geometry -> Geom.Geometry.

Lemma load_spills_data_some (read_file : option SpillFile) (spills : DataFrame SpillRow) :
  fst (load_spills_data to_datetime to_datetime_format to_crs read_file)
  = Returns (Some spills) ->
  exists file,
    read_file = Some file
    /\ rows spills <> []
    /\ forallb (fun l => has_column l spills)
         ["spill_id"; "area_sq_km"; "detection_date"]%string = true
    /\ map s_index (rows spills)
       = map f_index
           (filter (fun f => negb (is_null
                      (detection_date_of to_datetime to_datetime_format
                         (has_column "date" (features file)
                          && has_column "time" (features file))
                         (rows (features file)) f)))
              (rows (features file))).
Proof.
  intros E. destruct read_file as [file|]; [|discriminate E].
  exists file. split; [reflexivity|].
  destruct (load_spills_data_cases to_datetime to_datetime_format to_crs file)
    as [(Hmiss & E')
       | [(_ & _ & E')
         | [(_ & _ & _ & E' & _)
           | (Hmiss & _ & Hgood & _ & s & E' & Hkept & Hren & Hdd)]]].
  - rewrite E' in E. discriminate E.
  - rewrite E' in E. discriminate E.
  - rewrite E' in E. discriminate E.
  - rewrite E' in E. injection E as <-.
    split; [intros Hn; rewrite Hn in Hkept; inversion Hkept; subst; congruence|].
    split.
    + apply missing_of_nil in Hmiss. cbn [forallb] in Hmiss.
      repeat (apply andb_true_iff in Hmiss; destruct Hmiss as [?Hc Hmiss]).
      cbn [forallb].
      rewrite (proj2 (has_column_In "spill_id" s))
        by (apply (Hren "slick_name"%string); apply has_column_In; assumption).
      rewrite (proj2 (has_column_In "area_sq_km" s))
        by (apply (Hren "area_sys"%string); apply has_column_In; assumption).
      rewrite (proj2 (has_column_In "detection_date" s)) by exact Hdd.
      reflexivity.
    + eapply Forall2_map_eq; [|exact Hkept].
      intros a b Hab. destruct Hab as [Hi _]. exact Hi.
Qed.

Lemma load_ais_data_some (read_csv : option (DataFrame AisRecord))
  (vessels : DataFrame VesselRow) :
  fst (load_ais_data to_datetime read_csv) = Returns (Some vessels) ->
  exists df,
    read_csv = Some df
    /\ forallb (fun l => has_column l vessels)
         ["mmsi"; "latitude"; "longitude"; "BaseDateTime"; "timestamp"; "geometry"]%string
       = true
    /\ map v_index (rows vessels)
       = map a_index (filter (complete to_datetime (rows df)) (rows df)).
Proof.
  intros E. destruct read_csv as [df|]; [|discriminate E].
  exists df. split; [reflexivity|].
  destruct (load_ais_data_cases to_datetime df)
    as [(Hmiss & E') | [(_ & _ & E') | (Hmiss & _ & _ & v & E' & Hkept & Hsub & Hts & Hg)]].
  - rewrite E' in E. discriminate E.
  - rewrite E' in E. discriminate E.
  - rewrite E' in E. injection E as <-. split.
    + apply missing_of_nil in Hmiss. cbn [forallb] in Hmiss.
      repeat (apply andb_true_iff in Hmiss; destruct Hmiss as [?Hc Hmiss]).
      cbn [forallb].
      rewrite (proj2 (has_column_In "mmsi" v))
        by (apply Hsub; apply has_column_In; assumption).
      rewrite (proj2 (has_column_In "latitude" v))
        by (apply Hsub; apply has_column_In; assumption).
      rewrite (proj2 (has_column_In "longitude" v))
        by (apply Hsub; apply has_column_In; assumption).
      rewrite (proj2 (has_column_In "BaseDateTime" v))
        by (apply Hsub; apply has_column_In; assumption).
      rewrite (proj2 (has_column_In "timestamp" v)) by exact Hts.
      rewrite (proj2 (has_column_In "geometry" v)) by exact Hg.
      reflexivity.
    + eapply Forall2_map_eq; [|exact Hkept].
      intros a b Hab. destruct Hab as [Hi _]. exact Hi.
Qed.
End LoadedFrames.

(** X15.  The frames the loaders return are fit for the matcher and the
    analytics: the spill frame is never empty and has the columns
    [spill_id], [area_sq_km] and [detection_date]; the AIS frame has the
    four required columns, [timestamp] and [geometry]; and both keep the
    index labels of the lines they kept, so labels that are unique in the
    files are unique in the frames. *)
Theorem loaded_frames_are_ready
  (to_datetime to_datetime_format : list (option string) -> string -> option Timestamp)
  (to_crs : string -> Geom.Geometry -> Geom.Geometry)
  (read_file : option SpillFile) (read_csv : option (DataFrame AisRecord))
  (spills : DataFrame SpillRow) (vessels : DataFrame VesselRow) :
  fst (load_spills_data to_datetime to_datetime_format to_crs read_file)
  = Returns (Some spills) ->
  fst (load_ais_data to_datetime read_csv) = Returns (Some vessels) ->
  empty spills = false
  /\ forallb (fun l => has_column l spills)
       ["spill_id"; "area_sq_km"; "detection_date"]%string = true
  /\ forallb (fun l => has_column l vessels)
       ["mmsi"; "latitude"; "longitude"; "BaseDateTime"; "timestamp"; "geometry"]%string
     = true
  /\ (forall file, read_file = Some file ->
        NoDup (map f_index (rows (features file))) -> NoDup (map s_index (rows spills)))
  /\ (forall df, read_csv = Some df ->
        NoDup (map a_index (rows df)) -> NoDup (map v_index (rows vessels))).
Proof.
  intros Es Ev.
  destruct (load_spills_data_some to_datetime to_datetime_format to_crs _ Es)
    as (file & Ef & Hrows & Hcols & Hidx).
  destruct (load_ais_data_some to_datetime _ Ev) as (df & Ed & Hvcols & Hvidx).
  split; [|split; [exact Hcols | split; [exact Hvcols | split]]].
  - unfold empty. destruct (rows spills); [congruence|].
    destruct (columns spills) eqn:Ec; [|reflexivity].
    cbn [forallb] in Hcols. unfold has_column in Hcols. rewrite Ec in Hcols.
    discriminate Hcols.
  - intros file' Ef' Hnd. rewrite Ef in Ef'. injection Ef' as <-.
    rewrite Hidx. apply filter_keeps_labels_unique. exact Hnd.
  - intros df' Ed' Hnd. rewrite Ed in Ed'. injection Ed' as <-.
    rewrite Hvidx. apply filter_keeps_labels_unique. exact Hnd.
Qed.

Lemma loaded_frames_are_ready_witness :
  let read_file := Some (Sample.geojson [Sample.feature_ok; Sample.feature_bad]) in
  let read_csv := Some (Sample.csv [Sample.ais_ok; Sample.ais_bad_time; Sample.ais_no_lat]) in
  exists spills vessels,
    (fst (load_spills_data Sample.to_datetime Sample.to_datetime Sample.to_crs read_file)
     = Returns (Some spills)
     /\ fst (load_ais_data Sample.to_datetime read_csv) = Returns (Some vessels))
    /\ empty spills = false
    /\ forallb (fun l => has_column l spills)
         ["spill_id"; "area_sq_km"; "detection_date"]%string = true
    /\ forallb (fun l => has_column l vessels)
         ["mmsi"; "latitude"; "longitude"; "BaseDateTime"; "timestamp"; "geometry"]%string
       = true
    /\ (forall file, read_file = Some file ->
          NoDup (map f_index (rows (features file))) -> NoDup (map s_index (rows spills)))
    /\ (forall df, read_csv = Some df ->
          NoDup (map a_index (rows df)) -> NoDup (map v_index (rows vessels))).
Proof.
  intros read_file read_csv.
  destruct (fst (load_spills_data Sample.to_datetime Sample.to_datetime Sample.to_crs
                   read_file)) as [[spills|]|e] eqn:Es;
    [|vm_compute in Es; discriminate Es|vm_compute in Es; discriminate Es].
  destruct (fst (load_ais_data Sample.to_datetime read_csv)) as [[vessels|]|e] eqn:Ev;
    [|vm_compute in Ev; discriminate Ev|vm_compute in Ev; discriminate Ev].
  exists spills, vessels. split; [split; reflexivity|].
  exact (@loaded_frames_are_ready Sample.to_datetime Sample.to_datetime Sample.to_crs
           read_file read_csv spills vessels Es Ev).
Defined.

(** X16.  The guard before the analysis lets the script go on exactly when
    the spill loader returned a frame and the AIS loader returned a frame
    with at least one line left; an AIS file whose lines were all dropped
    stops the script although its loader did not fail. *)
Theorem analysis_starts_iff_both_loaded
  (to_datetime to_datetime_format : list (option string) -> string -> option Timestamp)
  (to_crs : string -> Geom.Geometry -> Geom.Geometry)
  (read_file : option SpillFile) (read_csv : option (DataFrame AisRecord)) :
  startup
    (fst (load_spills_data to_datetime to_datetime_format to_crs read_file))
    (fst (load_ais_data to_datetime read_csv)) = Returns true
  <-> (exists spills,
         fst (load_spills_data to_datetime to_datetime_format to_crs read_file)
         = Returns (Some spills))
      /\ (exists vessels,
            fst (load_ais_data to_datetime read_csv) = Returns (Some vessels)
            /\ rows vessels <> []).
Proof.
  unfold startup, loaded_inputs.
  destruct (fst (load_spills_data to_datetime to_datetime_format to_crs read_file))
    as [[spills|]|e] eqn:Es.
  - destruct (fst (load_ais_data to_datetime read_csv)) as [[vessels|]|e] eqn:Ev.
    + destruct (load_spills_data_some to_datetime to_datetime_format to_crs _ Es)
        as (file & _ & Hrows & Hcols & _).
      destruct (load_ais_data_some to_datetime _ Ev) as (df & _ & Hvcols & _).
      assert (Hse : empty spills = false).
      { unfold empty. destruct (rows spills); [congruence|].
        destruct (columns spills) eqn:Ec; [|reflexivity].
        cbn [forallb] in Hcols. unfold has_column in Hcols. rewrite Ec in Hcols.
        discriminate Hcols. }
      assert (Hve : empty vessels = true <-> rows vessels = []).
      { unfold empty. destruct (rows vessels); [tauto|].
        destruct (columns vessels) eqn:Ec; [|split; discriminate].
        cbn [forallb] in Hvcols. unfold has_column in Hvcols. rewrite Ec in Hvcols.
        discriminate Hvcols. }
      rewrite Hse. cbn [negb andb]. split.
      * intros Hn. injection Hn as Hn. split; [exists spills; reflexivity|].
        exists vessels. split; [reflexivity|]. intros Hr. apply Hve in Hr.
        rewrite Hr in Hn. discriminate Hn.
      * intros (_ & v & Hv & Hr). injection Hv as <-.
        destruct (empty vessels) eqn:Ee; [|reflexivity].
        exfalso. apply Hr. apply Hve. reflexivity.
    + split; [discriminate|]. intros (_ & v & Hv & _). discriminate Hv.
    + split; [discriminate|]. intros (_ & v & Hv & _). discriminate Hv.
  - split; [destruct (fst (load_ais_data to_datetime read_csv)) as [[v|]|e'];
            discriminate|].
    intros ((s & Hs) & _). discriminate Hs.
  - split; [discriminate|]. intros ((s & Hs) & _). discriminate Hs.
Qed.

(** ** The two vessel rankings side by side, and the vessel types *)

Lemma Qsum_from_nonneg (l : list Q) : forall acc : Q,
  (0 <= acc)%Q -> Forall (fun a => (0 <= a)%Q) l -> (0 <= fold_left Qplus l acc)%Q.
Proof.
  induction l as [|a l IH]; intros acc Hacc Hl; simpl; [exact Hacc|].
  inversion Hl; subst. apply IH; [|assumption].
  rewrite <- (Qplus_0_l 0). apply Qplus_le_compat; assumption.
Qed.

(** X17.  With a sorting routine that permutes, the ranking by incident
    count and the ranking by area sum (before the name merge) hold the same
    vessels, each exactly once; and when no spill area is negative, no
    total area in the ranking is negative. *)
Theorem vessel_rankings_hold_the_same_vessels (sort : Sorter) (ui : DataFrame Candidate)
  (counts : DataFrame (RankRow (option Z) nat)) (areas : DataFrame (RankRow (option Z) Q)) :
  sorter_permutes sort ->
  incident_counts_sorted sort ui = Ok counts ->
  area_sum_sorted sort ui = Ok areas ->
  Permutation (map (@r_key (option Z) nat) (rows counts)) (map (@r_key (option Z) Q) (rows areas))
  /\ NoDup (map (@r_key (option Z) Q) (rows areas))
  /\ ((forall c, In c (rows ui) -> (0 <= area_sq_km (spill c))%Q) ->
      forall r, In r (rows areas) -> (0 <= r_value r)%Q).
Proof.
  intros Hp Ec Ea.
  pose proof (incident_counts_sorted_has_mmsi _ _ Ec) as Hm.
  unfold incident_counts_sorted, incident_counts in Ec.
  rewrite groupby_agg_ok in Ec by (simpl; rewrite Hm; reflexivity).
  cbn [except_bind] in Ec. injection Ec as <-.
  unfold area_sum_sorted, area_sums in Ea.
  destruct (groupby_agg col_mmsi col_area_sq_km _ "total_area_sq_km" ui)
    as [g|] eqn:Eg; [|discriminate Ea].
  unfold groupby_agg in Eg.
  destruct (missing_label _ ui); [discriminate Eg|]. injection Eg as <-.
  cbn [except_bind] in Ea. injection Ea as <-.
  pose proof (sorted_keys_are_group_keys Nat.leb (@List.length Candidate)
                "incident_count" ui Hp) as K1.
  pose proof (sorted_keys_are_group_keys Qle_bool
                (fun g => Qsum (map (cells col_area_sq_km) g))
                "total_area_sq_km" ui Hp) as K2.
  split; [|split].
  - eapply Permutation_trans; [exact K1 | apply Permutation_sym; exact K2].
  - eapply Permutation_NoDup; [apply Permutation_sym; exact K2|].
    apply group_keys_NoDup.
  - intros Hpos r Hr.
    apply (Permutation_in _ (sort_values_desc_perm Qle_bool (@r_value (option Z) Q) _ Hp)) in Hr.
    unfold rank_rows in Hr; cbn [rows] in Hr. rewrite map_map in Hr.
    apply in_map_iff in Hr. destruct Hr as (k & <- & _). cbn [r_value snd].
    unfold Qsum. apply Qsum_from_nonneg; [apply Qle_refl|].
    apply Forall_forall. intros a Ha. apply in_map_iff in Ha.
    destruct Ha as (c & <- & Hc). apply Hpos.
    unfold group in Hc. apply filter_In in Hc. tauto.
Qed.

Lemma vessel_rankings_hold_the_same_vessels_witness :
  let ui := Sample.incidents_of
              (Sample.candidates_of Sample.spills12
                 [Sample.F1; Sample.F4; Sample.F5] 24) in
  exists counts areas,
    (sorter_permutes stable_sorter
     /\ incident_counts_sorted stable_sorter ui = Ok counts
     /\ area_sum_sorted stable_sorter ui = Ok areas)
    /\ Permutation (map (@r_key (option Z) nat) (rows counts)) (map (@r_key (option Z) Q) (rows areas))
    /\ NoDup (map (@r_key (option Z) Q) (rows areas))
    /\ ((forall c, In c (rows ui) -> (0 <= area_sq_km (spill c))%Q) ->
        forall r, In r (rows areas) -> (0 <= r_value r)%Q).
Proof.
  intros ui.
  destruct (incident_counts_sorted stable_sorter ui) as [counts|k] eqn:Ec;
    [|vm_compute in Ec; discriminate Ec].
  destruct (area_sum_sorted stable_sorter ui) as [areas|k] eqn:Ea;
    [|vm_compute in Ea; discriminate Ea].
  exists counts, areas.
  split; [split; [exact (proj1 stable_sorter_contract) | split; reflexivity]|].
  exact (@vessel_rankings_hold_the_same_vessels stable_sorter ui counts areas
           (proj1 stable_sorter_contract) Ec Ea).
Defined.

(** X18.  The vessel-type table is skipped, without error, when the column
    [VesselType] does not exist.  When it exists (and a sorting routine
    meeting the contract is used), the table is in descending order of the
    incident count, has one row per type, none for the null type, and its
    incident counts add up to the number of de-duplicated incidents whose
    type is not null. *)
Theorem vessel_type_analysis_tally (sort : Sorter) (ui : DataFrame Candidate) :
  sorter_permutes sort -> sorter_sorts sort ->
  has_column "spill_id" ui = true -> has_column "area_sq_km" ui = true ->
  (has_column "VesselType" ui = false -> vessel_type_analysis sort ui = Ok None)
  /\ (has_column "VesselType" ui = true ->
      exists t,
        vessel_type_analysis sort ui = Ok (Some t)
        /\ descending Nat.leb
             (fun r : RankRow (option string) (nat * Q) => fst (r_value r)) (rows t)
        /\ NoDup (map (@r_key (option string) (nat * Q)) (rows t))
        /\ (forall r, In r (rows t) -> r_key r <> None)
        /\ list_sum (map (fun r : RankRow (option string) (nat * Q) => fst (r_value r))
                       (rows t))
           = List.length
               (filter (fun c => negb (is_null (VesselType (vessel c)))) (rows ui))).
Proof.
  intros Hp Hs Hsp Ha. split.
  - intros Hv. unfold vessel_type_analysis. rewrite Hv. reflexivity.
  - intros Hv. unfold vessel_type_analysis. rewrite Hv.
    rewrite groupby_agg_ok by (simpl; rewrite Hv, Hsp, Ha; reflexivity).
    cbn [except_bind]. eexists. split; [reflexivity|].
    set (keys := group_keys col_VesselType (rows ui)).
    match goal with
    | |- context [rank_rows ?g] => set (grouped := g)
    end.
    set (value := fun r : RankRow (option string) (nat * Q) => fst (r_value r)).
    assert (Hperm : Permutation
                      (rows (sort_values_desc sort Nat.leb value (rank_rows grouped)))
                      (rows (rank_rows grouped)))
      by (apply sort_values_desc_perm; exact Hp).
    assert (Hkeys : map (@r_key (option string) (nat * Q)) (rows (rank_rows grouped))
                    = keys).
    { unfold rank_rows, grouped; cbn [rows]. rewrite !map_map. cbn [r_key fst].
      apply map_id. }
    assert (Hnd : NoDup keys) by apply group_keys_NoDup.
    split; [|split; [|split]].
    + apply sort_values_desc_descending; [exact Hs | exact Nat_leb_total_preorder].
    + eapply Permutation_NoDup;
        [apply Permutation_sym, Permutation_map; exact Hperm|].
      rewrite Hkeys. exact Hnd.
    + intros r Hr. apply (Permutation_in _ Hperm) in Hr.
      apply (in_map (@r_key (option string) (nat * Q))) in Hr. rewrite Hkeys in Hr.
      apply (group_keys_In col_VesselType) in Hr. destruct Hr as [_ Hr].
      destruct (r_key r); [discriminate | discriminate Hr].
    + rewrite (list_sum_permutation (Permutation_map value Hperm)).
      unfold rank_rows, grouped, value; cbn [rows]. rewrite !map_map. cbn [r_value fst snd].
      rewrite <- (group_sizes_add_up (cells col_VesselType) (keys := keys)
                    (filter (fun c => negb (is_null (VesselType (vessel c)))) (rows ui))).
      * f_equal. apply map_ext_in. intros k Hk. unfold group.
        rewrite filter_filter_implied; [reflexivity|].
        intros c Ec. apply key_eqb_eq in Ec.
        apply (group_keys_In col_VesselType) in Hk. destruct Hk as [_ Hk].
        cbn [cells col_VesselType] in Ec. rewrite Ec.
        destruct k; [reflexivity | discriminate Hk].
      * exact Hnd.
      * intros y Hy. apply filter_In in Hy. destruct Hy as [Hy Hn].
        apply (group_keys_In col_VesselType). split; [apply in_map; exact Hy|].
        cbn [cells col_VesselType].
        destruct (VesselType (vessel y)); [reflexivity | discriminate Hn].
Qed.

Lemma vessel_type_analysis_tally_witness :
  let ui := Sample.incidents_of
              (find_candidates (Some Sample.spills1) (Some Sample.typed_vessels) 24) in
  (sorter_permutes stable_sorter /\ sorter_sorts stable_sorter
   /\ has_column "spill_id" ui = true /\ has_column "area_sq_km" ui = true)
  /\ (has_column "VesselType" ui = false ->
      vessel_type_analysis stable_sorter ui = Ok None)
  /\ (has_column "VesselType" ui = true ->
      exists t,
        vessel_type_analysis stable_sorter ui = Ok (Some t)
        /\ descending Nat.leb
             (fun r : RankRow (option string) (nat * Q) => fst (r_value r)) (rows t)
        /\ NoDup (map (@r_key (option string) (nat * Q)) (rows t))
        /\ (forall r, In r (rows t) -> r_key r <> None)
        /\ list_sum (map (fun r : RankRow (option string) (nat * Q) => fst (r_value r))
                       (rows t))
           = List.length
               (filter (fun c => negb (is_null (VesselType (vessel c)))) (rows ui))).
Proof.
  intros ui.
  assert (H1 : has_column "spill_id" ui = true) by reflexivity.
  assert (H2 : has_column "area_sq_km" ui = true) by reflexivity.
  split; [repeat split; try apply stable_sorter_contract; assumption|].
  exact (@vessel_type_analysis_tally stable_sorter ui
           (proj1 stable_sorter_contract) (proj2 stable_sorter_contract) H1 H2).
Defined.

Example vessel_types_of_the_sample :
  let ui := Sample.incidents_of
              (find_candidates (Some Sample.spills1) (Some Sample.typed_vessels) 24) in
  exists t,
    vessel_type_analysis stable_sorter ui = Ok (Some t)
    /\ map (fun r => (r_key r, fst (r_value r))) (rows t)
       = [(Some "Tanker"%string, 2%nat); (Some "Cargo"%string, 1%nat)]
    /\ List.length (rows ui) = 4%nat.
Proof. eexists. split; [|split]; vm_compute; reflexivity. Qed.
